(** * Spatial layout core: layout worker, constraint solver, geometry validator

    A shallow embedding of

    - [workers/layout-worker/main.py]               (module [LayoutWorker]),
    - [workers/validate-worker/main.py]             (module [ValidateWorker]),
    - [workers/layout-worker/constraint_solver.py]  (module [ConstraintSolver]),

    followed by the properties of the specification that concern them.

    Conventions.

    - Python [float]s are read as exact rationals ([Q]); every decimal
      literal of the source is the rational it denotes ([0.4] is [4#10]).
      Equalities between floats are therefore stated with [==].  The
      program computes in doubles, which differ from these values in the
      last digits: where an outcome depends on the side of a threshold or
      of a rounding boundary on which a value falls, the statement leaves
      [Spec.noise] on either side and says nothing of what lies between.
    - Python [int]s are [Z]; [//] is [Z.div] (both round towards minus
      infinity for a positive divisor); [int(f)] truncates towards zero.
    - Rotations are the four quarter turns of the data model, for which
      cosine and sine are taken exactly.  (numpy's differ from them by
      about 1e-16, which matters to footprints that touch: what is said
      of touching footprints is said of footprints that are not turned,
      which the source does not rotate.)
    - Shapely polygons are only ever built from rectangles turned by a
      quarter turn, so a polygon is its vertex list and the Shapely
      predicates are the ones of axis-aligned rectangles, computed on the
      bounding box of the vertices.  A statement that depends on the
      shape of a polygon assumes it to be such a rectangle
      ([Spec.is_rectangle]).
    - A Python [dict] read with [.get(key, default)] is a record whose field
      is an [option].
    - The CP-SAT model of the constraint solver is data: the variables,
      the constraints and the objective the source hands to OR-tools, in
      a monad of model builders in which a call may raise. *)

From Stdlib Require Import ZArith QArith Qround Qminmax Qabs.
From Stdlib Require Import List String Ascii Bool Sorted.
From Stdlib Require Import Lia Lqa Psatz.
From Stdlib Require DecimalString.
Import ListNotations.

Local Open Scope Q_scope.

(** ** Numbers *)

Module Num.

(** Strict comparison of floats, [a < b]. *)
Definition Qltb (a b : Q) : bool := negb (Qle_bool b a).

(** [int(f)]: truncation towards zero. *)
Definition py_int (f : Q) : Z :=
  if Qle_bool 0 f then Qfloor f else Qceiling f.

(** [round(f, ndigits)]: the nearest multiple of [10^-ndigits]; a value
    half-way between two of them goes to the even one. *)
Definition round_half_even (f : Q) : Z :=
  let n := Qfloor f in
  let r := f - inject_Z n in
  if Qltb r (1#2) then n
  else if Qltb (1#2) r then (n + 1)%Z
  else if Z.even n then n else (n + 1)%Z.

Definition py_round (f : Q) (ndigits : nat) : Q :=
  let s := inject_Z (10 ^ Z.of_nat ndigits) in
  inject_Z (round_half_even (f * s)) / s.

(** Square roots are carried to nine decimals, rounded down: the result is
    the exact root whenever the argument is the square of a number with at
    most nine decimals, and comparing it with a bound of at most nine
    decimals gives what the exact root would give.  It stands for
    [x ** 0.5] and for the Euclidean norm inside Shapely's [distance]. *)
Definition sqrt_scale : Z := 1000000000.

Definition Qsqrt (x : Q) : Q :=
  inject_Z (Z.sqrt (Qfloor (x * inject_Z (sqrt_scale * sqrt_scale)))) / inject_Z sqrt_scale.

(** [np.mean] of a non-empty list. *)
Definition mean (l : list Q) : Q :=
  fold_right Qplus 0 l / inject_Z (Z.of_nat (List.length l)).

(** [str(n)] for a natural number. *)
Definition str_of_nat (n : nat) : string :=
  DecimalString.NilEmpty.string_of_uint (Nat.to_uint n).

End Num.
Import Num.

(** [enumerate(l)] restricted to what the source does with it: all pairs
    [(l[i], l[j])] with [i < j], in the order of the two nested loops. *)
Fixpoint pairs {A : Type} (l : list A) : list (A * A) :=
  match l with
  | [] => []
  | a :: t => map (fun b => (a, b)) t ++ pairs t
  end.

(** [next((f for f in l if p(f)), None)] *)
Definition next_such {A : Type} (p : A -> bool) (l : list A) : option A :=
  find p l.

(** [s in l] for a list of strings. *)
Definition str_in (s : string) (l : list string) : bool :=
  existsb (String.eqb s) l.

(** ** Job records shared by the workers (decoded JSON) *)

Module Json.

Inductive Rotation := Deg0 | Deg90 | Deg180 | Deg270.

(** [floor_plan["bounds"]]: each key may be missing. *)
Record Bounds := mkBounds
  { min_x : option Q; min_y : option Q; max_x : option Q; max_y : option Q }.

Definition no_bounds : Bounds := mkBounds None None None None.

Record Wall := mkWall
  { wall_id : string; wall_start : Q * Q; wall_end : Q * Q;
    thickness : option Q }.

Record Door := mkDoor
  { door_id : string; door_position : Q * Q; door_width : option Q;
    swing_direction : option string }.

Record Window := mkWindow
  { window_id : string; window_position : Q * Q }.

Record FloorPlan := mkFloorPlan
  { bounds : Bounds; walls : list Wall; doors : list Door;
    windows : list Window; area_sqm : option Q }.

(** A [dimensions] dictionary. *)
Record Dimensions := mkDimensions
  { width : option Q; depth : option Q; height : option Q }.

(** A [clearances] dictionary. *)
Record Clearances := mkClearances
  { front : option Q; back : option Q; sides : option Q; all : option Q }.

(** One entry of [layout["placements"]]. *)
Record Placement := mkPlacement
  { p_furniture_id : option string;
    p_x : option Q; p_y : option Q; p_rotation : option Rotation;
    p_anchor_type : option string;
    p_furniture_name : option string;
    p_dimensions : option Dimensions;
    p_price_cents : option Z;
    p_clearances : option Clearances }.

(** [job_data["constraints"]] *)
Record Constraints := mkConstraints
  { min_walkway_width : option Q;
    min_door_clearance : option Q;
    min_window_access : option Q;
    tv_viewing_distance_min : option Q;
    tv_viewing_distance_max : option Q;
    tv_viewing_angle_max : option Q }.

(** [d.get(key, default)] *)
Definition get {A : Type} (field : option A) (default : A) : A :=
  match field with Some v => v | None => default end.

End Json.
Import Json.

(** ** Coroutines: exceptions and the progress stream

    The workers are coroutines that write progress records to a Redis
    stream and may raise.  A computation takes the state of the outside
    world and returns an outcome together with the new state: what was
    written before an exception stays written. *)

Module Async.

Inductive Exc :=
| ZeroDivisionError
| KeyError (key : string)
| RedisError.

(** [str(e)] *)
Definition str_of_exc (e : Exc) : string :=
  match e with
  | ZeroDivisionError => "float division by zero"
  | KeyError k => k
  | RedisError => "redis"
  end.

Inductive Outcome (A : Type) :=
| Ok (a : A)
| Raise (e : Exc).
Arguments Ok {A} a.
Arguments Raise {A} e.

(** One record of a progress stream.  The [timestamp] field, read from the
    event loop clock, is left out. *)
Record ProgressRecord := mkProgress
  { pr_job_id : string; pr_progress : Q; pr_message : string }.

(** The global [redis_client] ([None] until connected), the streams it
    holds as the list of [(key, record)] in the order of the [xadd] calls,
    and for each coming [xadd] whether the server will fail on it. *)
Record World := mkWorld
  { redis_client : bool;
    stream : list (string * ProgressRecord);
    xadd_failures : list bool }.

Definition Async (A : Type) : Type := World -> Outcome A * World.

Definition ret {A} (a : A) : Async A := fun w => (Ok a, w).

Definition bind {A B} (c : Async A) (k : A -> Async B) : Async B :=
  fun w => match c w with
           | (Ok a, w') => k a w'
           | (Raise e, w') => (Raise e, w')
           end.

Definition raise {A} (e : Exc) : Async A := fun w => (Raise e, w).

(** A pure step that may raise. *)
Definition lift {A} (o : Outcome A) : Async A := fun w => (o, w).

(** [try: c  except Exception as e: h(e)] *)
Definition try_except {A} (c : Async A) (h : Exc -> A) : World -> A * World :=
  fun w => match c w with
           | (Ok a, w') => (a, w')
           | (Raise e, w') => (h e, w')
           end.

(** [redis_client.xadd(key, data)] *)
Definition xadd (key : string) (data : ProgressRecord) : Async unit :=
  fun w => match xadd_failures w with
           | true :: rest =>
               (Raise RedisError, mkWorld (redis_client w) (stream w) rest)
           | _ =>
               (Ok tt, mkWorld (redis_client w) (stream w ++ [(key, data)])
                               (tl (xadd_failures w)))
           end.

(** [update_job_progress], the same in both workers. *)
Definition update_job_progress (job_id : string) (progress : Q) (message : string)
  : Async unit :=
  fun w => if redis_client w
           then xadd ("job_progress:" ++ job_id) (mkProgress job_id progress message) w
           else (Ok tt, w).

Fixpoint mapM {A B} (f : A -> Async B) (l : list A) : Async (list B) :=
  match l with
  | [] => ret []
  | a :: t => bind (f a) (fun b => bind (mapM f t) (fun bs => ret (b :: bs)))
  end.

Module Notations.
Notation "x <- c ;; k" := (bind c (fun x => k))
  (at level 61, c at next level, right associativity).
Notation "c ;; k" := (bind c (fun _ => k))
  (at level 61, right associativity).
End Notations.

End Async.

(** ** Shapely, on rectangles

    The part of Shapely the workers call, for polygons that are
    axis-aligned rectangles.  A point is the polygon with that single
    vertex.  Lengths are metres. *)

Module Shapely.

Definition Point := (Q * Q)%type.
Definition Polygon := list Point.

Definition minimum (l : list Q) : Q :=
  match l with [] => 0 | a :: t => fold_right Qmin a t end.
Definition maximum (l : list Q) : Q :=
  match l with [] => 0 | a :: t => fold_right Qmax a t end.

(** [geom.bounds] is [(minx, miny, maxx, maxy)]. *)
Definition minx (g : Polygon) : Q := minimum (map fst g).
Definition miny (g : Polygon) : Q := minimum (map snd g).
Definition maxx (g : Polygon) : Q := maximum (map fst g).
Definition maxy (g : Polygon) : Q := maximum (map snd g).

(** [Polygon([(x0, y0), (x1, y0), (x1, y1), (x0, y1)])] *)
Definition rectangle (x0 y0 x1 y1 : Q) : Polygon :=
  [(x0, y0); (x1, y0); (x1, y1); (x0, y1)].

(** [geom.area] *)
Definition area (g : Polygon) : Q := (maxx g - minx g) * (maxy g - miny g).

(** [geom.centroid] *)
Definition centroid (g : Polygon) : Point :=
  ((minx g + maxx g) / 2, (miny g + maxy g) / 2).

(** Length of the common part of [[lo1, hi1]] and [[lo2, hi2]]; negative
    when they are apart, and then the opposite of the distance between
    them. *)
Definition overlap (lo1 hi1 lo2 hi2 : Q) : Q := Qmin hi1 hi2 - Qmax lo1 lo2.

Definition overlap_x (a b : Polygon) : Q := overlap (minx a) (maxx a) (minx b) (maxx b).
Definition overlap_y (a b : Polygon) : Q := overlap (miny a) (maxy a) (miny b) (maxy b).

(** [a.intersects(b)]: the two closed rectangles share a point. *)
Definition intersects (a b : Polygon) : bool :=
  Qle_bool 0 (overlap_x a b) && Qle_bool 0 (overlap_y a b).

(** [a.intersection(b).area] *)
Definition intersection_area (a b : Polygon) : Q :=
  Qmax 0 (overlap_x a b) * Qmax 0 (overlap_y a b).

(** [a.distance(b)]: Euclidean distance between the closest points;
    [distance_sq] is its square. *)
Definition distance_sq (a b : Polygon) : Q :=
  let gx := Qmax 0 (- overlap_x a b) in
  let gy := Qmax 0 (- overlap_y a b) in
  gx * gx + gy * gy.

Definition distance (a b : Polygon) : Q := Qsqrt (distance_sq a b).

(** [Point(x, y)] *)
Definition point (x y : Q) : Polygon := [(x, y)].

(** [g.contains(Point(x, y))]: the point is in the interior of [g]; a
    point of the boundary is not contained. *)
Definition contains_point (g : Polygon) (p : Point) : bool :=
  Qltb (minx g) (fst p) && Qltb (fst p) (maxx g)
  && Qltb (miny g) (snd p) && Qltb (snd p) (maxy g).

(** [g.contains(h)] for a rectangle [h]: no point of [h] is outside [g]. *)
Definition contains (g h : Polygon) : bool :=
  Qle_bool (minx g) (minx h) && Qle_bool (maxx h) (maxx g)
  && Qle_bool (miny g) (miny h) && Qle_bool (maxy h) (maxy g).

(** The closed rectangle [g] has the point. *)
Definition covers_point (g : Polygon) (p : Point) : bool :=
  Qle_bool (minx g) (fst p) && Qle_bool (fst p) (maxx g)
  && Qle_bool (miny g) (snd p) && Qle_bool (snd p) (maxy g).

(** [room.difference(unary_union(gs)).area]: the lines through the sides
    of all the rectangles cut the plane into cells, each of which is
    inside or outside every rectangle as a whole; the cells inside [room]
    and outside every one of [gs] are added up. *)
Fixpoint insert (a : Q) (l : list Q) : list Q :=
  match l with
  | [] => [a]
  | b :: t => if Qle_bool a b then a :: l else b :: insert a t
  end.

Definition sort (l : list Q) : list Q := fold_right insert [] l.

(** Consecutive elements. *)
Definition steps (l : list Q) : list (Q * Q) := combine l (tl l).

Definition difference_area (room : Polygon) (gs : list Polygon) : Q :=
  let xs := sort (map minx (room :: gs) ++ map maxx (room :: gs)) in
  let ys := sort (map miny (room :: gs) ++ map maxy (room :: gs)) in
  fold_right Qplus 0
    (flat_map (fun cx =>
       map (fun cy =>
              let mid := ((fst cx + snd cx) / 2, (fst cy + snd cy) / 2) in
              if covers_point room mid && negb (existsb (fun g => covers_point g mid) gs)
              then (snd cx - fst cx) * (snd cy - fst cy)
              else 0)
           (steps ys))
       (steps xs)).

End Shapely.

(** ** workers/layout-worker/main.py *)

Module LayoutWorker.
Import Async Async.Notations.
Local Open Scope string_scope.

Record LayoutJob := mkLayoutJob
  { job_id : string;
    room_id : string;
    floor_plan : FloorPlan;
    constraints : Constraints;
    style_prefs : list string;
    budget_cents : option Z }.

(** An entry of the furniture catalog. *)
Record Furniture := mkFurniture
  { id : string; name : string; category : string;
    dimensions : Dimensions;
    clearances : Clearances;
    price_cents : Z;
    style_tags : list string;
    placement_rules : list string;
    priority : Z }.

Definition dims (w d h : Q) : Dimensions := mkDimensions (Some w) (Some d) (Some h).
Definition fbs (f b s : Q) : Clearances := mkClearances (Some f) (Some b) (Some s) None.
Definition all_round (a : Q) : Clearances := mkClearances None None None (Some a).

(** [item["dimensions"]["width"]], [item["dimensions"]["depth"]]: the keys
    are present in every entry of the catalog. *)
Definition item_width (item : Furniture) : Q := get (width (dimensions item)) 0.
Definition item_depth (item : Furniture) : Q := get (depth (dimensions item)) 0.

Definition base_catalog : list Furniture :=
  [ mkFurniture "sofa_3seat" "3-Seat Sofa" "seating"
      (dims 2.28 0.95 0.83) (fbs 0.8 0.3 0.3)
      79900 ["modern"; "traditional"] ["against_wall"; "room_center"] 1;
    mkFurniture "armchair" "Armchair" "seating"
      (dims 0.8 0.85 0.9) (fbs 0.6 0.2 0.2)
      39900 ["modern"; "traditional"; "minimalist"] ["corner"; "accent"] 2;
    mkFurniture "coffee_table" "Coffee Table" "table"
      (dims 1.2 0.6 0.45) (all_round 0.4)
      24999 ["modern"; "minimalist"] ["sofa_front"] 2;
    mkFurniture "side_table" "Side Table" "table"
      (dims 0.5 0.5 0.55) (all_round 0.2)
      12999 ["modern"; "traditional"] ["sofa_side"; "chair_side"] 3;
    mkFurniture "tv_stand" "TV Stand" "storage"
      (dims 1.5 0.4 0.6) (fbs 1.5 0.1 0.2)
      34999 ["modern"; "minimalist"] ["against_wall"; "tv_viewing"] 2;
    mkFurniture "bookshelf" "Bookshelf" "storage"
      (dims 0.8 0.3 1.8) (fbs 0.5 0.1 0.1)
      29999 ["traditional"; "modern"] ["against_wall"] 3;
    mkFurniture "desk" "Desk" "work"
      (dims 1.2 0.6 0.75) (fbs 1.0 0.3 0.3)
      45999 ["modern"; "minimalist"] ["against_wall"; "window_adjacent"] 2;
    mkFurniture "office_chair" "Office Chair" "seating"
      (dims 0.6 0.6 1.2) (fbs 0.8 0.5 0.3)
      25999 ["modern"; "ergonomic"] ["desk_pair"] 2 ].

Definition determine_room_type (floor_plan : FloorPlan) : string :=
  let area := get (area_sqm floor_plan) 20.0 in
  if Qltb area 10 then "bedroom"
  else if Qltb area 25 then "living_room"
  else "open_plan".

(** The three filters of [generate_furniture_catalog], applied to a catalog.
    [if style_prefs:] is true of a non-empty list, [if filtered_catalog:]
    likewise, and [if budget_cents:] is true of an integer other than 0. *)
Definition filter_by_style (style_prefs : list string) (catalog : list Furniture)
  : list Furniture :=
  match style_prefs with
  | [] => catalog
  | _ =>
      let filtered_catalog :=
        filter (fun item => existsb (fun style => str_in style (style_tags item)) style_prefs)
               catalog in
      match filtered_catalog with
      | [] => catalog
      | _ => filtered_catalog
      end
  end.

Definition budget_given (budget_cents : option Z) : bool :=
  match budget_cents with
  | Some b => negb (b =? 0)%Z
  | None => false
  end.

Definition filter_by_budget (budget_cents : option Z) (catalog : list Furniture)
  : list Furniture :=
  if budget_given budget_cents
  then filter (fun item =>
                 Qle_bool (inject_Z (price_cents item))
                          (inject_Z (get budget_cents 0%Z) * 0.4))
              catalog
  else catalog.

Definition filter_by_room_size (area : Q) (catalog : list Furniture)
  : list Furniture :=
  if Qltb area 15
  then filter (fun item => Qltb (item_width item * item_depth item) 2.0) catalog
  else catalog.

Definition filter_catalog (catalog : list Furniture) (area : Q)
    (style_prefs : list string) (budget_cents : option Z) : list Furniture :=
  filter_by_room_size area
    (filter_by_budget budget_cents (filter_by_style style_prefs catalog)).

Definition generate_furniture_catalog (floor_plan : FloorPlan)
    (style_prefs : list string) (budget_cents : option Z) : list Furniture :=
  let area := get (area_sqm floor_plan) 20.0 in
  filter_catalog base_catalog area style_prefs budget_cents.

(** The dictionary returned by [build_constraint_model]. *)
Record Model := mkModel
  { room_bounds : Bounds;
    grid_size : Q;
    grid_width : Z;
    grid_height : Z;
    furniture_catalog : list Furniture;
    m_walls : list Wall;
    m_doors : list Door;
    m_windows : list Window;
    m_constraints : Constraints }.

Definition build_constraint_model (room_bounds : Bounds) (walls : list Wall)
    (doors : list Door) (windows : list Window)
    (furniture_catalog : list Furniture) (constraints : Constraints) : Model :=
  let room_width := get (max_x room_bounds) 5.0 - get (min_x room_bounds) 0.0 in
  let room_height := get (max_y room_bounds) 4.0 - get (min_y room_bounds) 0.0 in
  let grid_size := 0.2 in
  mkModel room_bounds grid_size
    (py_int (room_width / grid_size)) (py_int (room_height / grid_size))
    furniture_catalog walls doors windows
    (mkConstraints
       (Some (get (min_walkway_width constraints) 0.8))
       (Some (get (min_door_clearance constraints) 0.8))
       (Some (get (min_window_access constraints) 0.6))
       (Some (get (tv_viewing_distance_min constraints) 1.5))
       (Some (get (tv_viewing_distance_max constraints) 4.0))
       (Some (get (tv_viewing_angle_max constraints) 30))).

(** A placement as [generate_layout_solution] writes it. *)
Record SolutionPlacement := mkSolutionPlacement
  { sp_furniture_id : string;
    sp_x : Q; sp_y : Q; sp_rotation : Rotation;
    sp_anchor_type : string }.

Record Solution := mkSolution
  { s_strategy : string; s_name : string;
    s_placements : list SolutionPlacement }.

(** [if item: placements.append({...})] for
    [item = next((f for f in furniture_catalog if f["id"] == wanted), None)] *)
Definition place (furniture_catalog : list Furniture) (wanted : string)
    (x y : Q) (rotation : Rotation) (anchor_type : string)
  : list SolutionPlacement :=
  match next_such (fun f => String.eqb (id f) wanted) furniture_catalog with
  | Some item => [mkSolutionPlacement (id item) x y rotation anchor_type]
  | None => []
  end.

Definition generate_layout_solution (model : Model) (strategy name : string)
  : Solution :=
  let catalog := furniture_catalog model in
  let placements :=
    if String.eqb strategy "conversation_focused" then
      (place catalog "sofa_3seat" 1.0 0.5 Deg0 "wall_aligned"
       ++ place catalog "coffee_table" 1.0 1.8 Deg0 "sofa_front"
       ++ place catalog "armchair" 3.5 1.0 Deg270 "conversation_angle")%list
    else if String.eqb strategy "work_focused" then
      (place catalog "desk" 4.0 1.0 Deg90 "window_adjacent"
       ++ place catalog "office_chair" 3.2 1.0 Deg90 "desk_pair"
       ++ place catalog "sofa_3seat" 1.0 2.5 Deg0 "wall_aligned")%list
    else
      (place catalog "tv_stand" 2.5 0.2 Deg0 "wall_centered"
       ++ place catalog "sofa_3seat" 2.5 2.8 Deg180 "tv_viewing"
       ++ place catalog "side_table" 1.0 2.8 Deg0 "sofa_side")%list in
  mkSolution strategy name placements.

Definition solve_layout_variants (model : Model) (num_variants : nat)
  : list Solution :=
  map (fun variant =>
         match variant with
         | O => generate_layout_solution model "conversation_focused" "Cozy Conversation"
         | S O => generate_layout_solution model "work_focused" "Work & Lounge"
         | _ => generate_layout_solution model "entertainment_focused" "Entertainment Hub"
         end)
      (seq 0 num_variants).

Definition calculate_layout_score (solution : Solution)
    (furniture_catalog : list Furniture) (floor_plan : FloorPlan) : Q :=
  let placement_score := 0.8 in
  let flow_score := 0.9 in
  let function_score := 0.85 in
  let aesthetic_score := 0.75 in
  let total_score :=
    placement_score * 0.3 + flow_score * 0.3
    + function_score * 0.25 + aesthetic_score * 0.15 in
  py_round total_score 3.

Definition generate_layout_rationale (solution : Solution) (score : Q) : string :=
  let strategy := s_strategy solution in
  let base_rationale :=
    if String.eqb strategy "conversation_focused" then
      "Optimized for social interaction with furniture arranged to encourage conversation and comfortable seating distances."
    else if String.eqb strategy "work_focused" then
      "Designed for productivity with dedicated workspace near natural light and separate relaxation area."
    else if String.eqb strategy "entertainment_focused" then
      "Centered around media consumption with optimal TV viewing angles and comfortable seating arrangement."
    else "Balanced layout considering room constraints and user preferences." in
  if Qle_bool 0.85 score then
    base_rationale ++ " Excellent spatial efficiency and flow."
  else if Qle_bool 0.75 score then
    base_rationale ++ " Good balance of function and aesthetics."
  else base_rationale ++ " Functional arrangement with room for optimization.".

Definition check_furniture_overlap (p1 p2 : SolutionPlacement)
    (furniture_catalog : list Furniture) : bool :=
  let dx := sp_x p1 - sp_x p2 in
  let dy := sp_y p1 - sp_y p2 in
  let distance := Qsqrt (dx * dx + dy * dy) in
  Qltb distance 1.0.

Definition check_clearance_requirements (placement : SolutionPlacement)
    (furniture_catalog : list Furniture) (floor_plan : FloorPlan) : bool :=
  true.

Definition validate_layout_constraints (solution : Solution)
    (furniture_catalog : list Furniture) (floor_plan : FloorPlan) : list string :=
  let placements := s_placements solution in
  let overlaps :=
    flat_map (fun p =>
                if check_furniture_overlap (fst p) (snd p) furniture_catalog
                then ["Furniture overlap detected between "
                        ++ sp_furniture_id (fst p) ++ " and " ++ sp_furniture_id (snd p)]
                else [])
             (pairs placements) in
  let clearances :=
    flat_map (fun placement =>
                if check_clearance_requirements placement furniture_catalog floor_plan
                then []
                else ["Insufficient clearance around " ++ sp_furniture_id placement])
             placements in
  List.app overlaps clearances.

Definition calculate_coverage_ratio (placements : list Placement)
    (floor_plan : FloorPlan) : Outcome Q :=
  let total_area := get (area_sqm floor_plan) 20.0 in
  let furniture_area :=
    fold_right Qplus 0
      (map (fun p =>
              let d := get (p_dimensions p) (mkDimensions None None None) in
              get (width d) 1.0 * get (depth d) 1.0)
           placements) in
  if Qeq_bool total_area 0 then Raise ZeroDivisionError
  else Ok (Qmin 1.0 (furniture_area / total_area)).

Definition calculate_flow_score (placements : list Placement)
    (floor_plan : FloorPlan) : Q := 0.85.

Record Metrics := mkMetrics
  { total_cost_cents : Z;
    furniture_count : nat;
    coverage_ratio : Q;
    flow_score : Q }.

Record Layout := mkLayout
  { l_id : string; l_name : string; l_strategy : string;
    l_placements : list Placement;
    l_score : Q; l_rationale : string; l_violations : list string;
    l_metrics : Metrics }.

(** [{**placement, "furniture_name": ..., "dimensions": ..., "price_cents": ...}] *)
Definition enrich (placement : SolutionPlacement) (furniture : Furniture) : Placement :=
  mkPlacement (Some (sp_furniture_id placement))
              (Some (sp_x placement)) (Some (sp_y placement))
              (Some (sp_rotation placement)) (Some (sp_anchor_type placement))
              (Some (name furniture)) (Some (dimensions furniture))
              (Some (price_cents furniture)) None.

Definition post_process_layout (solution : Solution)
    (furniture_catalog : list Furniture) (floor_plan : FloorPlan)
    (layout_id : string) : Outcome Layout :=
  let score := calculate_layout_score solution furniture_catalog floor_plan in
  let rationale := generate_layout_rationale solution score in
  let violations := validate_layout_constraints solution furniture_catalog floor_plan in
  let enriched_placements :=
    flat_map (fun placement =>
                match next_such (fun f => String.eqb (id f) (sp_furniture_id placement))
                                furniture_catalog with
                | Some furniture => [enrich placement furniture]
                | None => []
                end)
             (s_placements solution) in
  match calculate_coverage_ratio enriched_placements floor_plan with
  | Raise e => Raise e
  | Ok coverage =>
      Ok (mkLayout layout_id (s_name solution) (s_strategy solution)
            enriched_placements score rationale violations
            (mkMetrics
               (fold_right Z.add 0%Z
                  (map (fun p => get (p_price_cents p) 0%Z) enriched_placements))
               (List.length enriched_placements)
               coverage
               (calculate_flow_score enriched_placements floor_plan)))
  end.

Record LayoutResult := mkLayoutResult
  { r_job_id : string;
    r_status : string;
    r_layouts : option (list Layout);
    r_error : option string;
    r_progress : Q }.

(** [enumerate(l)] *)
Definition enumerate {A} (l : list A) : list (nat * A) :=
  combine (seq 0 (List.length l)) l.

(** The body of the [try] block of [generate_layouts]. *)
Definition generate_layouts_body (job : LayoutJob) : Async LayoutResult :=
  let job_id := job_id job in
  let floor_plan := floor_plan job in
  update_job_progress job_id 0.1 "Initializing constraint model" ;;
  let room_bounds := bounds floor_plan in
  let walls := walls floor_plan in
  let doors := doors floor_plan in
  let windows := windows floor_plan in
  update_job_progress job_id 0.2 "Analyzing room geometry" ;;
  let furniture_catalog :=
    generate_furniture_catalog floor_plan (style_prefs job) (budget_cents job) in
  update_job_progress job_id 0.3 "Building constraint model" ;;
  let constraint_model :=
    build_constraint_model room_bounds walls doors windows furniture_catalog
                           (constraints job) in
  update_job_progress job_id 0.5 "Solving layout constraints" ;;
  let layout_solutions := solve_layout_variants constraint_model 3 in
  update_job_progress job_id 0.8 "Optimizing and scoring layouts" ;;
  layouts <- mapM (fun '(i, solution) =>
                     lift (post_process_layout solution furniture_catalog floor_plan
                             (job_id ++ "_layout_" ++ str_of_nat (i + 1))))
                  (enumerate layout_solutions) ;;
  update_job_progress job_id 1.0 "Layout generation complete" ;;
  ret (mkLayoutResult job_id "completed" (Some layouts) None 1.0).

Definition generate_layouts (job : LayoutJob) : World -> LayoutResult * World :=
  try_except (generate_layouts_body job)
    (fun e => mkLayoutResult (job_id job) "failed" None (Some (str_of_exc e)) 0.0).

End LayoutWorker.

(** ** workers/validate-worker/main.py *)

Module ValidateWorker.
Import Async Async.Notations Shapely.
Local Open Scope string_scope.

Record ValidationJob := mkValidationJob
  { job_id : string;
    layout_id : string;
    room_id : string;
    floor_plan : FloorPlan;
    layout_placements : list Placement;   (* layout.get("placements", []) *)
    constraints : Constraints }.

(** A wall line buffered by half its thickness, and a door position
    buffered by the door width; the validator reads only the centre of the
    latter. *)
Record WallGeometry := mkWallGeometry
  { wg_id : string; wg_start : Point; wg_end : Point; wg_radius : Q }.

Record DoorGeometry := mkDoorGeometry
  { dg_id : string; dg_center : Point; dg_radius : Q; dg_swing_direction : string }.

Record RoomGeometry := mkRoomGeometry
  { room_polygon : Polygon;
    rg_walls : list WallGeometry;
    rg_doors : list DoorGeometry;
    rg_bounds : Bounds }.

(** [if bounds:] holds of a dictionary with at least one key. *)
Definition bounds_given (b : Bounds) : bool :=
  match min_x b, min_y b, max_x b, max_y b with
  | None, None, None, None => false
  | _, _, _, _ => true
  end.

(** [bounds[key]] *)
Definition item {A} (key : string) (field : option A) : Outcome A :=
  match field with Some v => Ok v | None => Raise (KeyError key) end.

(** When [bounds] is missing and there are walls, the source takes the
    convex hull of the wall end points; the hull is represented by these
    points, which is exact when they span an axis-aligned rectangle.  (For
    other walls the hull is smaller than the bounding box through which
    the points are read, and for a single wall the source raises.) *)
Definition parse_room_geometry (floor_plan : FloorPlan) : Outcome RoomGeometry :=
  let walls := walls floor_plan in
  let doors := doors floor_plan in
  let bounds := bounds floor_plan in
  let room :=
    if bounds_given bounds then
      match item "min_x" (min_x bounds), item "min_y" (min_y bounds),
            item "max_x" (max_x bounds), item "max_y" (max_y bounds) with
      | Ok x0, Ok y0, Ok x1, Ok y1 => Ok (rectangle x0 y0 x1 y1)
      | Raise e, _, _, _ => Raise e
      | _, Raise e, _, _ => Raise e
      | _, _, Raise e, _ => Raise e
      | _, _, _, Raise e => Raise e
      end
    else
      let wall_points := flat_map (fun w => [wall_start w; wall_end w]) walls in
      match wall_points with
      | [] => Ok (rectangle 0 0 5 4)
      | _ => Ok wall_points
      end in
  match room with
  | Raise e => Raise e
  | Ok room_polygon =>
      Ok (mkRoomGeometry room_polygon
            (map (fun w => mkWallGeometry (wall_id w) (wall_start w) (wall_end w)
                             (get (thickness w) 0.15 / 2))
                 walls)
            (map (fun d => mkDoorGeometry (door_id d) (door_position d)
                             (get (door_width d) 0.8)
                             (get (swing_direction d) "inward"))
                 doors)
            bounds)
  end.

Record FurnitureGeometry := mkFurnitureGeometry
  { fg_id : string;
    fg_name : string;
    geometry : Polygon;
    fg_placement : Placement;
    fg_clearances : Clearances }.

(** [np.cos(np.radians(rotation))], [np.sin(np.radians(rotation))] *)
Definition cos_deg (r : Rotation) : Q :=
  match r with Deg0 => 1 | Deg90 => 0 | Deg180 => -1 | Deg270 => 0 end.
Definition sin_deg (r : Rotation) : Q :=
  match r with Deg0 => 0 | Deg90 => 1 | Deg180 => 0 | Deg270 => -1 end.

Definition furniture_polygon (placement : Placement) : Polygon :=
  let x := get (p_x placement) 0 in
  let y := get (p_y placement) 0 in
  let rotation := get (p_rotation placement) Deg0 in
  let dimensions :=
    get (p_dimensions placement) (mkDimensions (Some 1.0) (Some 1.0) (Some 0.8)) in
  let width := get (width dimensions) 1.0 in
  let depth := get (depth dimensions) 1.0 in
  let half_width := width / 2 in
  let half_depth := depth / 2 in
  let points :=
    [(- half_width, - half_depth); (half_width, - half_depth);
     (half_width, half_depth); (- half_width, half_depth)] in
  let points :=
    match rotation with
    | Deg0 => points
    | _ =>
        let cos_a := cos_deg rotation in
        let sin_a := sin_deg rotation in
        map (fun '(px, py) => (px * cos_a - py * sin_a, px * sin_a + py * cos_a)) points
    end in
  map (fun '(px, py) => (px + x, py + y)) points.

Definition create_furniture_geometries (placements : list Placement)
  : list FurnitureGeometry :=
  map (fun placement =>
         mkFurnitureGeometry
           (get (p_furniture_id placement) "unknown")
           (get (p_furniture_name placement) "Unknown")
           (furniture_polygon placement)
           placement
           (get (p_clearances placement) (mkClearances None None None (Some 0.4))))
      placements.

(** The entries of the [violations] lists, each standing for the message
    the source formats from it. *)
Inductive Violation :=
| CollisionBetween (name1 name2 : string)
| ExtendsOutsideRoomBoundary (name : string)
| CompletelyOutsideRoom (name : string)
| InsufficientClearanceBetween (name1 name2 : string)
| TooCloseToDoor (name : string) (min_door_clearance : Q)
| InsufficientWalkableArea.

Record CollisionPair := mkCollisionPair
  { cp_furniture_1 : string;
    cp_furniture_2 : string;
    overlap_area : Q;
    severity : string }.

(** The result of [check_collisions].  The messages about walls, and the
    count [boundary_violations] that depends on them, are left out: they
    rest on Shapely's polygonal approximation of a buffered line. *)
Record CollisionResults := mkCollisionResults
  { c_violations : list Violation;
    collision_pairs : list CollisionPair;
    total_collisions : nat }.

Definition check_collisions (furniture_geometries : list FurnitureGeometry)
    (room_geometry : RoomGeometry) : CollisionResults :=
  let colliding :=
    filter (fun '(furn1, furn2) => intersects (geometry furn1) (geometry furn2))
           (pairs furniture_geometries) in
  let collision_pairs :=
    map (fun '(furn1, furn2) =>
           let overlap_area := intersection_area (geometry furn1) (geometry furn2) in
           mkCollisionPair (fg_id furn1) (fg_id furn2) overlap_area
             (if Qltb 0.1 overlap_area then "high" else "medium"))
        colliding in
  let room_polygon := room_polygon room_geometry in
  let violations :=
    List.app
      (map (fun '(furn1, furn2) => CollisionBetween (fg_name furn1) (fg_name furn2))
           colliding)
      (flat_map (fun furniture =>
                   if contains room_polygon (geometry furniture) then []
                   else if intersects (geometry furniture) room_polygon
                        then [ExtendsOutsideRoomBoundary (fg_name furniture)]
                        else [CompletelyOutsideRoom (fg_name furniture)])
                furniture_geometries) in
  mkCollisionResults violations collision_pairs (List.length collision_pairs).

Record ClearanceIssue := mkClearanceIssue
  { ci_furniture_1 : string;
    ci_furniture_2 : string;
    actual_distance : Q;
    required_distance : Q;
    deficit : Q }.

Record ClearanceResults := mkClearanceResults
  { cl_violations : list Violation;
    clearance_issues : list ClearanceIssue;
    total_issues : nat;
    walkable_area_ratio : Q }.

Definition required_clearance (furn1 furn2 : FurnitureGeometry) : Q :=
  Qmax (get (all (fg_clearances furn1)) 0.4) (get (all (fg_clearances furn2)) 0.4).

Definition validate_clearances (furniture_geometries : list FurnitureGeometry)
    (room_geometry : RoomGeometry) (constraints : Constraints) : ClearanceResults :=
  let min_door_clearance := get (min_door_clearance constraints) 0.8 in
  let too_close :=
    filter (fun '(furn1, furn2) =>
              Qltb (distance (geometry furn1) (geometry furn2))
                   (required_clearance furn1 furn2))
           (pairs furniture_geometries) in
  let clearance_issues :=
    map (fun '(furn1, furn2) =>
           let distance := distance (geometry furn1) (geometry furn2) in
           let required := required_clearance furn1 furn2 in
           mkClearanceIssue (fg_id furn1) (fg_id furn2)
             (py_round distance 2) required (py_round (required - distance) 2))
        too_close in
  let door_violations :=
    flat_map (fun door =>
                let door_center := point (fst (dg_center door)) (snd (dg_center door)) in
                flat_map (fun furniture =>
                            if Qltb (distance door_center (geometry furniture))
                                    min_door_clearance
                            then [TooCloseToDoor (fg_name furniture) min_door_clearance]
                            else [])
                         furniture_geometries)
             (rg_doors room_geometry) in
  let room_polygon := room_polygon room_geometry in
  let walkable_area := difference_area room_polygon (map geometry furniture_geometries) in
  let walkway_violations :=
    if Qltb walkable_area (area room_polygon * 0.3)
    then [InsufficientWalkableArea] else [] in
  mkClearanceResults
    (List.app
       (map (fun '(furn1, furn2) =>
               InsufficientClearanceBetween (fg_name furn1) (fg_name furn2))
            too_close)
       (List.app door_violations walkway_violations))
    clearance_issues
    (List.length clearance_issues)
    (if Qltb 0 (area room_polygon) then walkable_area / area room_polygon else 0).

Record Accessibility := mkAccessibility
  { score : Q;
    door_accessibility : Q;
    window_accessibility : Q;
    flow_efficiency : Q;
    blocked_doors : nat;
    blocked_windows : nat }.

(** The inner loop of [analyze_accessibility]: some piece of furniture is
    at a distance below [clearance] from the point. *)
Definition blocked (furniture_geometries : list FurnitureGeometry)
    (position : Q * Q) (clearance : Q) : bool :=
  existsb (fun furniture =>
             Qltb (distance (point (fst position) (snd position)) (geometry furniture))
                  clearance)
          furniture_geometries.

Definition door_access_scores (furniture_geometries : list FurnitureGeometry)
    (doors : list Door) : list Q :=
  map (fun door =>
         if blocked furniture_geometries (door_position door) 0.8 then 0.0 else 1.0)
      doors.

Definition window_access_scores (furniture_geometries : list FurnitureGeometry)
    (windows : list Window) : list Q :=
  map (fun window =>
         if blocked furniture_geometries (window_position window) 0.6 then 0.0 else 1.0)
      windows.

Definition analyze_accessibility (furniture_geometries : list FurnitureGeometry)
    (room_geometry : RoomGeometry) (floor_plan : FloorPlan) : Outcome Accessibility :=
  let door_access_scores := door_access_scores furniture_geometries (doors floor_plan) in
  let window_access_scores :=
    window_access_scores furniture_geometries (windows floor_plan) in
  let room_polygon := room_polygon room_geometry in
  let walkable_area := difference_area room_polygon (map geometry furniture_geometries) in
  if Qeq_bool (area room_polygon * 0.4) 0 then Raise ZeroDivisionError
  else
    let flow_efficiency := Qmin 1.0 (walkable_area / (area room_polygon * 0.4)) in
    let door_score :=
      match door_access_scores with [] => 1.0 | _ => mean door_access_scores end in
    let window_score :=
      match window_access_scores with [] => 1.0 | _ => mean window_access_scores end in
    let overall_score := door_score * 0.5 + window_score * 0.3 + flow_efficiency * 0.2 in
    Ok (mkAccessibility
          (py_round overall_score 3)
          door_score
          window_score
          (py_round flow_efficiency 3)
          (List.length (filter (fun score => Qeq_bool score 0) door_access_scores))
          (List.length (filter (fun score => Qeq_bool score 0) window_access_scores))).

Record Heatmap := mkHeatmap
  { grid : list (list Q);
    h_bounds : Q * Q * Q * Q;
    resolution : Q;
    h_width : Z;
    h_height : Z }.

(** [min(min_distance, distance)] over the furniture, from
    [float('inf')], which is [None]. *)
Definition nearest (p : Polygon) (furniture_geometries : list FurnitureGeometry)
  : option Q :=
  fold_left (fun min_distance furniture =>
               let distance := distance p (geometry furniture) in
               match min_distance with
               | None => Some distance
               | Some m => Some (Qmin m distance)
               end)
            furniture_geometries None.

(** The value the heatmap gives to the point [(x, y)]: the body of the two
    loops of [generate_navigation_heatmap], once [x] and [y] are known. *)
Definition heatmap_value (furniture_geometries : list FurnitureGeometry)
    (room_polygon : Polygon) (x y : Q) : Q :=
  if negb (contains_point room_polygon (x, y)) then -1
  else
    match nearest (point x y) furniture_geometries with
    | Some min_distance =>
        if Qltb min_distance 0.3 then 0.0
        else if Qltb 1.5 min_distance then 1.0
        else (min_distance - 0.3) / 1.2
    | None => 1.0
    end.

(** The value of the cell in row [i] and column [j]. *)
Definition heatmap_cell (furniture_geometries : list FurnitureGeometry)
    (room_polygon : Polygon) (grid_resolution : Q) (i j : nat) : Q :=
  let x := minx room_polygon + inject_Z (Z.of_nat j) * grid_resolution in
  let y := miny room_polygon + inject_Z (Z.of_nat i) * grid_resolution in
  heatmap_value furniture_geometries room_polygon x y.

Definition generate_navigation_heatmap (furniture_geometries : list FurnitureGeometry)
    (room_geometry : RoomGeometry) : Heatmap :=
  let room_polygon := room_polygon room_geometry in
  let bounds := (minx room_polygon, miny room_polygon,
                 maxx room_polygon, maxy room_polygon) in
  let grid_resolution := 0.2 in
  let width := maxx room_polygon - minx room_polygon in
  let height := maxy room_polygon - miny room_polygon in
  let grid_width := (py_int (width / grid_resolution) + 1)%Z in
  let grid_height := (py_int (height / grid_resolution) + 1)%Z in
  let heatmap :=
    map (fun i =>
           map (fun j => heatmap_cell furniture_geometries room_polygon grid_resolution i j)
               (seq 0 (Z.to_nat grid_width)))
        (seq 0 (Z.to_nat grid_height)) in
  mkHeatmap heatmap bounds grid_resolution grid_width grid_height.

Definition calculate_overall_score (collision_results : CollisionResults)
    (clearance_results : ClearanceResults) (accessibility_results : Accessibility) : Q :=
  let collision_penalty :=
    Qmin 1.0 (inject_Z (Z.of_nat (total_collisions collision_results)) * 0.2) in
  let clearance_penalty :=
    Qmin 1.0 (inject_Z (Z.of_nat (total_issues clearance_results)) * 0.1) in
  let base_score := score accessibility_results in
  let final_score := base_score * (1.0 - collision_penalty) * (1.0 - clearance_penalty) in
  py_round (Qmax 0.0 final_score) 3.

Definition calculate_space_utilization (furniture_geometries : list FurnitureGeometry)
    (room_geometry : RoomGeometry) : Q :=
  let room_area := area (room_polygon room_geometry) in
  let furniture_area :=
    fold_right Qplus 0 (map (fun f => area (geometry f)) furniture_geometries) in
  let utilization_ratio := if Qltb 0 room_area then furniture_area / room_area else 0 in
  if Qle_bool 0.25 utilization_ratio && Qle_bool utilization_ratio 0.35 then 1.0
  else if Qltb utilization_ratio 0.25 then utilization_ratio / 0.25
  else Qmax 0.0 (1.0 - (utilization_ratio - 0.35) / 0.3).

Record ReportMetrics := mkReportMetrics
  { accessibility_score : Q;
    m_flow_efficiency : Q;
    space_utilization : Q }.

(** The validation report.  The [recommendations], texts chosen from the
    other fields, and the metric [total_violations], which counts the
    messages about walls too, are left out. *)
Record ValidationReport := mkValidationReport
  { overall_score : Q;
    collisions : CollisionResults;
    clearances : ClearanceResults;
    accessibility : Accessibility;
    metrics : ReportMetrics }.

Record ValidationResult := mkValidationResult
  { r_job_id : string;
    r_layout_id : string;
    r_status : string;
    validation_report : option ValidationReport;
    heatmap_data : option Heatmap;
    r_error : option string;
    r_progress : Q }.

(** The body of the [try] block of [validate_layout]. *)
Definition validate_layout_body (job : ValidationJob) : Async ValidationResult :=
  let job_id := job_id job in
  let floor_plan := floor_plan job in
  update_job_progress job_id 0.1 "Starting layout validation" ;;
  room_geometry <- lift (parse_room_geometry floor_plan) ;;
  update_job_progress job_id 0.2 "Analyzing furniture placements" ;;
  let furniture_geometries := create_furniture_geometries (layout_placements job) in
  update_job_progress job_id 0.4 "Checking collisions" ;;
  let collision_results := check_collisions furniture_geometries room_geometry in
  update_job_progress job_id 0.6 "Validating clearances" ;;
  let clearance_results :=
    validate_clearances furniture_geometries room_geometry (constraints job) in
  update_job_progress job_id 0.8 "Analyzing accessibility" ;;
  accessibility_results <-
    lift (analyze_accessibility furniture_geometries room_geometry floor_plan) ;;
  update_job_progress job_id 0.9 "Generating heatmaps" ;;
  let heatmap_data := generate_navigation_heatmap furniture_geometries room_geometry in
  update_job_progress job_id 1.0 "Validation complete" ;;
  let validation_report :=
    mkValidationReport
      (calculate_overall_score collision_results clearance_results accessibility_results)
      collision_results clearance_results accessibility_results
      (mkReportMetrics
         (score accessibility_results)
         (flow_efficiency accessibility_results)
         (calculate_space_utilization furniture_geometries room_geometry)) in
  ret (mkValidationResult job_id (layout_id job) "completed"
         (Some validation_report) (Some heatmap_data) None 1.0).

Definition validate_layout (job : ValidationJob) : World -> ValidationResult * World :=
  try_except (validate_layout_body job)
    (fun e => mkValidationResult (job_id job) (layout_id job) "failed"
                None None (Some (str_of_exc e)) 0.0).

End ValidateWorker.

(** ** workers/layout-worker/constraint_solver.py *)

Module ConstraintSolver.
Local Open Scope string_scope.
Local Open Scope Z_scope.

Record FurnitureItem := mkFurnitureItem
  { id : string;
    name : string;
    width_cm : Z;
    depth_cm : Z;
    height_cm : Z;
    category : string;
    clearances : list (string * Z);    (* cm *)
    placement_rules : list string;
    priority : Z;
    price_cents : Z }.

(** [clearances.get(key, default)] *)
Fixpoint dict_get (d : list (string * Z)) (key : string) (default : Z) : Z :=
  match d with
  | [] => default
  | (k, v) :: t => if String.eqb k key then v else dict_get t key default
  end.

(** [room_constraints.bounds], with the four keys the solver reads. *)
Record RoomBounds := mkRoomBounds
  { min_x : Q; min_y : Q; max_x : Q; max_y : Q }.

Record RoomConstraints := mkRoomConstraints
  { bounds : RoomBounds;     (* metres *)
    walls : list Wall;
    doors : list Door;
    windows : list Window;
    min_walkway_cm : Z;
    min_door_clearance_cm : Z;
    min_window_access_cm : Z }.

Record PlacementSolution := mkPlacementSolution
  { furniture_id : string;
    x_cm : Z;
    y_cm : Z;
    rotation_deg : Z;
    confidence : Q }.

(** [objectives], a dictionary with three optional weights. *)
Record Objectives := mkObjectives
  { placement_coverage : option Q;
    budget_optimization : option Q;
    flow_optimization : option Q }.

Definition grid_resolution_cm : Z := 2.

(** *** The CP-SAT model

    The part of [ortools.sat.python.cp_model] the solver calls.  The model
    [self.model] is the list of its variables, the list of its constraints
    and its objective; a variable is known by its index.  The calls that
    build it may raise, and an exception leaves [solve_layout] at once:
    what the model holds at that moment is not kept.

    An expression over the variables is what the Python operators [+],
    [-] and [*] make of variables and numbers; a comparison of two
    expressions is a [BoundedLinearExpression]. *)

Inductive LinearExpr :=
| Const (k : Z)
| FloatConst (f : Q)
| IntVar (index : nat)
| Plus (a b : LinearExpr)
| Times (a : LinearExpr) (k : Z).

(** [a - b] *)
Definition Minus (a b : LinearExpr) : LinearExpr := Plus a (Times b (-1)).

Inductive BoundedLinearExpression :=
| Le (a b : LinearExpr)
| Ge (a b : LinearExpr)
| Eq (a b : LinearExpr).

(** An element of the list given to [OnlyEnforceIf] or [AddBoolOr]: the
    source writes variables there, and comparisons such as [rot_var == 0]. *)
Inductive Object :=
| Expr (e : LinearExpr)
| Bounded (b : BoundedLinearExpression).

Inductive ConstraintProto :=
| Linear (b : BoundedLinearExpression)
| BoolOr (literals : list nat)
| AbsEquality (target expr : LinearExpr).

Record Constraint := mkConstraint
  { proto : ConstraintProto;
    enforcement_literal : list nat }.

Record CpModel := mkCpModel
  { variables : list (string * Z * Z);    (* name, lower bound, upper bound *)
    constraints : list Constraint;
    maximized : option LinearExpr }.

(** [cp_model.CpModel()] *)
Definition empty_model : CpModel := mkCpModel [] [] None.

(** [Refused] stands for the [TypeError] or the [AttributeError] with
    which the library refuses an argument of the wrong kind; which of the
    two it is depends on the call and on the version of the library. *)
Inductive Error :=
| KeyError (key : string)
| Refused.

Inductive Result (A : Type) :=
| Done (a : A)
| Raised (e : Error).
Arguments Done {A} a.
Arguments Raised {A} e.

Definition Build (A : Type) : Type := CpModel -> Result (A * CpModel).

Definition ret {A} (a : A) : Build A := fun m => Done (a, m).

Definition bind {A B} (c : Build A) (k : A -> Build B) : Build B :=
  fun m => match c m with
           | Done (a, m') => k a m'
           | Raised e => Raised e
           end.

Definition lift {A} (r : Result A) : Build A :=
  fun m => match r with Done a => Done (a, m) | Raised e => Raised e end.

Local Notation "x <- c ;; k" := (bind c (fun x => k))
  (at level 61, c at next level, right associativity).
Local Notation "c ;; k" := (bind c (fun _ => k))
  (at level 61, right associativity).

(** [for a in l: body(a)] *)
Fixpoint for_each {A} (l : list A) (body : A -> Build unit) : Build unit :=
  match l with
  | [] => ret tt
  | a :: t => body a ;; for_each t body
  end.

(** [model.NewIntVar(lb, ub, name)] *)
Definition NewIntVar (lb ub : Z) (name : string) : Build LinearExpr :=
  fun m => Done (IntVar (List.length (variables m)),
                 mkCpModel (List.app (variables m) [(name, lb, ub)])
                           (constraints m) (maximized m)).

(** [model.NewBoolVar(name)] *)
Definition NewBoolVar (name : string) : Build LinearExpr := NewIntVar 0 1 name.

(** A new constraint, returned as its index in the model. *)
Definition new_constraint (p : ConstraintProto) : Build nat :=
  fun m => Done (List.length (constraints m),
                 mkCpModel (variables m)
                           (List.app (constraints m) [mkConstraint p []])
                           (maximized m)).

(** [model.Add(ct)] *)
Definition Add (ct : BoundedLinearExpression) : Build nat := new_constraint (Linear ct).

(** A literal is a Boolean variable.  A comparison is none: it has no
    index in the model, and the library raises when it is given one. *)
Definition literal (o : Object) : Result nat :=
  match o with
  | Expr (IntVar index) => Done index
  | _ => Raised Refused
  end.

Fixpoint literals (l : list Object) : Result (list nat) :=
  match l with
  | [] => Done []
  | o :: t =>
      match literal o with
      | Raised e => Raised e
      | Done index =>
          match literals t with
          | Raised e => Raised e
          | Done indices => Done (index :: indices)
          end
      end
  end.

Fixpoint enforce (ct : nat) (indices : list nat) (l : list Constraint) : list Constraint :=
  match l, ct with
  | [], _ => []
  | c :: t, O => mkConstraint (proto c) (List.app (enforcement_literal c) indices) :: t
  | c :: t, S n => c :: enforce n indices t
  end.

(** [ct.OnlyEnforceIf(l)] *)
Definition OnlyEnforceIf (ct : nat) (l : list Object) : Build unit :=
  fun m => match literals l with
           | Raised e => Raised e
           | Done indices =>
               Done (tt, mkCpModel (variables m) (enforce ct indices (constraints m))
                                   (maximized m))
           end.

(** [model.AddBoolOr(l)] *)
Definition AddBoolOr (l : list Object) : Build nat :=
  indices <- lift (literals l) ;; new_constraint (BoolOr indices).

(** An expression with whole coefficients and offset. *)
Fixpoint integral (e : LinearExpr) : bool :=
  match e with
  | Const _ | IntVar _ => true
  | FloatConst _ => false
  | Plus a b => integral a && integral b
  | Times a _ => integral a
  end.

(** [model.AddAbsEquality(target, expr)] *)
Definition AddAbsEquality (target expr : LinearExpr) : Build nat :=
  if integral target && integral expr then new_constraint (AbsEquality target expr)
  else fun _ => Raised Refused.

(** [a * b]: one of the two has to be a number. *)
Definition multiply (a b : LinearExpr) : Result LinearExpr :=
  match a, b with
  | _, Const k => Done (Times a k)
  | Const k, _ => Done (Times b k)
  | _, _ => Raised Refused
  end.

(** [sum(l)], from [0]. *)
Definition sum_of (l : list LinearExpr) : LinearExpr := fold_left Plus l (Const 0).

(** [model.Maximize(obj)] *)
Definition Maximize (obj : LinearExpr) : Build unit :=
  fun m => Done (tt, mkCpModel (variables m) (constraints m) (Some obj)).

Inductive Status := UNKNOWN | MODEL_INVALID | FEASIBLE | INFEASIBLE | OPTIMAL.

(** [status == cp_model.OPTIMAL or status == cp_model.FEASIBLE] *)
Definition found (status : Status) : bool :=
  match status with OPTIMAL | FEASIBLE => true | _ => false end.

(** [solver.Value(v)], for the values the search has found. *)
Definition Value (values : nat -> Z) (v : LinearExpr) : Z :=
  match v with
  | IntVar index => values index
  | _ => 0
  end.

(** A dictionary keyed by strings: [d[key] = v] and [d[key]]. *)
Definition Dict (V : Type) : Type := list (string * V).

Definition setitem {V} (d : Dict V) (key : string) (v : V) : Dict V := (key, v) :: d.

Fixpoint getitem {V} (d : Dict V) (key : string) : Result V :=
  match d with
  | [] => Raised (KeyError key)
  | (k, v) :: t => if String.eqb k key then Done v else getitem t key
  end.

(** *** The solver *)

(** The size of the grid, which bounds the position variables.  (The
    source truncates the product of doubles, which for some bounds is one
    below the exact product truncated.) *)
Definition grid_width (room_constraints : RoomConstraints) : Z :=
  let room_width_cm :=
    py_int ((max_x (bounds room_constraints) - min_x (bounds room_constraints)) * 100)%Q in
  room_width_cm / grid_resolution_cm.

Definition grid_height (room_constraints : RoomConstraints) : Z :=
  let room_height_cm :=
    py_int ((max_y (bounds room_constraints) - min_y (bounds room_constraints)) * 100)%Q in
  room_height_cm / grid_resolution_cm.

(** The three dictionaries of decision variables: [placement_vars] with
    the pair of ['x'] and ['y'], [rotation_vars] and [placed_vars]. *)
Definition Variables : Type :=
  (Dict (LinearExpr * LinearExpr) * Dict LinearExpr * Dict LinearExpr)%type.

(** The first loop of [solve_layout]. *)
Fixpoint decision_variables (furniture_items : list FurnitureItem)
    (grid_width grid_height : Z) (vars : Variables) : Build Variables :=
  match furniture_items with
  | [] => ret vars
  | item :: rest =>
      let '(placement_vars, rotation_vars, placed_vars) := vars in
      x_var <- NewIntVar 0 (grid_width - 1) (id item ++ "_x") ;;
      y_var <- NewIntVar 0 (grid_height - 1) (id item ++ "_y") ;;
      rot_var <- NewIntVar 0 3 (id item ++ "_rot") ;;
      placed_var <- NewBoolVar (id item ++ "_placed") ;;
      decision_variables rest grid_width grid_height
        (setitem placement_vars (id item) (x_var, y_var),
         setitem rotation_vars (id item) rot_var,
         setitem placed_vars (id item) placed_var)
  end.

Definition _add_boundary_constraints (furniture_items : list FurnitureItem)
    (placement_vars : Dict (LinearExpr * LinearExpr))
    (rotation_vars placed_vars : Dict LinearExpr) (grid_width grid_height : Z)
  : Build unit :=
  for_each furniture_items (fun item =>
    xy <- lift (getitem placement_vars (id item)) ;;
    let x_var := fst xy in
    let y_var := snd xy in
    rot_var <- lift (getitem rotation_vars (id item)) ;;
    placed_var <- lift (getitem placed_vars (id item)) ;;
    let width_grid := width_cm item / grid_resolution_cm in
    let depth_grid := depth_cm item / grid_resolution_cm in
    let when (rotation : Z) := [Expr placed_var; Bounded (Eq rot_var (Const rotation))] in
    ct <- Add (Le (Plus x_var (Const width_grid)) (Const grid_width)) ;;
    OnlyEnforceIf ct (when 0) ;;
    ct <- Add (Le (Plus x_var (Const width_grid)) (Const grid_width)) ;;
    OnlyEnforceIf ct (when 2) ;;
    ct <- Add (Le (Plus y_var (Const depth_grid)) (Const grid_height)) ;;
    OnlyEnforceIf ct (when 0) ;;
    ct <- Add (Le (Plus y_var (Const depth_grid)) (Const grid_height)) ;;
    OnlyEnforceIf ct (when 2) ;;
    ct <- Add (Le (Plus x_var (Const depth_grid)) (Const grid_width)) ;;
    OnlyEnforceIf ct (when 1) ;;
    ct <- Add (Le (Plus x_var (Const depth_grid)) (Const grid_width)) ;;
    OnlyEnforceIf ct (when 3) ;;
    ct <- Add (Le (Plus y_var (Const width_grid)) (Const grid_height)) ;;
    OnlyEnforceIf ct (when 1) ;;
    ct <- Add (Le (Plus y_var (Const width_grid)) (Const grid_height)) ;;
    OnlyEnforceIf ct (when 3)).

Definition _get_rotated_dimensions (item : FurnitureItem) (rotation : Z) : Z * Z :=
  if (rotation =? 0) || (rotation =? 2)
  then (width_cm item, depth_cm item)
  else (depth_cm item, width_cm item).

(** [str(r)] for a rotation index. *)
Definition str_of_Z (r : Z) : string := str_of_nat (Z.to_nat r).

Definition _add_collision_constraints (furniture_items : list FurnitureItem)
    (placement_vars : Dict (LinearExpr * LinearExpr))
    (rotation_vars placed_vars : Dict LinearExpr) : Build unit :=
  for_each (pairs furniture_items) (fun '(item1, item2) =>
    xy1 <- lift (getitem placement_vars (id item1)) ;;
    let x1 := fst xy1 in
    let y1 := snd xy1 in
    rot1 <- lift (getitem rotation_vars (id item1)) ;;
    placed1 <- lift (getitem placed_vars (id item1)) ;;
    xy2 <- lift (getitem placement_vars (id item2)) ;;
    let x2 := fst xy2 in
    let y2 := snd xy2 in
    rot2 <- lift (getitem rotation_vars (id item2)) ;;
    placed2 <- lift (getitem placed_vars (id item2)) ;;
    for_each [0; 1; 2; 3] (fun r1 =>
      for_each [0; 1; 2; 3] (fun r2 =>
        let '(w1, h1) := _get_rotated_dimensions item1 r1 in
        let '(w2, h2) := _get_rotated_dimensions item2 r2 in
        let w1_grid := w1 / grid_resolution_cm in
        let h1_grid := h1 / grid_resolution_cm in
        let w2_grid := w2 / grid_resolution_cm in
        let h2_grid := h2 / grid_resolution_cm in
        let prefix :=
          "no_overlap_" ++ id item1 ++ "_" ++ id item2 ++ "_"
            ++ str_of_Z r1 ++ "_" ++ str_of_Z r2 in
        b1 <- NewBoolVar (prefix ++ "_x1") ;;
        b2 <- NewBoolVar (prefix ++ "_x2") ;;
        b3 <- NewBoolVar (prefix ++ "_y1") ;;
        b4 <- NewBoolVar (prefix ++ "_y2") ;;
        ct <- AddBoolOr [Expr b1; Expr b2; Expr b3; Expr b4] ;;
        OnlyEnforceIf ct [Expr placed1; Expr placed2;
                          Bounded (Eq rot1 (Const r1)); Bounded (Eq rot2 (Const r2))] ;;
        ct <- Add (Le (Plus x1 (Const w1_grid)) x2) ;;
        OnlyEnforceIf ct [Expr b1] ;;
        ct <- Add (Le (Plus x2 (Const w2_grid)) x1) ;;
        OnlyEnforceIf ct [Expr b2] ;;
        ct <- Add (Le (Plus y1 (Const h1_grid)) y2) ;;
        OnlyEnforceIf ct [Expr b3] ;;
        ct <- Add (Le (Plus y2 (Const h2_grid)) y1) ;;
        OnlyEnforceIf ct [Expr b4]))).

(** [distance_var == |a - a'| + |b - b'|], with its three variables: the
    distance is [NewIntVar(0, hi, ...)], the absolute values are
    [NewIntVar(0, 1000, ...)].  Returns [distance_var]. *)
Definition manhattan_distance (hi : Z) (prefix suffix : string)
    (a b a' b' : LinearExpr) : Build LinearExpr :=
  distance_var <- NewIntVar 0 hi (prefix ++ "dist_" ++ suffix) ;;
  abs_x <- NewIntVar 0 1000 (prefix ++ "abs_x_" ++ suffix) ;;
  abs_y <- NewIntVar 0 1000 (prefix ++ "abs_y_" ++ suffix) ;;
  AddAbsEquality abs_x (Minus a a') ;;
  AddAbsEquality abs_y (Minus b b') ;;
  Add (Eq distance_var (Plus abs_x abs_y)) ;;
  ret distance_var.

Definition _add_clearance_constraints (furniture_items : list FurnitureItem)
    (placement_vars : Dict (LinearExpr * LinearExpr))
    (rotation_vars placed_vars : Dict LinearExpr) (room_constraints : RoomConstraints)
  : Build unit :=
  for_each (pairs furniture_items) (fun '(item1, item2) =>
    let clearance1 := dict_get (clearances item1) "all" 40 in
    let clearance2 := dict_get (clearances item2) "all" 40 in
    let min_clearance := Z.max clearance1 clearance2 in
    let clearance_grid := min_clearance / grid_resolution_cm in
    xy1 <- lift (getitem placement_vars (id item1)) ;;
    xy2 <- lift (getitem placement_vars (id item2)) ;;
    placed1 <- lift (getitem placed_vars (id item1)) ;;
    placed2 <- lift (getitem placed_vars (id item2)) ;;
    distance_var <-
      manhattan_distance 1000 "" (id item1 ++ "_" ++ id item2)
        (fst xy1) (snd xy1) (fst xy2) (snd xy2) ;;
    ct <- Add (Ge distance_var (Const clearance_grid)) ;;
    OnlyEnforceIf ct [Expr placed1; Expr placed2]).

Definition _add_door_constraints (furniture_items : list FurnitureItem)
    (placement_vars : Dict (LinearExpr * LinearExpr))
    (rotation_vars placed_vars : Dict LinearExpr) (room_constraints : RoomConstraints)
  : Build unit :=
  for_each (doors room_constraints) (fun door =>
    let door_x_cm := py_int (fst (door_position door) * 100)%Q in
    let door_y_cm := py_int (snd (door_position door) * 100)%Q in
    let door_x_grid := door_x_cm / grid_resolution_cm in
    let door_y_grid := door_y_cm / grid_resolution_cm in
    let clearance_grid := min_door_clearance_cm room_constraints / grid_resolution_cm in
    for_each furniture_items (fun item =>
      xy <- lift (getitem placement_vars (id item)) ;;
      placed_var <- lift (getitem placed_vars (id item)) ;;
      distance_to_door <-
        manhattan_distance 1000 "door_" (id item ++ "_" ++ door_id door)
          (fst xy) (snd xy) (Const door_x_grid) (Const door_y_grid) ;;
      ct <- Add (Ge distance_to_door (Const clearance_grid)) ;;
      OnlyEnforceIf ct [Expr placed_var])).

Definition _add_window_constraints (furniture_items : list FurnitureItem)
    (placement_vars : Dict (LinearExpr * LinearExpr))
    (rotation_vars placed_vars : Dict LinearExpr) (room_constraints : RoomConstraints)
  : Build unit :=
  for_each (windows room_constraints) (fun window =>
    let window_x_cm := py_int (fst (window_position window) * 100)%Q in
    let window_y_cm := py_int (snd (window_position window) * 100)%Q in
    let window_x_grid := window_x_cm / grid_resolution_cm in
    let window_y_grid := window_y_cm / grid_resolution_cm in
    let access_grid := min_window_access_cm room_constraints / grid_resolution_cm in
    for_each furniture_items (fun item =>
      if 100 <? height_cm item then
        xy <- lift (getitem placement_vars (id item)) ;;
        placed_var <- lift (getitem placed_vars (id item)) ;;
        distance_to_window <-
          manhattan_distance 1000 "window_" (id item ++ "_" ++ window_id window)
            (fst xy) (snd xy) (Const window_x_grid) (Const window_y_grid) ;;
        ct <- Add (Ge distance_to_window (Const access_grid)) ;;
        OnlyEnforceIf ct [Expr placed_var]
      else ret tt)).

(** [s.lower()] on the ASCII letters. *)
Definition lower_ascii (c : ascii) : ascii :=
  let n := nat_of_ascii c in
  if (Nat.leb 65 n && Nat.leb n 90)%bool then ascii_of_nat (n + 32) else c.

Fixpoint lower (s : string) : string :=
  match s with
  | EmptyString => EmptyString
  | String c t => String (lower_ascii c) (lower t)
  end.

(** [needle in hay] *)
Fixpoint is_in (needle hay : string) : bool :=
  if String.prefix needle hay then true
  else match hay with
       | EmptyString => false
       | String _ t => is_in needle t
       end.

(** The loop of [_add_sofa_table_constraint] computes targets from the
    variables it has looked up, and adds nothing to the model. *)
Definition _add_sofa_table_constraint (sofa table : FurnitureItem)
    (placement_vars : Dict (LinearExpr * LinearExpr))
    (rotation_vars placed_vars : Dict LinearExpr) : Build unit :=
  sofa_xy <- lift (getitem placement_vars (id sofa)) ;;
  sofa_rot <- lift (getitem rotation_vars (id sofa)) ;;
  sofa_placed <- lift (getitem placed_vars (id sofa)) ;;
  table_xy <- lift (getitem placement_vars (id table)) ;;
  table_placed <- lift (getitem placed_vars (id table)) ;;
  ret tt.

Definition _add_desk_chair_constraint (desk chair : FurnitureItem)
    (placement_vars : Dict (LinearExpr * LinearExpr))
    (rotation_vars placed_vars : Dict LinearExpr) : Build unit :=
  let optimal_dist_grid := 70 / grid_resolution_cm in
  desk_xy <- lift (getitem placement_vars (id desk)) ;;
  desk_placed <- lift (getitem placed_vars (id desk)) ;;
  chair_xy <- lift (getitem placement_vars (id chair)) ;;
  chair_placed <- lift (getitem placed_vars (id chair)) ;;
  distance_var <-
    manhattan_distance 1000 "desk_chair_" (id desk ++ "_" ++ id chair)
      (fst desk_xy) (snd desk_xy) (fst chair_xy) (snd chair_xy) ;;
  ct <- Add (Ge distance_var (Const (optimal_dist_grid - 10))) ;;
  OnlyEnforceIf ct [Expr desk_placed; Expr chair_placed] ;;
  ct <- Add (Le distance_var (Const (optimal_dist_grid + 10))) ;;
  OnlyEnforceIf ct [Expr desk_placed; Expr chair_placed].

Definition _add_tv_viewing_constraint (tv sofa : FurnitureItem)
    (placement_vars : Dict (LinearExpr * LinearExpr))
    (rotation_vars placed_vars : Dict LinearExpr) : Build unit :=
  let min_dist_grid := 200 / grid_resolution_cm in
  let max_dist_grid := 400 / grid_resolution_cm in
  tv_xy <- lift (getitem placement_vars (id tv)) ;;
  tv_placed <- lift (getitem placed_vars (id tv)) ;;
  sofa_xy <- lift (getitem placement_vars (id sofa)) ;;
  sofa_placed <- lift (getitem placed_vars (id sofa)) ;;
  distance_var <-
    manhattan_distance 2000 "tv_sofa_" (id tv ++ "_" ++ id sofa)
      (fst tv_xy) (snd tv_xy) (fst sofa_xy) (snd sofa_xy) ;;
  ct <- Add (Ge distance_var (Const min_dist_grid)) ;;
  OnlyEnforceIf ct [Expr tv_placed; Expr sofa_placed] ;;
  ct <- Add (Le distance_var (Const max_dist_grid)) ;;
  OnlyEnforceIf ct [Expr tv_placed; Expr sofa_placed].

Definition _add_functional_constraints (furniture_items : list FurnitureItem)
    (placement_vars : Dict (LinearExpr * LinearExpr))
    (rotation_vars placed_vars : Dict LinearExpr) : Build unit :=
  let named (word : string) :=
    filter (fun item => is_in word (lower (name item))) furniture_items in
  let sofas := named "sofa" in
  let coffee_tables := named "coffee" in
  let desks := named "desk" in
  let chairs := named "chair" in
  let tv_stands := named "tv" in
  for_each sofas (fun sofa =>
    for_each coffee_tables (fun table =>
      _add_sofa_table_constraint sofa table placement_vars rotation_vars placed_vars)) ;;
  for_each desks (fun desk =>
    for_each chairs (fun chair =>
      _add_desk_chair_constraint desk chair placement_vars rotation_vars placed_vars)) ;;
  for_each tv_stands (fun tv =>
    for_each sofas (fun sofa =>
      _add_tv_viewing_constraint tv sofa placement_vars rotation_vars placed_vars)).

(** [objectives.get(key, 0) > 0] *)
Definition weighted (w : option Q) : bool := Qltb 0 (get w 0%Q).

(** [(bounds["max_x"] * 50) // grid_resolution_cm], a whole number held
    in a float. *)
Definition room_center_x (room_constraints : RoomConstraints) : Z :=
  Qfloor (max_x (bounds room_constraints) * 50 / inject_Z grid_resolution_cm)%Q.
Definition room_center_y (room_constraints : RoomConstraints) : Z :=
  Qfloor (max_y (bounds room_constraints) * 50 / inject_Z grid_resolution_cm)%Q.

(** [sum(f(item) for item in furniture_items)], each term looked up
    first. *)
Fixpoint terms (furniture_items : list FurnitureItem)
    (term : FurnitureItem -> Result LinearExpr) : Result (list LinearExpr) :=
  match furniture_items with
  | [] => Done []
  | item :: rest =>
      match term item with
      | Raised e => Raised e
      | Done t =>
          match terms rest term with
          | Raised e => Raised e
          | Done ts => Done (t :: ts)
          end
      end
  end.

(** The third part of [_add_objectives]: one term for every item. *)
Fixpoint flow_terms (furniture_items : list FurnitureItem)
    (placement_vars : Dict (LinearExpr * LinearExpr)) (placed_vars : Dict LinearExpr)
    (room_constraints : RoomConstraints) (weight : Z) : Build (list LinearExpr) :=
  match furniture_items with
  | [] => ret []
  | item :: rest =>
      xy <- lift (getitem placement_vars (id item)) ;;
      placed_var <- lift (getitem placed_vars (id item)) ;;
      center_dist <- NewIntVar 0 2000 ("center_dist_" ++ id item) ;;
      abs_x <- NewIntVar 0 1000 ("center_abs_x_" ++ id item) ;;
      abs_y <- NewIntVar 0 1000 ("center_abs_y_" ++ id item) ;;
      AddAbsEquality abs_x
        (Minus (fst xy) (FloatConst (inject_Z (room_center_x room_constraints)))) ;;
      AddAbsEquality abs_y
        (Minus (snd xy) (FloatConst (inject_Z (room_center_y room_constraints)))) ;;
      Add (Eq center_dist (Plus abs_x abs_y)) ;;
      flow_bonus <- NewIntVar 0 10000 ("flow_bonus_" ++ id item) ;;
      product <- lift (multiply center_dist placed_var) ;;
      Add (Eq flow_bonus product) ;;
      others <- flow_terms rest placement_vars placed_vars room_constraints weight ;;
      ret (Times flow_bonus weight :: others)
  end.

Definition _add_objectives (furniture_items : list FurnitureItem)
    (placement_vars : Dict (LinearExpr * LinearExpr))
    (rotation_vars placed_vars : Dict LinearExpr) (objectives : Objectives)
    (room_constraints : RoomConstraints) : Build unit :=
  coverage_terms <-
    (if weighted (placement_coverage objectives) then
       placed <- lift (terms furniture_items (fun item => getitem placed_vars (id item))) ;;
       let total_placed := sum_of placed in
       ret [Times total_placed (py_int (get (placement_coverage objectives) 0%Q * 1000)%Q)]
     else ret []) ;;
  budget_terms <-
    (if weighted (budget_optimization objectives) then
       costs <- lift (terms furniture_items (fun item =>
                        match getitem placed_vars (id item) with
                        | Done placed_var => Done (Times placed_var (price_cents item))
                        | Raised e => Raised e
                        end)) ;;
       let total_cost := sum_of costs in
       ret [Times (Times total_cost (-1))
                  (py_int (get (budget_optimization objectives) 0%Q))]
     else ret []) ;;
  flow <-
    (if weighted (flow_optimization objectives) then
       flow_terms furniture_items placement_vars placed_vars room_constraints
         (py_int (get (flow_optimization objectives) 0%Q * 100)%Q)
     else ret []) ;;
  let objective_terms := List.app coverage_terms (List.app budget_terms flow) in
  match objective_terms with
  | [] => ret tt
  | _ => Maximize (sum_of objective_terms)
  end.

Fixpoint _extract_solution (furniture_items : list FurnitureItem)
    (placement_vars : Dict (LinearExpr * LinearExpr))
    (rotation_vars placed_vars : Dict LinearExpr) (values : nat -> Z)
  : Build (list PlacementSolution) :=
  match furniture_items with
  | [] => ret []
  | item :: rest =>
      placed_var <- lift (getitem placed_vars (id item)) ;;
      if Value values placed_var =? 0 then
        _extract_solution rest placement_vars rotation_vars placed_vars values
      else
        xy <- lift (getitem placement_vars (id item)) ;;
        let x_grid := Value values (fst xy) in
        let y_grid := Value values (snd xy) in
        rot_var <- lift (getitem rotation_vars (id item)) ;;
        let rotation := Value values rot_var in
        let x_cm := x_grid * grid_resolution_cm in
        let y_cm := y_grid * grid_resolution_cm in
        let rotation_deg := rotation * 90 in
        let solution := mkPlacementSolution (id item) x_cm y_cm rotation_deg 0.9%Q in
        solutions <-
          _extract_solution rest placement_vars rotation_vars placed_vars values ;;
        ret (solution :: solutions)
  end.

Section Search.

(** [self.solver.Solve(self.model)], the CP-SAT search, is outside the
    repository: it answers a status and values for the variables. *)
Variable search : CpModel -> Status * (nat -> Z).

Definition Solve : Build (Status * (nat -> Z)) := fun m => Done (search m, m).

Definition solve_layout (furniture_items : list FurnitureItem)
    (room_constraints : RoomConstraints) (objectives : Objectives)
  : Build (list PlacementSolution) :=
  let grid_width := grid_width room_constraints in
  let grid_height := grid_height room_constraints in
  vars <- decision_variables furniture_items grid_width grid_height ([], [], []) ;;
  let '(placement_vars, rotation_vars, placed_vars) := vars in
  _add_boundary_constraints furniture_items placement_vars rotation_vars placed_vars
    grid_width grid_height ;;
  _add_collision_constraints furniture_items placement_vars rotation_vars placed_vars ;;
  _add_clearance_constraints furniture_items placement_vars rotation_vars placed_vars
    room_constraints ;;
  _add_door_constraints furniture_items placement_vars rotation_vars placed_vars
    room_constraints ;;
  _add_window_constraints furniture_items placement_vars rotation_vars placed_vars
    room_constraints ;;
  _add_functional_constraints furniture_items placement_vars rotation_vars placed_vars ;;
  _add_objectives furniture_items placement_vars rotation_vars placed_vars objectives
    room_constraints ;;
  answer <- Solve ;;
  let '(status, values) := answer in
  if found status then
    _extract_solution furniture_items placement_vars rotation_vars placed_vars values
  else ret [].

End Search.

(** *** The value of the objective

    What the terms of [_add_objectives] add up to when the variables of
    the item [i] have the values [a i]. *)

Record Vars := mkVars { x : Z; y : Z; rot : Z; placed : bool }.


Definition manhattan (a b a' b' : Z) : Z := Z.abs (a - a') + Z.abs (b - b').

(** [flow_bonus], equal to [center_dist * placed_var]. *)
Definition flow_bonus (room_constraints : RoomConstraints) (v : Vars) : Z :=
  manhattan (x v) (y v) (room_center_x room_constraints) (room_center_y room_constraints)
  * (if placed v then 1 else 0).



End ConstraintSolver.

(** ** workers/validate-worker/main.py: messages and recommendations

    [check_collisions] with its messages about walls and its count of
    boundary violations, [generate_recommendations], and the metric
    [total_violations] of the validation report. *)

Module ValidateReport.
Import Shapely ValidateWorker.
Local Open Scope string_scope.

(** The dictionary returned by [check_collisions], whole. *)
Record CollisionReport := mkCollisionReport
  { violations : list string;
    collision_pairs : list CollisionPair;
    total_collisions : nat;
    boundary_violations : nat }.

Section Walls.

(** [furniture["geometry"].intersects(wall["geometry"])].  The geometry of
    a wall is its line buffered by half its thickness, which Shapely
    approximates by a polygon; the test is left to this function. *)
Variable intersects_wall : Polygon -> WallGeometry -> bool.

(** [f"{x}"] for a float. *)
Variable format_float : Q -> string.

(** The text of a violation. *)
Definition message (v : Violation) : string :=
  match v with
  | CollisionBetween name1 name2 => "Collision between " ++ name1 ++ " and " ++ name2
  | ExtendsOutsideRoomBoundary name => name ++ " extends outside room boundary"
  | CompletelyOutsideRoom name => name ++ " is completely outside room"
  | InsufficientClearanceBetween name1 name2 =>
      "Insufficient clearance between " ++ name1 ++ " and " ++ name2
  | TooCloseToDoor name min_door_clearance =>
      name ++ " too close to door (min " ++ format_float min_door_clearance ++ "m)"
  | InsufficientWalkableArea => "Insufficient walkable area in room"
  end.

(** The third loop of [check_collisions]. *)
Definition wall_messages (furniture_geometries : list FurnitureGeometry)
    (room_geometry : RoomGeometry) : list string :=
  flat_map (fun furniture =>
              flat_map (fun wall =>
                          if intersects_wall (geometry furniture) wall
                          then [fg_name furniture ++ " intersects with wall"]
                          else [])
                       (rg_walls room_geometry))
           furniture_geometries.

(** ["boundary" in v or "wall" in v] *)
Definition mentions_boundary (v : string) : bool :=
  ConstraintSolver.is_in "boundary" v || ConstraintSolver.is_in "wall" v.

Definition check_collisions (furniture_geometries : list FurnitureGeometry)
    (room_geometry : RoomGeometry) : CollisionReport :=
  let results := ValidateWorker.check_collisions furniture_geometries room_geometry in
  let violations :=
    List.app (map message (c_violations results))
             (wall_messages furniture_geometries room_geometry) in
  mkCollisionReport violations
    (ValidateWorker.collision_pairs results)
    (List.length (ValidateWorker.collision_pairs results))
    (List.length (filter mentions_boundary violations)).

Definition generate_recommendations (collision_results : CollisionReport)
    (clearance_results : ClearanceResults) (accessibility_results : Accessibility)
  : list string :=
  List.app
    (if Nat.ltb 0 (total_collisions collision_results)
     then ["Move overlapping furniture to eliminate collisions"] else [])
    (List.app
       (if Nat.ltb 0 (boundary_violations collision_results)
        then ["Ensure all furniture fits within room boundaries"] else [])
       (List.app
          (if Nat.ltb 0 (total_issues clearance_results)
           then ["Increase spacing between furniture for better flow"] else [])
          (List.app
             (if Qltb (walkable_area_ratio clearance_results) 0.3
              then ["Reduce furniture density to improve walkability"] else [])
             (List.app
                (if Nat.ltb 0 (blocked_doors accessibility_results)
                 then ["Clear pathways to doors for emergency access"] else [])
                (List.app
                   (if Nat.ltb 0 (blocked_windows accessibility_results)
                    then ["Improve access to windows for natural light and ventilation"]
                    else [])
                   (if Qltb (flow_efficiency accessibility_results) 0.7
                    then ["Reorganize furniture to create better navigation paths"]
                    else [])))))).

(** [metrics["total_violations"]] of the validation report. *)
Definition total_violations (collision_results : CollisionReport)
    (clearance_results : ClearanceResults) : nat :=
  List.length (violations collision_results)
  + List.length (cl_violations clearance_results).

End Walls.

End ValidateReport.

(** ** Vocabulary of the specification *)

Module Spec.
Import Shapely.

(** [l] is [l'] with some elements removed, the others in their order. *)
Inductive subsequence {A : Type} : list A -> list A -> Prop :=
| sub_nil : subsequence [] []
| sub_skip a l l' : subsequence l l' -> subsequence l (a :: l')
| sub_keep a l l' : subsequence l l' -> subsequence (a :: l) (a :: l').

(** The keys do not decrease along the list. *)
Definition sorted_by {A : Type} (key : A -> Z) (l : list A) : Prop :=
  Sorted (fun a b => (key a <= key b)%Z) l.

(** The footprint of a placement when its position is read, as the data
    model of the specification has it, as the lower-left corner of the
    rotated axis-aligned bounding box.  (The validator centres the
    rectangle on the position instead, see [furniture_polygon].) *)
Definition corner_footprint (placement : Placement) : Polygon :=
  let x := get (p_x placement) 0 in
  let y := get (p_y placement) 0 in
  let dimensions :=
    get (p_dimensions placement) (mkDimensions (Some 1.0) (Some 1.0) (Some 0.8)) in
  let width := get (width dimensions) 1.0 in
  let depth := get (depth dimensions) 1.0 in
  match get (p_rotation placement) Deg0 with
  | Deg0 | Deg180 => rectangle x y (x + width) (y + depth)
  | Deg90 | Deg270 => rectangle x y (x + depth) (y + width)
  end.

(** The placements [post_process_layout] puts into a layout. *)
Definition enriched (catalog : list LayoutWorker.Furniture)
    (placements : list LayoutWorker.SolutionPlacement) : list Placement :=
  flat_map (fun placement =>
              match next_such (fun f => String.eqb (LayoutWorker.id f)
                                          (LayoutWorker.sp_furniture_id placement))
                              catalog with
              | Some furniture => [LayoutWorker.enrich placement furniture]
              | None => []
              end)
           placements.

(** The footprints of two placements have no area in common, for the
    rectangle the validator builds (centred on the position) and for the
    rectangle whose lower-left corner is the position. *)
Definition disjoint_pair (pq : Placement * Placement) : bool :=
  Qeq_bool (intersection_area (ValidateWorker.furniture_polygon (fst pq))
                              (ValidateWorker.furniture_polygon (snd pq))) 0
  && Qeq_bool (intersection_area (corner_footprint (fst pq))
                                 (corner_footprint (snd pq))) 0.










(** The polygon is an axis-aligned rectangle of positive width and height,
    with its corners in the order of [rectangle].  The footprint of a
    placement that is not turned is one, and so is a room given by its
    bounds; for such polygons the predicates of [Shapely] above are those
    of the library. *)
Definition is_rectangle (g : Polygon) : bool :=
  match g with
  | [(x0, y0); (x1, y0'); (x1', y1); (x0', y1')] =>
      Qeq_bool x0 x0' && Qeq_bool x1 x1' && Qeq_bool y0 y0' && Qeq_bool y1 y1'
      && Qltb x0 x1 && Qltb y0 y1
  | _ => false
  end.

(** Room for the rounding of doubles, far above what it amounts to for
    lengths of the size of a room.  The program computes in doubles what
    is computed exactly here; a statement about a threshold therefore
    leaves this much on either side of it, and says nothing of the values
    in between. *)
Definition noise : Q := 1 # 1000000000.


(** Squared Euclidean distance between two points. *)
Definition dist_sq (p q : Point) : Q :=
  (fst p - fst q) * (fst p - fst q) + (snd p - snd q) * (snd p - snd q).

(** Some point of some footprint is at less than [d] from the position. *)
Definition within (furniture_geometries : list ValidateWorker.FurnitureGeometry)
    (position : Point) (d : Q) : Prop :=
  exists furniture q,
    In furniture furniture_geometries
    /\ covers_point (ValidateWorker.geometry furniture) q = true
    /\ dist_sq position q < d * d.

(** The post-processing step of [generate_layouts], as a function of the
    numbered solution. *)
Definition post_process (job : LayoutWorker.LayoutJob)
  : nat * LayoutWorker.Solution -> Async.Outcome LayoutWorker.Layout :=
  fun '(i, solution) =>
    LayoutWorker.post_process_layout solution
      (LayoutWorker.generate_furniture_catalog
         (LayoutWorker.floor_plan job) (LayoutWorker.style_prefs job)
         (LayoutWorker.budget_cents job))
      (LayoutWorker.floor_plan job)
      (LayoutWorker.job_id job ++ "_layout_" ++ str_of_nat (i + 1))%string.

(** No coming [xadd] fails. *)
Definition reliable (w : Async.World) : Prop :=
  Forall (fun failure => failure = false) (Async.xadd_failures w).

(** The progress values of a list of stream entries. *)
Definition progress_values (entries : list (string * Async.ProgressRecord)) : list Q :=
  map (fun entry => Async.pr_progress (snd entry)) entries.

(** Started in any state of the world, [c] only appends to the stream, and
    what it appends has non-decreasing progress values between [lo] and
    [hi], under the key [key]. *)
Definition emits {A : Type} (key : string) (lo hi : Q) (c : Async.Async A) : Prop :=
  forall w, exists added,
    Async.stream (snd (c w)) = Async.stream w ++ added
    /\ StronglySorted Qle (progress_values added)
    /\ Forall (fun entry => fst entry = key
                            /\ lo <= Async.pr_progress (snd entry) <= hi) added.

End Spec.

(** ** Inputs used as examples *)

Module Examples.
Local Open Scope string_scope.

Definition no_constraints : Constraints := mkConstraints None None None None None None.

(** A room of 5 m by 4 m without doors or windows. *)
Definition plain_room : FloorPlan :=
  mkFloorPlan (mkBounds (Some 0) (Some 0) (Some 5) (Some 4)) [] [] [] None.

(** A layout job for it with a budget of zero cents. *)
Definition zero_budget_job : LayoutWorker.LayoutJob :=
  LayoutWorker.mkLayoutJob "job" "room" plain_room no_constraints [] (Some 0%Z).

(** A layout job for it with a budget of one cent. *)
Definition one_cent_job : LayoutWorker.LayoutJob :=
  LayoutWorker.mkLayoutJob "job" "room" plain_room no_constraints [] (Some 1%Z).

(** A model whose catalog is the whole base catalog. *)
Definition base_model : LayoutWorker.Model :=
  LayoutWorker.mkModel no_bounds 0 0%Z 0%Z LayoutWorker.base_catalog [] [] []
    no_constraints.

(** The sofa and the coffee table as the conversation layout places them. *)
Definition sofa_placement : Placement :=
  mkPlacement (Some "sofa_3seat") (Some 1.0) (Some 0.5) (Some Deg0)
    (Some "wall_aligned") (Some "3-Seat Sofa")
    (Some (LayoutWorker.dims 2.28 0.95 0.83)) (Some 79900%Z) None.

Definition coffee_table_placement : Placement :=
  mkPlacement (Some "coffee_table") (Some 1.0) (Some 1.8) (Some Deg0)
    (Some "sofa_front") (Some "Coffee Table")
    (Some (LayoutWorker.dims 1.2 0.6 0.45)) (Some 24999%Z) None.

(** The plain room as the validator parses it. *)
Definition plain_room_geometry : ValidateWorker.RoomGeometry :=
  ValidateWorker.mkRoomGeometry (Shapely.rectangle 0 0 5 4) [] []
    (mkBounds (Some 0) (Some 0) (Some 5) (Some 4)).

(** A placement with nothing but a position: the validator takes it for
    a square of 1 m by 1 m centred there. *)
Definition unit_square_at (x y : Q) : Placement :=
  mkPlacement None (Some x) (Some y) None None None None None None.

(** Two squares that share the side [x = 0.5]. *)
Definition touching_squares : list Placement :=
  [unit_square_at 0 0; unit_square_at 1 0].

(** A sofa of 2.28 m by 0.95 m centred 1.5 m east of a door. *)
Definition sofa_near_door : Placement :=
  mkPlacement (Some "sofa_3seat") (Some 1.5) (Some 0.5) (Some Deg0) None
    (Some "3-Seat Sofa") (Some (LayoutWorker.dims 2.28 0.95 0.83)) None None.

Definition west_door : Door := mkDoor "door" (0, 0.5) None None.

(** Two overlapping squares in the plain room with three doors, the first
    of them 0.5 m from a square. *)
Definition crowded_job : ValidateWorker.ValidationJob :=
  ValidateWorker.mkValidationJob "validation" "layout" "room"
    (mkFloorPlan (mkBounds (Some 0) (Some 0) (Some 5) (Some 4)) []
       [mkDoor "d1" (0, 1) None None; mkDoor "d2" (5, 4) None None;
        mkDoor "d3" (5, 0) None None]
       [] None)
    [unit_square_at 1 1; unit_square_at 1.5 1]
    no_constraints.

(** Two boxes of 50 cm depth in a room of 1 m by 0.5 m, side by side. *)
Definition box (id : string) (width_cm : Z) : ConstraintSolver.FurnitureItem :=
  ConstraintSolver.mkFurnitureItem id ("Box " ++ id) width_cm 50 40 "storage" [] [] 1 1000.
Definition narrow_room : ConstraintSolver.RoomConstraints :=
  ConstraintSolver.mkRoomConstraints (ConstraintSolver.mkRoomBounds 0 0 1.0 0.5) [] [] [] 80 80 60.
Definition coverage_only : ConstraintSolver.Objectives :=
  ConstraintSolver.mkObjectives (Some 1.0) None None.
Definition even_boxes := [box "a" 50; box "b" 50].

(** Redis connected, nothing written yet, no failure to come. *)
Definition quiet_world : Async.World := Async.mkWorld true [] [].

End Examples.

(** ** Further notions used in the statements *)

Module Terms.
Local Open Scope string_scope.

(** The world after one write to a connected Redis. *)
Definition written (job_id : string) (progress : Q) (message : string)
    (w : Async.World) : Async.World :=
  let key := "job_progress:" ++ job_id in
  Async.mkWorld true
    (List.app (Async.stream w) [(key, Async.mkProgress job_id progress message)])
    (tl (Async.xadd_failures w)).

(** The records a layout job writes, in order. *)
Definition layout_records (job_id : string) : list (string * Async.ProgressRecord) :=
  map (fun '(progress, message) =>
         ("job_progress:" ++ job_id, Async.mkProgress job_id progress message))
      [(0.1, "Initializing constraint model"); (0.2, "Analyzing room geometry");
       (0.3, "Building constraint model"); (0.5, "Solving layout constraints");
       (0.8, "Optimizing and scoring layouts"); (1.0, "Layout generation complete")].

(** The dictionary has the key. *)
Definition has_key {V} (d : ConstraintSolver.Dict V) (key : string) : Prop :=
  exists v, ConstraintSolver.getitem d key = ConstraintSolver.Done v.

(** The character occurs in the string. *)
Fixpoint has_char (c : ascii) (s : string) : bool :=
  match s with
  | EmptyString => false
  | String d t => Ascii.eqb c d || has_char c t
  end.

(** A footprint that is not within the room and meets it: the case in
    which [check_collisions] says that the piece extends outside the room
    boundary. *)
Definition extends_outside (room_geometry : ValidateWorker.RoomGeometry)
    (furniture : ValidateWorker.FurnitureGeometry) : bool :=
  negb (Shapely.contains (ValidateWorker.room_polygon room_geometry)
          (ValidateWorker.geometry furniture))
  && Shapely.intersects (ValidateWorker.geometry furniture)
       (ValidateWorker.room_polygon room_geometry).

End Terms.

(** ** Further inputs used as examples *)

Module Inputs.
Local Open Scope string_scope.

(** Two entries of the base catalog. *)
Definition sofa : LayoutWorker.Furniture :=
  LayoutWorker.mkFurniture "sofa_3seat" "3-Seat Sofa" "seating"
    (LayoutWorker.dims 2.28 0.95 0.83) (LayoutWorker.fbs 0.8 0.3 0.3)
    79900 ["modern"; "traditional"] ["against_wall"; "room_center"] 1.

Definition armchair : LayoutWorker.Furniture :=
  LayoutWorker.mkFurniture "armchair" "Armchair" "seating"
    (LayoutWorker.dims 0.8 0.85 0.9) (LayoutWorker.fbs 0.6 0.2 0.2)
    39900 ["modern"; "traditional"; "minimalist"] ["corner"; "accent"] 2.

(** A layout job for a room of 12 square metres. *)
Definition small_room_job : LayoutWorker.LayoutJob :=
  LayoutWorker.mkLayoutJob "job" "room"
    (mkFloorPlan (mkBounds (Some 0) (Some 0) (Some 4) (Some 3)) [] [] [] (Some 12))
    Examples.no_constraints [] None.

(** A layout job for the plain room with a budget of 1200.00. *)
Definition funded_job : LayoutWorker.LayoutJob :=
  LayoutWorker.mkLayoutJob "job" "room" Examples.plain_room Examples.no_constraints []
    (Some 120000%Z).

(** A layout job for a floor plan of area zero. *)
Definition zero_area_job : LayoutWorker.LayoutJob :=
  LayoutWorker.mkLayoutJob "job" "room" (mkFloorPlan no_bounds [] [] [] (Some 0))
    Examples.no_constraints [] None.

(** Redis not connected; an old record in the stream. *)
Definition offline_world : Async.World :=
  Async.mkWorld false [("job_progress:old", Async.mkProgress "old" 1.0 "done")] [true].

(** Redis connected; the third write to come fails. *)
Definition failing_world : Async.World := Async.mkWorld true [] [false; false; true].

(** A validation job whose bounds lack the key [max_x]. *)
Definition half_bounded_job : ValidateWorker.ValidationJob :=
  ValidateWorker.mkValidationJob "validation" "layout" "room"
    (mkFloorPlan (mkBounds (Some 0) (Some 0) None (Some 4)) [] [] [] None)
    [] Examples.no_constraints.

(** A validation job for a room of 5 m by 0 m. *)
Definition flat_room_job : ValidateWorker.ValidationJob :=
  ValidateWorker.mkValidationJob "validation" "layout" "room"
    (mkFloorPlan (mkBounds (Some 0) (Some 0) (Some 5) (Some 0)) [] [] [] None)
    [Examples.unit_square_at 1 1] Examples.no_constraints.

(** A validation job for the plain room and a layout without placements. *)
Definition empty_layout_job : ValidateWorker.ValidationJob :=
  ValidateWorker.mkValidationJob "validation" "layout" "room" Examples.plain_room []
    Examples.no_constraints.

(** A room of 2 m by 2 m filled by four squares of 1 m by 1 m. *)
Definition packed_room : FloorPlan :=
  mkFloorPlan (mkBounds (Some 0) (Some 0) (Some 2) (Some 2)) [] [] [] None.
Definition packed_room_geometry : ValidateWorker.RoomGeometry :=
  ValidateWorker.mkRoomGeometry (Shapely.rectangle 0 0 2 2) [] []
    (mkBounds (Some 0) (Some 0) (Some 2) (Some 2)).
Definition four_squares : list Placement :=
  [Examples.unit_square_at 0.5 0.5; Examples.unit_square_at 1.5 0.5;
   Examples.unit_square_at 0.5 1.5; Examples.unit_square_at 1.5 1.5].

(** A sofa across the west side of the plain room and an armchair inside. *)
Definition sofa_across_the_side : list Placement :=
  [mkPlacement (Some "sofa_3seat") (Some 0.5) (Some 2) (Some Deg0) None
     (Some "3-Seat Sofa") (Some (LayoutWorker.dims 2.28 0.95 0.83)) None None;
   mkPlacement (Some "armchair") (Some 3) (Some 2) (Some Deg0) None
     (Some "Armchair") (Some (LayoutWorker.dims 0.8 0.85 0.9)) None None].

(** A piece called a wall shelf that overlaps a sofa, both inside the
    plain room. *)
Definition wall_shelf_and_sofa : list Placement :=
  [mkPlacement (Some "a") (Some 1) (Some 1) None None (Some "wall shelf") None None None;
   mkPlacement (Some "b") (Some 1.5) (Some 1) None None (Some "sofa") None None None].

(** Shapely's test against walls and the formatting of floats, for rooms
    without walls and messages without numbers. *)
Definition no_wall (g : Shapely.Polygon) (wall : ValidateWorker.WallGeometry) : bool :=
  false.
Definition no_digits (x : Q) : string := "".

(** Results with five collisions. *)
Definition five_collisions : ValidateWorker.CollisionResults :=
  ValidateWorker.mkCollisionResults [] [] 5.
Definition no_issues : ValidateWorker.ClearanceResults :=
  ValidateWorker.mkClearanceResults [] [] 0 1.
Definition full_access : ValidateWorker.Accessibility :=
  ValidateWorker.mkAccessibility 1 1 1 1 0 0.

(** A search that answers [OPTIMAL] and the value 0 for every variable. *)
Definition first_answer (model : ConstraintSolver.CpModel)
  : ConstraintSolver.Status * (nat -> Z) :=
  (ConstraintSolver.OPTIMAL, fun _ => 0%Z).

End Inputs.

(** * Properties *)

(** ** Comparisons and rounding *)

Lemma Qltb_lt (a b : Q) : Qltb a b = true <-> a < b.
Proof.
  unfold Qltb. rewrite negb_true_iff, <- not_true_iff_false, Qle_bool_iff.
  split; [apply Qnot_le_lt | apply Qlt_not_le].
Qed.

Lemma Qltb_ge (a b : Q) : Qltb a b = false <-> b <= a.
Proof.
  unfold Qltb. rewrite negb_false_iff. apply Qle_bool_iff.
Qed.

Lemma Qle_bool_gt (a b : Q) : Qle_bool a b = false <-> b < a.
Proof.
  rewrite <- not_true_iff_false, Qle_bool_iff.
  split; [apply Qnot_le_lt | apply Qlt_not_le].
Qed.

(** ** The catalog filter *)

Section Subsequences.
Context {A : Type}.
Import Spec.

Lemma subsequence_refl (l : list A) : subsequence l l.
Proof. induction l; constructor; assumption. Qed.

Lemma subsequence_trans (l1 l2 l3 : list A) :
  subsequence l1 l2 -> subsequence l2 l3 -> subsequence l1 l3.
Proof.
  intros H12 H23. revert l1 H12.
  induction H23 as [| a l2 l3 _ IH | a l2 l3 _ IH]; intros l1 H12.
  - assumption.
  - constructor. apply IH, H12.
  - inversion H12; subst.
    + constructor. apply IH. assumption.
    + apply sub_keep. apply IH. assumption.
Qed.

Lemma filter_subsequence (f : A -> bool) (l : list A) : subsequence (filter f l) l.
Proof.
  induction l as [| a l IH]; simpl.
  - constructor.
  - destruct (f a); constructor; assumption.
Qed.

Lemma subsequence_In (l l' : list A) (a : A) : subsequence l l' -> In a l -> In a l'.
Proof.
  induction 1; simpl; intros Ha; auto.
  destruct Ha; auto.
Qed.

End Subsequences.

Lemma filter_by_style_subsequence prefs catalog :
  Spec.subsequence (LayoutWorker.filter_by_style prefs catalog) catalog.
Proof.
  unfold LayoutWorker.filter_by_style.
  destruct prefs; [apply subsequence_refl |].
  match goal with |- context [filter ?f catalog] =>
    pose proof (filter_subsequence f catalog) as H; destruct (filter f catalog) end.
  - apply subsequence_refl.
  - exact H.
Qed.

Lemma filter_by_budget_subsequence budget catalog :
  Spec.subsequence (LayoutWorker.filter_by_budget budget catalog) catalog.
Proof.
  unfold LayoutWorker.filter_by_budget.
  destruct (LayoutWorker.budget_given budget);
    [apply filter_subsequence | apply subsequence_refl].
Qed.

Lemma filter_by_room_size_subsequence area catalog :
  Spec.subsequence (LayoutWorker.filter_by_room_size area catalog) catalog.
Proof.
  unfold LayoutWorker.filter_by_room_size.
  destruct (Qltb area 15); [apply filter_subsequence | apply subsequence_refl].
Qed.

Lemma filter_catalog_subsequence catalog area style_prefs budget_cents :
  Spec.subsequence
    (LayoutWorker.filter_catalog catalog area style_prefs budget_cents) catalog.
Proof.
  unfold LayoutWorker.filter_catalog.
  eapply subsequence_trans; [apply filter_by_room_size_subsequence |].
  eapply subsequence_trans; [apply filter_by_budget_subsequence |].
  apply filter_by_style_subsequence.
Qed.

Lemma generate_furniture_catalog_subsequence floor_plan style_prefs budget_cents :
  Spec.subsequence
    (LayoutWorker.generate_furniture_catalog floor_plan style_prefs budget_cents)
    LayoutWorker.base_catalog.
Proof.
  unfold LayoutWorker.generate_furniture_catalog. apply filter_catalog_subsequence.
Qed.

(** C8, as the code has it: the catalog filter never reorders.  Whatever
    the catalog, the floor area, the style preferences and the budget, the
    output is the input with some items removed and the others in their
    input order; in particular what [generate_furniture_catalog] returns is
    such a part of the base catalog.  No sorting by priority takes place. *)
Theorem catalog_filter_keeps_input_order :
  (forall catalog area style_prefs budget_cents,
      Spec.subsequence
        (LayoutWorker.filter_catalog catalog area style_prefs budget_cents) catalog)
  /\ (forall floor_plan style_prefs budget_cents,
         Spec.subsequence
           (LayoutWorker.generate_furniture_catalog floor_plan style_prefs budget_cents)
           LayoutWorker.base_catalog).
Proof.
  split; intros.
  - apply filter_catalog_subsequence.
  - apply generate_furniture_catalog_subsequence.
Qed.

(** C8 as stated fails: for the plain room, no style preference and no
    budget the filter returns the whole base catalog, whose priorities are
    1, 2, 2, 3, 2, 3, 2, 2; the side table (3) comes before the TV stand
    (2). *)
Lemma catalog_filter_output_not_sorted :
  let output := LayoutWorker.generate_furniture_catalog Examples.plain_room [] None in
  map LayoutWorker.priority output = [1; 2; 2; 3; 2; 3; 2; 2]%Z
  /\ ~ Spec.sorted_by LayoutWorker.priority output.
Proof.
  split; [reflexivity |].
  unfold Spec.sorted_by. intros H.
  change (LayoutWorker.generate_furniture_catalog Examples.plain_room [] None)
    with LayoutWorker.base_catalog in H.
  unfold LayoutWorker.base_catalog in H.
  do 3 (apply Sorted_inv in H; destruct H as [H _]).
  apply Sorted_inv in H. destruct H as [_ H].
  apply HdRel_inv in H. simpl in H. lia.
Qed.

(** ** Running the coroutines *)

Section AsyncLemmas.
Import Async Spec.

Lemma xadd_reliable key data w :
  reliable w ->
  fst (xadd key data w) = Ok tt /\ reliable (snd (xadd key data w)).
Proof.
  unfold reliable, xadd. intros H.
  destruct (xadd_failures w) as [| [] rest]; simpl.
  - split; [reflexivity | constructor].
  - inversion H; discriminate.
  - split; [reflexivity | inversion H; assumption].
Qed.

Lemma update_job_progress_reliable job_id progress message w :
  reliable w ->
  fst (update_job_progress job_id progress message w) = Ok tt
  /\ reliable (snd (update_job_progress job_id progress message w)).
Proof.
  intros H. unfold update_job_progress.
  destruct (redis_client w); [apply xadd_reliable, H | split; [reflexivity | exact H]].
Qed.

Lemma bind_update_reliable {B} job_id progress message (k : unit -> Async B) w :
  reliable w ->
  exists w', reliable w'
             /\ bind (update_job_progress job_id progress message) k w = k tt w'.
Proof.
  intros H.
  destruct (update_job_progress_reliable job_id progress message w H) as [Hok Hrel].
  exists (snd (update_job_progress job_id progress message w)).
  split; [exact Hrel |].
  unfold bind.
  destruct (update_job_progress job_id progress message w) as [o w']; simpl in *.
  subst o. reflexivity.
Qed.

(** [mapM] over steps that do not touch the world. *)
Lemma mapM_pure {A B} (g : A -> Async B) (f : A -> Outcome B) (l : list A) :
  (forall a w, g a w = (f a, w)) ->
  forall w,
    (exists bs, mapM g l w = (Ok bs, w) /\ Forall2 (fun a b => f a = Ok b) l bs)
    \/ (exists e a, mapM g l w = (Raise e, w) /\ In a l /\ f a = Raise e).
Proof.
  intros Hg. induction l as [| a l IH]; intros w.
  - left. exists []. split; [reflexivity | constructor].
  - assert (E0 : mapM g (a :: l) w
                 = match f a with
                   | Ok b =>
                       match mapM g l w with
                       | (Ok bs, w') => (Ok (b :: bs), w')
                       | (Raise e, w') => (Raise e, w')
                       end
                   | Raise e => (Raise e, w)
                   end).
    { simpl. unfold bind at 1. rewrite Hg. destruct (f a); reflexivity. }
    rewrite E0. clear E0.
    destruct (f a) as [b | e] eqn:Ea.
    + destruct (IH w) as [(bs & E & HF) | (e & a' & E & Hin & Hf)]; rewrite E.
      * left. exists (b :: bs). split; [reflexivity | constructor; assumption].
      * right. exists e, a'. simpl. auto.
    + right. exists e, a. simpl. auto.
Qed.

End AsyncLemmas.

(** ** The layout job *)

Lemma post_process_layout_ok solution catalog floor_plan layout_id :
  ~ get (area_sqm floor_plan) 20.0 == 0 ->
  exists layout,
    LayoutWorker.post_process_layout solution catalog floor_plan layout_id = Async.Ok layout.
Proof.
  intros Harea.
  unfold LayoutWorker.post_process_layout, LayoutWorker.calculate_coverage_ratio.
  destruct (Qeq_bool (get (area_sqm floor_plan) 20.0) 0) eqn:E.
  - apply Qeq_bool_iff in E. contradiction.
  - eexists. reflexivity.
Qed.

(** A job on a room of non-zero area completes, with three layouts, when
    Redis does not fail. *)
Lemma generate_layouts_completes job w :
  ~ get (area_sqm (LayoutWorker.floor_plan job)) 20.0 == 0 ->
  Spec.reliable w ->
  exists l1 l2 l3,
    fst (LayoutWorker.generate_layouts job w)
    = LayoutWorker.mkLayoutResult (LayoutWorker.job_id job) "completed"
        (Some [l1; l2; l3]) None 1.0.
Proof.
  intros Harea Hw.
  unfold LayoutWorker.generate_layouts, Async.try_except, LayoutWorker.generate_layouts_body.
  repeat match goal with
  | Hr : Spec.reliable ?w
    |- context [Async.bind (Async.update_job_progress ?j ?p ?m) ?k ?w] =>
      let w' := fresh "w" in let Hr' := fresh "Hw" in let E := fresh "E" in
      destruct (bind_update_reliable j p m k w Hr) as (w' & Hr' & E);
      rewrite E; clear E Hr; cbv beta
  end.
  unfold Async.bind at 1.
  match goal with |- context [Async.mapM ?g ?l ?w] =>
    destruct (mapM_pure g (Spec.post_process job) l
                (fun a w => match a with (i, s) => eq_refl end) w)
      as [(bs & E & HF) | (e & [i s] & E & _ & Hf)]; rewrite E
  end; unfold Spec.post_process in *.
  - match goal with Hr : Spec.reliable ?w |- _ =>
      destruct (bind_update_reliable (LayoutWorker.job_id job) 1.0
                  "Layout generation complete"
                  (fun _ => Async.ret
                              (LayoutWorker.mkLayoutResult (LayoutWorker.job_id job)
                                 "completed" (Some bs) None 1.0)) w Hr)
        as (w5 & _ & E5)
    end.
    rewrite E5. unfold Async.ret. simpl fst.
    apply Forall2_length in HF.
    destruct bs as [| l1 [| l2 [| l3 [| ? ?]]]]; try discriminate HF.
    exists l1, l2, l3. reflexivity.
  - exfalso.
    destruct (post_process_layout_ok s
                (LayoutWorker.generate_furniture_catalog
                   (LayoutWorker.floor_plan job) (LayoutWorker.style_prefs job)
                   (LayoutWorker.budget_cents job))
                (LayoutWorker.floor_plan job)
                (LayoutWorker.job_id job ++ "_layout_" ++ str_of_nat (i + 1))%string
                Harea) as [l El].
    rewrite El in Hf. discriminate.
Qed.

(** C7, as the code has it: a budget of zero counts as no budget.  The
    guard [if budget_cents:] skips the budget filter, so the filtered
    catalog is the one a job without budget gets; and on a room of non-zero
    area, Redis not failing, the job completes with exactly three layouts,
    one for each strategy. *)
Theorem zero_budget_is_no_budget (job : LayoutWorker.LayoutJob) (w : Async.World) :
  LayoutWorker.budget_cents job = Some 0%Z ->
  ~ get (area_sqm (LayoutWorker.floor_plan job)) 20.0 == 0 ->
  Spec.reliable w ->
  LayoutWorker.generate_furniture_catalog
    (LayoutWorker.floor_plan job) (LayoutWorker.style_prefs job)
    (LayoutWorker.budget_cents job)
  = LayoutWorker.generate_furniture_catalog
      (LayoutWorker.floor_plan job) (LayoutWorker.style_prefs job) None
  /\ exists l1 l2 l3,
       fst (LayoutWorker.generate_layouts job w)
       = LayoutWorker.mkLayoutResult (LayoutWorker.job_id job) "completed"
           (Some [l1; l2; l3]) None 1.0.
Proof.
  intros Hbudget Harea Hw. split.
  - rewrite Hbudget. reflexivity.
  - apply generate_layouts_completes; assumption.
Qed.

Lemma zero_budget_is_no_budget_witness :
  LayoutWorker.generate_furniture_catalog Examples.plain_room [] (Some 0%Z)
  = LayoutWorker.generate_furniture_catalog Examples.plain_room [] None
  /\ exists l1 l2 l3,
       fst (LayoutWorker.generate_layouts Examples.zero_budget_job Examples.quiet_world)
       = LayoutWorker.mkLayoutResult "job" "completed" (Some [l1; l2; l3]) None 1.0.
Proof.
  apply (zero_budget_is_no_budget Examples.zero_budget_job Examples.quiet_world).
  - reflexivity.
  - simpl. intros H. discriminate H.
  - constructor.
Defined.

(** C7 as stated fails: with a budget of zero the filtered catalog is the
    whole base catalog, not the empty list, and the job completes with
    three layouts, not with none. *)
Lemma zero_budget_job_keeps_catalog :
  LayoutWorker.generate_furniture_catalog
    (LayoutWorker.floor_plan Examples.zero_budget_job)
    (LayoutWorker.style_prefs Examples.zero_budget_job)
    (LayoutWorker.budget_cents Examples.zero_budget_job)
  = LayoutWorker.base_catalog
  /\ LayoutWorker.base_catalog <> []
  /\ let result := fst (LayoutWorker.generate_layouts Examples.zero_budget_job
                          Examples.quiet_world) in
     LayoutWorker.r_status result = "completed"%string
     /\ option_map (@List.length _) (LayoutWorker.r_layouts result) = Some 3%nat
     /\ LayoutWorker.r_layouts result <> Some [].
Proof.
  split; [reflexivity |].
  split; [discriminate |].
  vm_compute. repeat split; discriminate.
Qed.

(** The budget filter proper: with a budget other than zero, every item
    kept costs at most 40% of it. *)
Lemma budget_filter_sound floor_plan style_prefs (budget : Z) item :
  budget <> 0%Z ->
  In item (LayoutWorker.generate_furniture_catalog floor_plan style_prefs (Some budget)) ->
  inject_Z (LayoutWorker.price_cents item) <= inject_Z budget * 0.4.
Proof.
  intros Hb Hin.
  unfold LayoutWorker.generate_furniture_catalog, LayoutWorker.filter_catalog in Hin.
  apply (subsequence_In _ _ _ (filter_by_room_size_subsequence _ _)) in Hin.
  unfold LayoutWorker.filter_by_budget, LayoutWorker.budget_given in Hin.
  apply Z.eqb_neq in Hb. rewrite Hb in Hin. simpl in Hin.
  apply filter_In in Hin. destruct Hin as [_ Hle].
  apply Qle_bool_iff in Hle. exact Hle.
Qed.

(** With a budget of one cent the catalog is empty; the job still
    completes with three layouts, each without placements. *)
Example one_cent_job_has_three_empty_layouts :
  LayoutWorker.generate_furniture_catalog Examples.plain_room [] (Some 1%Z) = []
  /\ option_map (map (fun l => List.length (LayoutWorker.l_placements l)))
       (LayoutWorker.r_layouts
          (fst (LayoutWorker.generate_layouts Examples.one_cent_job Examples.quiet_world)))
     = Some [0; 0; 0]%nat.
Proof. split; reflexivity. Qed.

(** ** The progress stream *)

Section Progress.
Import Async Spec.
Variable key : string.

Lemma emits_pure {A} (c : Async A) lo hi :
  (forall w, snd (c w) = w) -> emits key lo hi c.
Proof.
  intros H w. exists []. rewrite H, app_nil_r.
  repeat split; constructor.
Qed.

Lemma emits_xadd data lo hi :
  lo <= pr_progress data <= hi -> emits key lo hi (xadd key data).
Proof.
  intros Hp w. unfold xadd.
  destruct (xadd_failures w) as [| [] rest]; simpl.
  - exists [(key, data)]. repeat split; repeat constructor; tauto.
  - exists []. rewrite app_nil_r. repeat split; constructor.
  - exists [(key, data)]. repeat split; repeat constructor; tauto.
Qed.

Lemma StronglySorted_app (l1 l2 : list Q) (mid : Q) :
  StronglySorted Qle l1 -> StronglySorted Qle l2 ->
  Forall (fun a => a <= mid) l1 -> Forall (fun b => mid <= b) l2 ->
  StronglySorted Qle (l1 ++ l2).
Proof.
  intros H1 H2 F1 F2. induction H1 as [| a l1 H1 IH Ha]; simpl; [assumption |].
  apply Forall_cons_iff in F1. destruct F1 as [Hmid F1].
  constructor; [apply IH; assumption |].
  apply Forall_app. split; [assumption |].
  eapply Forall_impl; [| exact F2]. intros b Hb. cbv beta in *. lra.
Qed.

Lemma emits_bind {A B} (c : Async A) (k : A -> Async B) lo mid mid' hi :
  lo <= mid -> mid <= mid' -> mid' <= hi ->
  emits key lo mid c -> (forall a, emits key mid' hi (k a)) ->
  emits key lo hi (bind c k).
Proof.
  intros Hlo Hmid Hhi Hc Hk w. unfold bind.
  destruct (Hc w) as (add1 & E1 & S1 & F1).
  destruct (c w) as [[a | e] w1]; simpl in E1.
  - destruct (Hk a w1) as (add2 & E2 & S2 & F2).
    exists (add1 ++ add2). rewrite E2, E1, app_assoc.
    split; [reflexivity |]. split.
    + unfold progress_values. rewrite map_app.
      apply StronglySorted_app with (mid := mid); try assumption.
      * apply Forall_map. eapply Forall_impl; [| exact F1]. simpl. tauto.
      * apply Forall_map. eapply Forall_impl; [| exact F2]. simpl.
        intros ? [_ [? _]]. lra.
    + apply Forall_app. split; (eapply Forall_impl; [| eassumption]); simpl;
        intros ? [? [? ?]]; repeat split; try assumption; lra.
  - exists add1. simpl. split; [assumption |]. split; [assumption |].
    eapply Forall_impl; [| exact F1]. simpl.
    intros ? [? [? ?]]; repeat split; try assumption; lra.
Qed.

End Progress.

Lemma emits_update_job_progress job_id progress message lo hi :
  lo <= progress <= hi ->
  Spec.emits ("job_progress:" ++ job_id) lo hi
    (Async.update_job_progress job_id progress message).
Proof.
  intros Hp w. unfold Async.update_job_progress.
  destruct (Async.redis_client w).
  - apply emits_xadd. exact Hp.
  - exists []. rewrite app_nil_r. repeat split; constructor.
Qed.

Lemma mapM_pure_world {A B} (g : A -> Async.Async B) (f : A -> Async.Outcome B) l :
  (forall a w, g a w = (f a, w)) -> forall w, snd (Async.mapM g l w) = w.
Proof.
  intros Hg w.
  destruct (mapM_pure g f l Hg w) as [(bs & E & _) | (e & a & E & _)]; rewrite E; reflexivity.
Qed.

Lemma generate_layouts_body_emits job :
  Spec.emits ("job_progress:" ++ LayoutWorker.job_id job) 0.1 1.0
    (LayoutWorker.generate_layouts_body job).
Proof.
  unfold LayoutWorker.generate_layouts_body.
  apply emits_bind with (mid := 0.1) (mid' := 0.2); try lra.
  { apply emits_update_job_progress; lra. } intros _.
  apply emits_bind with (mid := 0.2) (mid' := 0.3); try lra.
  { apply emits_update_job_progress; lra. } intros _.
  apply emits_bind with (mid := 0.3) (mid' := 0.5); try lra.
  { apply emits_update_job_progress; lra. } intros _.
  apply emits_bind with (mid := 0.5) (mid' := 0.8); try lra.
  { apply emits_update_job_progress; lra. } intros _.
  apply emits_bind with (mid := 0.8) (mid' := 0.8); try lra.
  { apply emits_update_job_progress; lra. } intros _.
  apply emits_bind with (mid := 0.8) (mid' := 1.0); try lra.
  { apply emits_pure.
    apply mapM_pure_world with (f := Spec.post_process job).
    intros [i s] w. reflexivity. }
  intros layouts.
  apply emits_bind with (mid := 1.0) (mid' := 1.0); try lra.
  { apply emits_update_job_progress; lra. } intros _.
  apply emits_pure. reflexivity.
Qed.


Lemma bind_Ok_inv {A B} (c : Async.Async A) (k : A -> Async.Async B) w b w' :
  Async.bind c k w = (Async.Ok b, w') ->
  exists a w1, c w = (Async.Ok a, w1) /\ k a w1 = (Async.Ok b, w').
Proof.
  unfold Async.bind. destruct (c w) as [[a | e] w1]; intros H.
  - exists a, w1. auto.
  - discriminate.
Qed.

(** What a completed job returns. *)
Lemma generate_layouts_body_Ok job w result w' :
  LayoutWorker.generate_layouts_body job w = (Async.Ok result, w') ->
  exists layouts,
    result = LayoutWorker.mkLayoutResult (LayoutWorker.job_id job) "completed"
               (Some layouts) None 1.0
    /\ Forall2 (fun a layout => Spec.post_process job a = Async.Ok layout)
         (LayoutWorker.enumerate
            (LayoutWorker.solve_layout_variants
               (LayoutWorker.build_constraint_model
                  (bounds (LayoutWorker.floor_plan job))
                  (walls (LayoutWorker.floor_plan job))
                  (doors (LayoutWorker.floor_plan job))
                  (windows (LayoutWorker.floor_plan job))
                  (LayoutWorker.generate_furniture_catalog
                     (LayoutWorker.floor_plan job) (LayoutWorker.style_prefs job)
                     (LayoutWorker.budget_cents job))
                  (LayoutWorker.constraints job))
               3))
         layouts.
Proof.
  unfold LayoutWorker.generate_layouts_body. intros H.
  do 5 (apply bind_Ok_inv in H; destruct H as (_ & ? & _ & H)).
  apply bind_Ok_inv in H. destruct H as (layouts & w6 & Hmap & H).
  apply bind_Ok_inv in H. destruct H as (_ & w7 & _ & H).
  unfold Async.ret in H. injection H as <- _.
  exists layouts. split; [reflexivity |].
  match type of Hmap with Async.mapM ?g ?l ?w = _ =>
    destruct (mapM_pure g (Spec.post_process job) l
                (fun a w => match a with (i, s) => eq_refl end) w)
      as [(bs & E & HF) | (e & a & E & _)]; rewrite E in Hmap
  end.
  - injection Hmap as <- _. exact HF.
  - discriminate.
Qed.

(** C9: within one run of a layout job the progress values written to the
    stream of the job never decrease, whether the job completes or fails.
    The run only appends to the stream, under the key of the job, and the
    progress values of what it appends are in non-decreasing order.  (The
    [progress] field of the result, 0.0 for a failed job, is part of the
    result message and is not written to the stream.) *)
Theorem layout_progress_is_monotone (job : LayoutWorker.LayoutJob) (w : Async.World) :
  let result := fst (LayoutWorker.generate_layouts job w) in
  let w' := snd (LayoutWorker.generate_layouts job w) in
  (LayoutWorker.r_status result = "completed"%string
   \/ LayoutWorker.r_status result = "failed"%string)
  /\ exists added,
       Async.stream w' = Async.stream w ++ added
       /\ Forall (fun entry => fst entry = ("job_progress:" ++ LayoutWorker.job_id job)%string)
                 added
       /\ Sorted Qle (Spec.progress_values added).
Proof.
  cbv zeta. unfold LayoutWorker.generate_layouts, Async.try_except.
  destruct (generate_layouts_body_emits job w) as (added & E & S & F).
  assert (HF : Forall (fun entry => fst entry
                        = ("job_progress:" ++ LayoutWorker.job_id job)%string) added).
  { eapply Forall_impl; [| exact F]. simpl. tauto. }
  apply StronglySorted_Sorted in S.
  destruct (LayoutWorker.generate_layouts_body job w) as [[r | e] w'] eqn:Ebody;
    simpl in *.
  - split; [| exists added; auto].
    apply generate_layouts_body_Ok in Ebody. destruct Ebody as (layouts & -> & _).
    left. reflexivity.
  - split; [right; reflexivity | exists added; auto].
Qed.

(** Both ways out occur.  On a floor plan whose area is zero the coverage
    ratio divides by zero after the fifth record; a failing [xadd] stops
    the job where it happens. *)
Example failed_job_progress :
  let job := LayoutWorker.mkLayoutJob "job" "room"
               (mkFloorPlan no_bounds [] [] [] (Some 0)) Examples.no_constraints [] None in
  let run := LayoutWorker.generate_layouts job Examples.quiet_world in
  LayoutWorker.r_status (fst run) = "failed"%string
  /\ LayoutWorker.r_error (fst run) = Some "float division by zero"%string
  /\ Spec.progress_values (Async.stream (snd run)) = [0.1; 0.2; 0.3; 0.5; 0.8].
Proof. repeat split; reflexivity. Qed.

Example redis_failure_progress :
  let run := LayoutWorker.generate_layouts Examples.zero_budget_job
               (Async.mkWorld true [] [false; false; true]) in
  LayoutWorker.r_status (fst run) = "failed"%string
  /\ Spec.progress_values (Async.stream (snd run)) = [0.1; 0.2].
Proof. split; reflexivity. Qed.

Example completed_job_progress :
  let run := LayoutWorker.generate_layouts Examples.zero_budget_job Examples.quiet_world in
  LayoutWorker.r_status (fst run) = "completed"%string
  /\ Spec.progress_values (Async.stream (snd run)) = [0.1; 0.2; 0.3; 0.5; 0.8; 1.0].
Proof. split; reflexivity. Qed.

(** ** Footprints of the generated layouts *)

Section Pairs.
Context {A : Type}.

Lemma pairs_subsequence (l l' : list A) (p : A * A) :
  Spec.subsequence l l' -> In p (pairs l) -> In p (pairs l').
Proof.
  induction 1 as [| a l l' Hs IH | a l l' Hs IH]; simpl; intros Hin.
  - assumption.
  - apply in_or_app. right. apply IH, Hin.
  - apply in_app_or in Hin. apply in_or_app. destruct Hin as [Hin | Hin].
    + left. apply in_map_iff in Hin. destruct Hin as (b & <- & Hb).
      apply in_map. eapply subsequence_In; eassumption.
    + right. apply IH, Hin.
Qed.

Lemma subsequence_app (l1 l1' l2 l2' : list A) :
  Spec.subsequence l1 l1' -> Spec.subsequence l2 l2' ->
  Spec.subsequence (l1 ++ l2) (l1' ++ l2').
Proof.
  induction 1; simpl; intros H2;
    [assumption | apply Spec.sub_skip | apply Spec.sub_keep]; auto.
Qed.

Lemma subsequence_nil (l : list A) : Spec.subsequence [] l.
Proof. induction l; constructor; assumption. Qed.

End Pairs.

Lemma find_by_id_unique (l : list LayoutWorker.Furniture) (k : string) item :
  NoDup (map LayoutWorker.id l) -> In item l -> LayoutWorker.id item = k ->
  find (fun f => String.eqb (LayoutWorker.id f) k) l = Some item.
Proof.
  intros Hnd Hin Hk. induction l as [| a l IH]; simpl in *; [contradiction |].
  inversion Hnd as [| ? ? Hna Hnd']; subst.
  destruct Hin as [-> | Hin].
  - rewrite String.eqb_refl. reflexivity.
  - destruct (String.eqb (LayoutWorker.id a) (LayoutWorker.id item)) eqn:E.
    + apply String.eqb_eq in E. exfalso. apply Hna. rewrite E.
      apply in_map. exact Hin.
    + apply IH; auto.
Qed.

Lemma base_catalog_ids_unique : NoDup (map LayoutWorker.id LayoutWorker.base_catalog).
Proof.
  simpl. repeat (constructor; [simpl; intuition discriminate |]). constructor.
Qed.

(** Looking an identifier up in a part of the base catalog gives nothing
    or what the base catalog has for it. *)
Lemma find_in_filtered_catalog catalog (k : string) :
  Spec.subsequence catalog LayoutWorker.base_catalog ->
  find (fun f => String.eqb (LayoutWorker.id f) k) catalog = None
  \/ find (fun f => String.eqb (LayoutWorker.id f) k) catalog
     = find (fun f => String.eqb (LayoutWorker.id f) k) LayoutWorker.base_catalog.
Proof.
  intros Hsub.
  destruct (find (fun f => String.eqb (LayoutWorker.id f) k) catalog) as [item |] eqn:E;
    [right | left; reflexivity].
  apply find_some in E. destruct E as [Hin Hid]. apply String.eqb_eq in Hid.
  symmetry. apply find_by_id_unique; auto using base_catalog_ids_unique.
  eapply subsequence_In; eassumption.
Qed.

Lemma enriched_place catalog wanted x y r a :
  Spec.subsequence catalog LayoutWorker.base_catalog ->
  Spec.subsequence
    (Spec.enriched catalog (LayoutWorker.place catalog wanted x y r a))
    (Spec.enriched LayoutWorker.base_catalog
       (LayoutWorker.place LayoutWorker.base_catalog wanted x y r a)).
Proof.
  intros Hsub. unfold LayoutWorker.place, next_such.
  destruct (find_in_filtered_catalog catalog wanted Hsub) as [E | E]; rewrite E.
  - apply subsequence_nil.
  - destruct (find (fun f => String.eqb (LayoutWorker.id f) wanted)
                   LayoutWorker.base_catalog) as [item |] eqn:Eb;
      [| apply subsequence_nil].
    pose proof Eb as Hid. apply find_some in Hid. destruct Hid as [_ Hid].
    apply String.eqb_eq in Hid.
    unfold Spec.enriched, next_such.
    cbn [flat_map app LayoutWorker.sp_furniture_id]. rewrite Hid, E, Eb.
    apply subsequence_refl.
Qed.

Lemma enriched_app catalog l1 l2 :
  Spec.enriched catalog (l1 ++ l2) = Spec.enriched catalog l1 ++ Spec.enriched catalog l2.
Proof. unfold Spec.enriched. apply flat_map_app. Qed.

Lemma enriched_solution catalog model model' strategy name :
  Spec.subsequence catalog LayoutWorker.base_catalog ->
  LayoutWorker.furniture_catalog model = catalog ->
  LayoutWorker.furniture_catalog model' = LayoutWorker.base_catalog ->
  Spec.subsequence
    (Spec.enriched catalog
       (LayoutWorker.s_placements (LayoutWorker.generate_layout_solution model strategy name)))
    (Spec.enriched LayoutWorker.base_catalog
       (LayoutWorker.s_placements
          (LayoutWorker.generate_layout_solution model' strategy name))).
Proof.
  intros Hsub Hm Hm'. unfold LayoutWorker.generate_layout_solution.
  rewrite Hm, Hm'. cbn [LayoutWorker.s_placements].
  destruct (String.eqb strategy "conversation_focused");
    [| destruct (String.eqb strategy "work_focused")];
    rewrite !enriched_app;
    repeat apply subsequence_app; apply enriched_place; assumption.
Qed.

Lemma full_layouts_disjoint strategy name :
  forallb Spec.disjoint_pair
    (pairs (Spec.enriched LayoutWorker.base_catalog
              (LayoutWorker.s_placements
                 (LayoutWorker.generate_layout_solution Examples.base_model strategy name))))
  = true.
Proof.
  unfold LayoutWorker.generate_layout_solution. cbn [LayoutWorker.s_placements].
  destruct (String.eqb strategy "conversation_focused");
    [| destruct (String.eqb strategy "work_focused")];
    vm_compute; reflexivity.
Qed.

Lemma post_process_placements solution catalog floor_plan layout_id layout :
  LayoutWorker.post_process_layout solution catalog floor_plan layout_id = Async.Ok layout ->
  LayoutWorker.l_placements layout = Spec.enriched catalog (LayoutWorker.s_placements solution).
Proof.
  unfold LayoutWorker.post_process_layout.
  destruct (LayoutWorker.calculate_coverage_ratio _ floor_plan); [| discriminate].
  intros H. injection H as <-. reflexivity.
Qed.

(** C2: in every layout of a completed layout job, any two placements have
    footprints whose intersection has area 0.  The footprint is the
    rectangle of the item's width and depth, turned by the rotation of the
    placement, either centred on its position (as the validator builds it)
    or with its lower-left corner there; the statement holds for both. *)
Theorem completed_layouts_have_disjoint_footprints
    (job : LayoutWorker.LayoutJob) (w : Async.World)
    (layouts : list LayoutWorker.Layout) (layout : LayoutWorker.Layout)
    (p q : Placement) :
  LayoutWorker.r_status (fst (LayoutWorker.generate_layouts job w)) = "completed"%string ->
  LayoutWorker.r_layouts (fst (LayoutWorker.generate_layouts job w)) = Some layouts ->
  In layout layouts ->
  In (p, q) (pairs (LayoutWorker.l_placements layout)) ->
  Shapely.intersection_area (ValidateWorker.furniture_polygon p)
                            (ValidateWorker.furniture_polygon q) == 0
  /\ Shapely.intersection_area (Spec.corner_footprint p) (Spec.corner_footprint q) == 0.
Proof.
  intros _ Hlayouts Hlayout Hpq.
  unfold LayoutWorker.generate_layouts, Async.try_except in Hlayouts.
  destruct (LayoutWorker.generate_layouts_body job w) as [[r | e] w'] eqn:Ebody;
    simpl in Hlayouts; [| discriminate].
  apply generate_layouts_body_Ok in Ebody. destruct Ebody as (layouts' & -> & HF).
  simpl in Hlayouts. injection Hlayouts as ->.
  set (catalog := LayoutWorker.generate_furniture_catalog
                    (LayoutWorker.floor_plan job) (LayoutWorker.style_prefs job)
                    (LayoutWorker.budget_cents job)) in *.
  assert (Hsub : Spec.subsequence catalog LayoutWorker.base_catalog)
    by apply generate_furniture_catalog_subsequence.
  assert (Hall : forall a layout, In a (LayoutWorker.enumerate
            (LayoutWorker.solve_layout_variants
               (LayoutWorker.build_constraint_model
                  (bounds (LayoutWorker.floor_plan job))
                  (walls (LayoutWorker.floor_plan job))
                  (doors (LayoutWorker.floor_plan job))
                  (windows (LayoutWorker.floor_plan job))
                  catalog
                  (LayoutWorker.constraints job))
               3)) -> Spec.post_process job a = Async.Ok layout ->
               forallb Spec.disjoint_pair (pairs (LayoutWorker.l_placements layout)) = true).
  { intros [i solution] l Hin Hpost. unfold Spec.post_process in Hpost.
    apply post_process_placements in Hpost. fold catalog in Hpost. rewrite Hpost.
    assert (Hsol : exists strategy name,
               Spec.subsequence
                 (Spec.enriched catalog (LayoutWorker.s_placements solution))
                 (Spec.enriched LayoutWorker.base_catalog
                    (LayoutWorker.s_placements
                       (LayoutWorker.generate_layout_solution Examples.base_model strategy name)))).
    { unfold LayoutWorker.enumerate, LayoutWorker.solve_layout_variants in Hin.
      cbn [seq map List.length combine] in Hin.
      destruct Hin as [E | [E | [E | []]]]; injection E as _ <-;
        eexists _, _; apply enriched_solution; auto. }
    destruct Hsol as (strategy & name & Hs).
    apply forallb_forall. intros pq Hin'.
    eapply forallb_forall; [apply full_layouts_disjoint |].
    eapply pairs_subsequence; eassumption. }
  assert (Hl : exists a, In a (LayoutWorker.enumerate
            (LayoutWorker.solve_layout_variants
               (LayoutWorker.build_constraint_model
                  (bounds (LayoutWorker.floor_plan job))
                  (walls (LayoutWorker.floor_plan job))
                  (doors (LayoutWorker.floor_plan job))
                  (windows (LayoutWorker.floor_plan job))
                  catalog
                  (LayoutWorker.constraints job))
               3)) /\ Spec.post_process job a = Async.Ok layout).
  { clear - HF Hlayout. induction HF as [| a l la ll Hal _ IH]; [contradiction |].
    destruct Hlayout as [-> | Hin].
    - exists a. split; [left; reflexivity | assumption].
    - destruct (IH Hin) as (a' & ? & ?). exists a'. split; [right |]; assumption. }
  destruct Hl as (a & Hin & Hpost).
  pose proof (Hall a layout Hin Hpost) as Hd.
  rewrite forallb_forall in Hd. specialize (Hd (p, q) Hpq).
  unfold Spec.disjoint_pair in Hd. apply andb_true_iff in Hd. destruct Hd as [H1 H2].
  apply Qeq_bool_iff in H1, H2. simpl in H1, H2. split; assumption.
Qed.

Lemma completed_layouts_have_disjoint_footprints_witness :
  Shapely.intersection_area (ValidateWorker.furniture_polygon Examples.sofa_placement)
                            (ValidateWorker.furniture_polygon Examples.coffee_table_placement) == 0
  /\ Shapely.intersection_area (Spec.corner_footprint Examples.sofa_placement)
                               (Spec.corner_footprint Examples.coffee_table_placement) == 0.
Proof.
  eapply (completed_layouts_have_disjoint_footprints
            Examples.zero_budget_job Examples.quiet_world).
  - reflexivity.
  - reflexivity.
  - left. reflexivity.
  - left. reflexivity.
Defined.

(** ** Rounding and square roots *)

Lemma Qfloor_lt_Z (y : Q) (m : Z) : (Qfloor y < m)%Z <-> y < inject_Z m.
Proof.
  split; intros H.
  - eapply Qlt_le_trans; [apply Qlt_floor |].
    rewrite <- Zle_Qle. lia.
  - rewrite Zlt_Qlt. eapply Qle_lt_trans; [apply Qfloor_le | exact H].
Qed.

Lemma Qfloor_ge_Z (y : Q) (m : Z) : (m <= Qfloor y)%Z <-> inject_Z m <= y.
Proof.
  split; intros H.
  - eapply Qle_trans; [| apply Qfloor_le]. rewrite <- Zle_Qle. exact H.
  - destruct (Z_lt_le_dec (Qfloor y) m) as [Hlt | Hle]; [| exact Hle].
    apply Qfloor_lt_Z in Hlt. lra.
Qed.




(** Rounding moves a number by at most half a unit of the last digit
    kept. *)
Lemma round_half_even_close (f : Q) :
  Qabs (inject_Z (round_half_even f) - f) <= 1 # 2.
Proof.
  unfold round_half_even.
  pose proof (Qfloor_le f) as Hlo. pose proof (Qlt_floor f) as Hhi.
  rewrite inject_Z_plus in Hhi. change (inject_Z 1) with 1 in Hhi.
  set (n := Qfloor f) in *.
  apply Qabs_Qle_condition.
  destruct (Qltb (f - inject_Z n) (1 # 2)) eqn:Ea.
  - apply Qltb_lt in Ea. split; lra.
  - apply Qltb_ge in Ea.
    destruct (Qltb (1 # 2) (f - inject_Z n)) eqn:Eb.
    + rewrite inject_Z_plus. change (inject_Z 1) with 1. split; lra.
    + apply Qltb_ge in Eb. destruct (Z.even n).
      * split; lra.
      * rewrite inject_Z_plus. change (inject_Z 1) with 1. split; lra.
Qed.


Lemma py_round_2_close (f : Q) : Qabs (py_round f 2 - f) <= 0.005.
Proof.
  unfold py_round. change (inject_Z (10 ^ Z.of_nat 2)) with 100.
  pose proof (round_half_even_close (f * 100)) as H.
  apply Qabs_Qle_condition in H. apply Qabs_Qle_condition.
  set (r := inject_Z (round_half_even (f * 100))) in *.
  assert (E : r / 100 == r * (1 # 100)) by (unfold Qdiv; reflexivity).
  rewrite E. split; lra.
Qed.

(** [int(f)] of a float that is not negative. *)
Lemma py_int_nonneg (f : Q) : 0 <= f -> (0 <= py_int f)%Z.
Proof.
  intros H. unfold py_int. apply Qle_bool_iff in H. rewrite H.
  apply Qle_bool_iff in H. apply Qfloor_ge_Z. exact H.
Qed.

Lemma py_int_floor (f : Q) :
  0 <= f -> inject_Z (py_int f) <= f /\ f < inject_Z (py_int f) + 1.
Proof.
  intros H. unfold py_int. apply Qle_bool_iff in H. rewrite H.
  split; [apply Qfloor_le |].
  pose proof (Qlt_floor f) as Hf. rewrite inject_Z_plus in Hf. exact Hf.
Qed.

(** [Qsqrt] decides comparisons with a bound of at most nine decimals
    exactly. *)
Lemma Qsqrt_lt_iff (x : Q) (k : Z) :
  (0 < k)%Z ->
  Qsqrt x < inject_Z k / inject_Z sqrt_scale
  <-> x < (inject_Z k / inject_Z sqrt_scale) * (inject_Z k / inject_Z sqrt_scale).
Proof.
  intros Hk. unfold Qsqrt.
  set (S := inject_Z sqrt_scale).
  assert (HS : 0 < S) by reflexivity.
  set (n := Qfloor (x * inject_Z (sqrt_scale * sqrt_scale))).
  assert (Hsq : (Z.sqrt n < k <-> n < k * k)%Z).
  { destruct (Z_lt_le_dec n 0) as [Hn | Hn].
    - rewrite Z.sqrt_neg by exact Hn. split; intros _; nia.
    - symmetry. apply Z.sqrt_lt_square; lia. }
  assert (Hfl : (n < k * k)%Z <-> x * (S * S) < inject_Z k * inject_Z k).
  { unfold n. rewrite Qfloor_lt_Z, !inject_Z_mult. reflexivity. }
  assert (HA : inject_Z (Z.sqrt n) / S < inject_Z k / S <-> (Z.sqrt n < k)%Z).
  { rewrite Zlt_Qlt. unfold Qdiv. apply Qmult_lt_r. apply Qinv_lt_0_compat. exact HS. }
  assert (HB : x < inject_Z k / S * (inject_Z k / S)
               <-> x * (S * S) < inject_Z k * inject_Z k).
  { assert (E : inject_Z k / S * (inject_Z k / S) * (S * S) == inject_Z k * inject_Z k)
      by (field; lra).
    rewrite <- E. symmetry. apply Qmult_lt_r. nra. }
  rewrite HA, HB, Hsq, Hfl. reflexivity.
Qed.

(** ** Rectangles *)

Ltac gen_max a b :=
  let m := fresh "m" in
  pose proof (Q.max_spec a b) as [[? ?] | [? ?]];
  set (m := Qmax a b) in *; clearbody m.
Ltac gen_min a b :=
  let m := fresh "m" in
  pose proof (Q.min_spec a b) as [[? ?] | [? ?]];
  set (m := Qmin a b) in *; clearbody m.
Ltac elim_minmax :=
  repeat match goal with
  | |- context [Qmax ?a ?b] => gen_max a b
  | H : context [Qmax ?a ?b] |- _ => gen_max a b
  | |- context [Qmin ?a ?b] => gen_min a b
  | H : context [Qmin ?a ?b] |- _ => gen_min a b
  end.

Section Rectangles.
Import Shapely.

Lemma minimum_le_maximum (l : list Q) : minimum l <= maximum l.
Proof.
  destruct l as [| a t]; simpl; [lra |].
  assert (H : fold_right Qmin a t <= a /\ a <= fold_right Qmax a t).
  { induction t as [| b t [IH1 IH2]]; simpl; [lra |]. elim_minmax; lra. }
  lra.
Qed.

Lemma minx_le_maxx g : minx g <= maxx g.
Proof. apply minimum_le_maximum. Qed.
Lemma miny_le_maxy g : miny g <= maxy g.
Proof. apply minimum_le_maximum. Qed.

Lemma area_nonneg g : 0 <= area g.
Proof.
  unfold area. pose proof (minx_le_maxx g). pose proof (miny_le_maxy g). nra.
Qed.

Lemma andb4 (a b c d : bool) :
  a && b && c && d = true <-> a = true /\ b = true /\ c = true /\ d = true.
Proof. rewrite !andb_true_iff. tauto. Qed.

Lemma covers_point_iff g p :
  covers_point g p = true
  <-> minx g <= fst p <= maxx g /\ miny g <= snd p <= maxy g.
Proof. unfold covers_point. rewrite andb4, !Qle_bool_iff. tauto. Qed.


Lemma sq_le_sq (a b : Q) : 0 <= a -> a <= b -> a * a <= b * b.
Proof. intros. nra. Qed.

(** The gap between [x] and the interval [[lo, hi]] is at most the
    distance from [x] to any point of the interval. *)
Lemma gap_le (lo hi x q : Q) :
  lo <= q <= hi ->
  let g := Qmax 0 (- (Qmin x hi - Qmax x lo)) in
  g * g <= (x - q) * (x - q).
Proof.
  intros Hq g.
  assert (H0 : 0 <= g) by apply Q.le_max_l.
  assert (H1 : g <= x - q \/ g <= q - x).
  { unfold g. elim_minmax; lra. }
  destruct H1 as [H1 | H1].
  - apply sq_le_sq; assumption.
  - setoid_replace ((x - q) * (x - q)) with ((q - x) * (q - x)) by ring.
    apply sq_le_sq; assumption.
Qed.

(** The gap is attained. *)
Lemma gap_attained (lo hi x : Q) :
  lo <= hi ->
  let g := Qmax 0 (- (Qmin x hi - Qmax x lo)) in
  let q := Qmax lo (Qmin x hi) in
  lo <= q <= hi /\ (x - q) * (x - q) == g * g.
Proof.
  intros Hlh g q.
  assert (Hq : lo <= q <= hi) by (unfold q; elim_minmax; lra).
  assert (H : x - q == g \/ q - x == g).
  { unfold g, q. elim_minmax; solve [left; lra | right; lra]. }
  split; [exact Hq |].
  destruct H as [H | H]; rewrite <- H; ring.
Qed.

(** The distance from a point to a rectangle is the least distance from
    the point to a point of the rectangle. *)
Lemma distance_sq_point_lt g x y c :
  distance_sq (point x y) g < c
  <-> exists q, covers_point g q = true /\ Spec.dist_sq (x, y) q < c.
Proof.
  unfold distance_sq, overlap_x, overlap_y, overlap, Spec.dist_sq.
  change (minx (point x y)) with x. change (maxx (point x y)) with x.
  change (miny (point x y)) with y. change (maxy (point x y)) with y.
  split.
  - intros H.
    destruct (gap_attained (minx g) (maxx g) x (minx_le_maxx g)) as [Hx Ex].
    destruct (gap_attained (miny g) (maxy g) y (miny_le_maxy g)) as [Hy Ey].
    exists (Qmax (minx g) (Qmin x (maxx g)), Qmax (miny g) (Qmin y (maxy g))).
    rewrite covers_point_iff. simpl. split; [tauto |].
    rewrite Ex, Ey. exact H.
  - intros ([qx qy] & Hq & H). rewrite covers_point_iff in Hq. simpl in *.
    eapply Qle_lt_trans; [| exact H].
    pose proof (gap_le (minx g) (maxx g) x qx (proj1 Hq)).
    pose proof (gap_le (miny g) (maxy g) y qy (proj2 Hq)).
    simpl in *. lra.
Qed.

End Rectangles.

(** ** The validator *)

Section Validator.
Import Shapely ValidateWorker.


Lemma Forall2_map_r {A B} (P : A -> B -> Prop) (f : A -> B) (l : list A) :
  (forall a, In a l -> P a (f a)) -> Forall2 P l (map f l).
Proof.
  induction l as [| a l IH]; intros H; simpl; constructor.
  - apply H. left. reflexivity.
  - apply IH. intros b Hb. apply H. right. exact Hb.
Qed.




Lemma blocked_iff furniture_geometries position (k : Z) :
  (0 < k)%Z ->
  let clearance := inject_Z k / inject_Z sqrt_scale in
  blocked furniture_geometries position clearance = true
  <-> exists furniture q,
        In furniture furniture_geometries
        /\ covers_point (geometry furniture) q = true
        /\ Spec.dist_sq position q < clearance * clearance.
Proof.
  intros Hk clearance. unfold blocked. rewrite existsb_exists. split.
  - intros (f & Hin & H). apply Qltb_lt in H. unfold distance in H.
    apply (Qsqrt_lt_iff _ k Hk) in H. apply distance_sq_point_lt in H.
    destruct H as (q & Hq & Hd). exists f, q. destruct position. auto.
  - intros (f & q & Hin & Hq & Hd). exists f. split; [exact Hin |].
    apply Qltb_lt. unfold distance. apply (Qsqrt_lt_iff _ k Hk).
    apply distance_sq_point_lt. exists q. destruct position. auto.
Qed.

Lemma blocked_Proper fs position c c' : c == c' -> blocked fs position c = blocked fs position c'.
Proof.
  intros E. unfold blocked. induction fs as [| f fs IH]; simpl; [reflexivity |].
  rewrite IH. f_equal. unfold Qltb. f_equal.
  apply eq_true_iff_eq. rewrite !Qle_bool_iff, E. reflexivity.
Qed.

Lemma within_mono fs position d d' :
  0 <= d -> d <= d' -> Spec.within fs position d -> Spec.within fs position d'.
Proof.
  intros H0 Hd (f & q & Hin & Hq & H). exists f, q. repeat split; auto.
  eapply Qlt_le_trans; [exact H |]. nra.
Qed.

(** In exact arithmetic the mark follows the distance to the footprints
    up to the threshold itself. *)
Lemma blocked_margins fs position (k : Z) clearance :
  (0 < k)%Z -> clearance == inject_Z k / inject_Z sqrt_scale ->
  Spec.noise <= clearance ->
  (Spec.within fs position (clearance - Spec.noise) -> blocked fs position clearance = true)
  /\ (~ Spec.within fs position (clearance + Spec.noise)
      -> blocked fs position clearance = false).
Proof.
  intros Hk E Hn.
  rewrite (blocked_Proper fs position clearance _ E).
  assert (Hnoise : 0 < Spec.noise) by reflexivity.
  split.
  - intros H. apply (blocked_iff fs position k Hk).
    apply (within_mono _ _ (clearance - Spec.noise)); [lra | lra | exact H].
  - intros H. destruct (blocked fs position _) eqn:Eb; [| reflexivity].
    exfalso. apply H. apply (blocked_iff fs position k Hk) in Eb.
    apply (within_mono _ _ (inject_Z k / inject_Z sqrt_scale)); [lra | lra | exact Eb].
Qed.

(** C6, as the code has it: what counts for a door or a window is the
    distance to the footprints of the placements, not to their centroids.
    A door is marked blocked (its access score is 0.0) when some point of
    some footprint is at less than 0.8 m from the door point, and is not
    (its score is 1.0) when every point of every footprint is at more than
    0.8 m from it; likewise for a window, with 0.6 m.  The comparison is
    made on doubles: of a distance that is 0.8 m (0.6 m) to within
    [Spec.noise] nothing is said. *)
Theorem access_is_blocked_by_footprints placements :
  let fs := create_furniture_geometries placements in
  (forall doors,
      Forall2 (fun door score =>
                 (Spec.within fs (door_position door) (0.8 - Spec.noise) -> score = 0.0)
                 /\ (~ Spec.within fs (door_position door) (0.8 + Spec.noise)
                     -> score = 1.0)
                 /\ (score = 0.0 \/ score = 1.0))
              doors (door_access_scores fs doors))
  /\ (forall windows,
         Forall2 (fun window score =>
                    (Spec.within fs (window_position window) (0.6 - Spec.noise)
                     -> score = 0.0)
                    /\ (~ Spec.within fs (window_position window) (0.6 + Spec.noise)
                        -> score = 1.0)
                    /\ (score = 0.0 \/ score = 1.0))
                 windows (window_access_scores fs windows)).
Proof.
  intros fs. split.
  - intros doors. unfold door_access_scores. apply Forall2_map_r. intros door _.
    destruct (blocked_margins fs (door_position door) 800000000 0.8 eq_refl)
      as [H1 H2]; [reflexivity | vm_compute; discriminate |].
    destruct (blocked fs (door_position door) 0.8) eqn:E.
    + repeat split; auto. intros H. apply H2 in H. discriminate.
    + repeat split; auto. intros H. apply H1 in H. discriminate.
  - intros windows. unfold window_access_scores. apply Forall2_map_r. intros window _.
    destruct (blocked_margins fs (window_position window) 600000000 0.6 eq_refl)
      as [H1 H2]; [reflexivity | vm_compute; discriminate |].
    destruct (blocked fs (window_position window) 0.6) eqn:E.
    + repeat split; auto. intros H. apply H2 in H. discriminate.
    + repeat split; auto. intros H. apply H1 in H. discriminate.
Qed.

(** C6 as stated fails: a sofa centred 1.5 m from a door reaches to 0.36 m
    from it.  The door is marked blocked although no centroid lies within
    80 cm of it. *)
Lemma door_blocked_by_far_centroid :
  let fs := create_furniture_geometries [Examples.sofa_near_door] in
  door_access_scores fs [Examples.west_door] = [0.0]
  /\ fst (centroid (furniture_polygon Examples.sofa_near_door)) == 1.5
  /\ snd (centroid (furniture_polygon Examples.sofa_near_door)) == 0.5
  /\ forall furniture, In furniture fs ->
       ~ Spec.dist_sq (door_position Examples.west_door) (centroid (geometry furniture))
         <= 0.8 * 0.8.
Proof.
  cbv zeta. repeat split; try reflexivity.
  intros f [<- | []]. vm_compute. intros H. apply H. reflexivity.
Qed.

(** The marks show in the result as the numbers of blocked doors and
    windows. *)
Lemma blocked_count {A} (position : A -> Q * Q) fs clearance (l : list A) :
  List.length
    (filter (fun score => Qeq_bool score 0)
       (map (fun a => if blocked fs (position a) clearance then 0.0 else 1.0) l))
  = List.length (filter (fun a => blocked fs (position a) clearance) l).
Proof.
  induction l as [| a l IH]; [reflexivity |].
  cbn [map filter]. destruct (blocked fs (position a) clearance).
  - change (Qeq_bool 0.0 0) with true. cbn [List.length]. rewrite IH. reflexivity.
  - change (Qeq_bool 1.0 0) with false. exact IH.
Qed.

Lemma blocked_doors_and_windows fs room floor_plan results :
  analyze_accessibility fs room floor_plan = Async.Ok results ->
  blocked_doors results
  = List.length (filter (fun door => blocked fs (door_position door) 0.8)
                        (doors floor_plan))
  /\ blocked_windows results
     = List.length (filter (fun window => blocked fs (window_position window) 0.6)
                           (windows floor_plan)).
Proof.
  unfold analyze_accessibility.
  destruct (Qeq_bool (area (room_polygon room) * 0.4) 0); [discriminate |].
  intros H. injection H as <-. cbn [blocked_doors blocked_windows].
  unfold door_access_scores, window_access_scores.
  split; apply blocked_count.
Qed.

Lemma sum_nonneg (l : list Q) : Forall (fun q => 0 <= q) l -> 0 <= fold_right Qplus 0 l.
Proof.
  induction 1 as [| q l Hq _ IH]; simpl; cbv beta in *; lra.
Qed.











Lemma Qltb_Proper (a a' b b' : Q) : a == a' -> b == b' -> Qltb a b = Qltb a' b'.
Proof. intros Ea Eb. unfold Qltb. rewrite Ea, Eb. reflexivity. Qed.

Lemma round_half_even_Proper (f f' : Q) : f == f' -> round_half_even f = round_half_even f'.
Proof.
  intros E. unfold round_half_even.
  assert (En : Qfloor f = Qfloor f') by (rewrite E; reflexivity).
  rewrite <- En.
  assert (Er : f - inject_Z (Qfloor f) == f' - inject_Z (Qfloor f)) by lra.
  rewrite (Qltb_Proper _ _ (1 # 2) (1 # 2) Er (Qeq_refl _)).
  rewrite (Qltb_Proper (1 # 2) (1 # 2) _ _ (Qeq_refl _) Er).
  reflexivity.
Qed.

Lemma py_round_Proper (f f' : Q) (ndigits : nat) :
  f == f' -> py_round f ndigits = py_round f' ndigits.
Proof.
  intros E. unfold py_round.
  rewrite (round_half_even_Proper (f * inject_Z (10 ^ Z.of_nat ndigits))
             (f' * inject_Z (10 ^ Z.of_nat ndigits))) by (rewrite E; reflexivity).
  reflexivity.
Qed.



Lemma rectangle_area g : Spec.is_rectangle g = true -> 0 < area g.
Proof.
  unfold Spec.is_rectangle.
  destruct g as [| [x0 y0] [| [x1 y0'] [| [x1' y1] [| [x0' y1'] [| ? ?]]]]];
    try discriminate.
  rewrite !andb_true_iff. intros [[[[[E1 E2] E3] E4] Hx] Hy].
  apply Qeq_bool_iff in E1, E2, E3, E4. apply Qltb_lt in Hx, Hy.
  unfold area, minx, maxx, miny, maxy, minimum, maximum. cbn [map fst snd fold_right].
  elim_minmax; nra.
Qed.

(** C10, as the code has it: whenever the accessibility analysis returns
    a result, its [door_accessibility] is 1.0 when the floor plan has no
    door, and its [window_accessibility] 1.0 when it has no window; and it
    returns a result for every room that is a rectangle of positive width
    and height.  (It does not for a room polygon of area zero, see
    [flat_room_has_no_accessibility].) *)
Theorem no_doors_or_windows_is_fully_accessible
    furniture_geometries room_geometry floor_plan :
  (forall results,
      analyze_accessibility furniture_geometries room_geometry floor_plan
      = Async.Ok results ->
      (doors floor_plan = [] -> door_accessibility results = 1.0)
      /\ (windows floor_plan = [] -> window_accessibility results = 1.0))
  /\ (Spec.is_rectangle (room_polygon room_geometry) = true ->
      exists results,
        analyze_accessibility furniture_geometries room_geometry floor_plan
        = Async.Ok results).
Proof.
  unfold analyze_accessibility.
  destruct (Qeq_bool (area (room_polygon room_geometry) * 0.4) 0) eqn:E.
  - split; [discriminate |]. intros H. apply rectangle_area in H.
    apply Qeq_bool_iff in E. lra.
  - split; [| eauto]. intros results H. injection H as <-.
    cbn [door_accessibility window_accessibility].
    split; intros ->; reflexivity.
Qed.












(** C10 as stated fails: the floor plan of a room of 5 m by 0 m has no
    door, and the accessibility analysis of a layout in it returns no
    [door_accessibility] at all: the flow efficiency divides by the area
    of the room, which is zero, and the analysis raises. *)
Lemma flat_room_has_no_accessibility :
  let job := Inputs.flat_room_job in
  let furniture_geometries := create_furniture_geometries (layout_placements job) in
  doors (floor_plan job) = []
  /\ exists room_geometry,
       parse_room_geometry (floor_plan job) = Async.Ok room_geometry
       /\ analyze_accessibility furniture_geometries room_geometry (floor_plan job)
          = Async.Raise Async.ZeroDivisionError
       /\ ~ exists results,
              analyze_accessibility furniture_geometries room_geometry (floor_plan job)
              = Async.Ok results
              /\ door_accessibility results = 1.0.
Proof.
  cbv zeta. split; [reflexivity |]. eexists. split; [reflexivity |].
  split; [reflexivity |]. intros (results & H & _). discriminate H.
Qed.

End Validator.

(** ** The solver and the validator *)

Section RoundTrip.
Import Shapely ValidateWorker ConstraintSolver.

Lemma pairs_In {A} (l : list A) (a b : A) : In (a, b) (pairs l) -> In a l /\ In b l.
Proof.
  induction l as [| c l IH]; simpl; [contradiction |].
  intros H. apply in_app_or in H. destruct H as [H | H].
  - apply in_map_iff in H. destruct H as (b' & E & Hb). injection E as <- <-. auto.
  - destruct (IH H). auto.
Qed.

(** *** Building the model *)

Lemma has_key_setitem {V} (d : Dict V) key key' (v : V) :
  Terms.has_key d key -> Terms.has_key (setitem d key' v) key.
Proof.
  intros [u Hu]. unfold Terms.has_key, setitem. simpl.
  destruct (String.eqb key' key); eauto.
Qed.

Lemma has_key_new {V} (d : Dict V) key (v : V) : Terms.has_key (setitem d key v) key.
Proof.
  unfold Terms.has_key, setitem. simpl. rewrite String.eqb_refl. eauto.
Qed.

(** The first loop of [solve_layout] never raises, and gives every item
    its variables. *)
Lemma decision_variables_done items gw gh :
  forall pv rv plv m,
  exists pv' rv' plv' m',
    decision_variables items gw gh (pv, rv, plv) m = Done ((pv', rv', plv'), m')
    /\ (forall key, Terms.has_key pv key -> Terms.has_key pv' key)
    /\ (forall key, Terms.has_key rv key -> Terms.has_key rv' key)
    /\ (forall key, Terms.has_key plv key -> Terms.has_key plv' key)
    /\ (forall item, In item items ->
          Terms.has_key pv' (id item) /\ Terms.has_key rv' (id item)
          /\ Terms.has_key plv' (id item)).
Proof.
  induction items as [|item rest IH]; intros pv rv plv m.
  - exists pv, rv, plv, m. simpl. unfold ret. repeat split; auto; contradiction.
  - cbn [decision_variables]. unfold bind, NewBoolVar, NewIntVar.
    cbn [variables constraints maximized].
    match goal with
    | |- context [decision_variables rest gw gh ?v ?m0] =>
        destruct v as [[pv0 rv0] plv0] eqn:Ev;
        destruct (IH pv0 rv0 plv0 m0) as (pv' & rv' & plv' & m' & E & Hp & Hr & Hl & Hin)
    end.
    inversion Ev; subst pv0 rv0 plv0.
    exists pv', rv', plv', m'. split; [exact E|].
    split; [intros; apply Hp, has_key_setitem; assumption|].
    split; [intros; apply Hr, has_key_setitem; assumption|].
    split; [intros; apply Hl, has_key_setitem; assumption|].
    intros i [<- | Hi].
    + repeat split; [apply Hp | apply Hr | apply Hl]; apply has_key_new.
    + apply Hin, Hi.
Qed.

(** The first [OnlyEnforceIf] of [_add_boundary_constraints] is given the
    comparison [rot_var == 0]. *)
Lemma boundary_constraints_raise item rest pv rv plv gw gh m :
  Terms.has_key pv (id item) -> Terms.has_key rv (id item) ->
  Terms.has_key plv (id item) ->
  _add_boundary_constraints (item :: rest) pv rv plv gw gh m = Raised Refused.
Proof.
  intros [xy Hxy] [r Hr] [p Hp].
  unfold _add_boundary_constraints. cbn [for_each].
  unfold bind at 1. unfold bind at 1. unfold lift at 1. rewrite Hxy.
  unfold bind at 1. unfold lift at 1. rewrite Hr.
  unfold bind at 1. unfold lift at 1. rewrite Hp.
  unfold bind at 1. unfold Add at 1, new_constraint at 1.
  unfold bind at 1. unfold OnlyEnforceIf at 1.
  cbn [literals literal]. destruct p; reflexivity.
Qed.

Lemma bind_Done {A B} (c : Build A) (k : A -> Build B) m a m' :
  c m = Done (a, m') -> bind c k m = k a m'.
Proof. intros E. unfold bind. rewrite E. reflexivity. Qed.

Lemma bind_Raised {A B} (c : Build A) (k : A -> Build B) m e :
  c m = Raised e -> bind c k m = Raised e.
Proof. intros E. unfold bind. rewrite E. reflexivity. Qed.

Lemma solve_layout_first_item search item rest room objectives m :
  solve_layout search (item :: rest) room objectives m = Raised Refused.
Proof.
  unfold solve_layout.
  destruct (decision_variables_done (item :: rest) (grid_width room) (grid_height room)
              [] [] [] m) as (pv & rv & plv & m' & E & _ & _ & _ & Hin).
  rewrite (bind_Done _ _ _ _ _ E).
  destruct (Hin item (or_introl eq_refl)) as (Hp & Hr & Hl).
  apply bind_Raised, boundary_constraints_raise; assumption.
Qed.

Lemma for_each_idle {A} (l : list A) (body : A -> Build unit) :
  (forall a m, body a m = Done (tt, m)) -> forall m, for_each l body m = Done (tt, m).
Proof.
  intros H. induction l as [|a l IH]; intros m; [reflexivity|].
  cbn [for_each]. unfold bind. rewrite H. apply IH.
Qed.

Lemma solve_layout_no_item search room objectives m :
  exists obj,
    solve_layout search [] room objectives m
    = Done ([], mkCpModel (variables m) (constraints m) obj)
    /\ (weighted (placement_coverage objectives)
        || weighted (budget_optimization objectives)
        || weighted (flow_optimization objectives) = false -> obj = maximized m).
Proof.
  unfold solve_layout. cbn [decision_variables]. unfold bind at 1. unfold ret at 1.
  unfold bind at 1. cbn [_add_boundary_constraints for_each]. unfold ret at 1.
  unfold bind at 1. cbn [_add_collision_constraints pairs for_each]. unfold ret at 1.
  unfold bind at 1. cbn [_add_clearance_constraints pairs for_each]. unfold ret at 1.
  unfold bind at 1. unfold _add_door_constraints.
  rewrite for_each_idle by reflexivity.
  unfold bind at 1. unfold _add_window_constraints.
  rewrite for_each_idle by reflexivity.
  unfold bind at 1. unfold _add_functional_constraints. cbn [filter for_each].
  unfold bind at 1. unfold ret at 1. unfold bind at 1. unfold ret at 1. unfold ret at 1.
  unfold bind at 1. unfold _add_objectives.
  cbn [terms flow_terms].
  destruct m as [vs cs obj0].
  destruct (weighted (placement_coverage objectives)),
           (weighted (budget_optimization objectives)),
           (weighted (flow_optimization objectives));
    cbn; destruct (search _) as [status values]; destruct (found status); cbn;
    unfold ret; eexists; (split; [reflexivity | intros; congruence]).
Qed.



End RoundTrip.

(** * Further properties of the code *)

(** ** The layout job *)

Section LayoutJob.
Import Async LayoutWorker Terms.

Lemma update_job_progress_disconnected job_id progress message w :
  redis_client w = false ->
  update_job_progress job_id progress message w = (Ok tt, w).
Proof. intros H. unfold update_job_progress. rewrite H. reflexivity. Qed.

Lemma update_job_progress_connected job_id progress message w :
  redis_client w = true ->
  update_job_progress job_id progress message w
  = if hd false (xadd_failures w)
    then (Raise RedisError, mkWorld true (stream w) (tl (xadd_failures w)))
    else (Ok tt,
          mkWorld true
            (stream w ++ [(("job_progress:" ++ job_id)%string,
                           mkProgress job_id progress message)])
            (tl (xadd_failures w))).
Proof.
  intros H. unfold update_job_progress, xadd. rewrite H.
  destruct (xadd_failures w) as [| [] rest]; reflexivity.
Qed.

(** The three post-processing steps of a job, one by one. *)
Lemma generate_layouts_layouts job w layouts :
  r_layouts (fst (generate_layouts job w)) = Some layouts ->
  let catalog := generate_furniture_catalog (floor_plan job) (style_prefs job)
                   (budget_cents job) in
  let model := build_constraint_model (bounds (floor_plan job)) (walls (floor_plan job))
                 (doors (floor_plan job)) (windows (floor_plan job)) catalog
                 (constraints job) in
  exists l1 l2 l3,
    layouts = [l1; l2; l3]
    /\ post_process_layout
         (generate_layout_solution model "conversation_focused" "Cozy Conversation")
         catalog (floor_plan job) (job_id job ++ "_layout_1") = Ok l1
    /\ post_process_layout
         (generate_layout_solution model "work_focused" "Work & Lounge")
         catalog (floor_plan job) (job_id job ++ "_layout_2") = Ok l2
    /\ post_process_layout
         (generate_layout_solution model "entertainment_focused" "Entertainment Hub")
         catalog (floor_plan job) (job_id job ++ "_layout_3") = Ok l3.
Proof.
  intros Hlayouts. cbv zeta.
  unfold generate_layouts, try_except in Hlayouts.
  destruct (generate_layouts_body job w) as [[r | e] w'] eqn:Ebody;
    simpl in Hlayouts; [| discriminate].
  apply generate_layouts_body_Ok in Ebody. destruct Ebody as (layouts' & -> & HF).
  simpl in Hlayouts. injection Hlayouts as ->.
  unfold enumerate, solve_layout_variants in HF.
  cbn [seq map List.length combine] in HF.
  inversion HF as [| a1 l1 t1 t1' H1 HF1]; subst.
  inversion HF1 as [| a2 l2 t2 t2' H2 HF2]; subst.
  inversion HF2 as [| a3 l3 t3 t3' H3 HF3]; subst.
  inversion HF3; subst.
  exists l1, l2, l3. unfold Spec.post_process in *. auto.
Qed.


Lemma filter_none {A} (f : A -> bool) (l : list A) :
  existsb f l = false -> filter f l = [].
Proof.
  induction l as [| a l IH]; simpl; [reflexivity |].
  destruct (f a); simpl; [discriminate | exact IH].
Qed.

Lemma filter_some {A} (f : A -> bool) (l : list A) :
  existsb f l = true -> filter f l <> [].
Proof.
  induction l as [| a l IH]; simpl; [discriminate |].
  destruct (f a); simpl; [discriminate | exact IH].
Qed.

(** X1: the style filter of [generate_furniture_catalog].  When no item of
    the base catalog carries a preferred style, the preferences are
    dropped: the catalog is the one a job without preferences gets.  When
    some item does, every item of the catalog carries a preferred style. *)
Theorem style_preferences_filter_or_fall_back floor_plan style_prefs budget_cents :
  let matching := fun item =>
    existsb (fun style => str_in style (style_tags item)) style_prefs in
  (existsb matching base_catalog = false ->
   generate_furniture_catalog floor_plan style_prefs budget_cents
   = generate_furniture_catalog floor_plan [] budget_cents)
  /\ (existsb matching base_catalog = true ->
      Forall (fun item => matching item = true)
             (generate_furniture_catalog floor_plan style_prefs budget_cents)).
Proof.
  cbv zeta. unfold generate_furniture_catalog, filter_catalog. split; intros H.
  - f_equal. f_equal. unfold filter_by_style.
    destruct style_prefs; [reflexivity |].
    rewrite (filter_none _ _ H). reflexivity.
  - apply Forall_forall. intros item Hin.
    apply (subsequence_In _ _ _ (filter_by_room_size_subsequence _ _)) in Hin.
    apply (subsequence_In _ _ _ (filter_by_budget_subsequence _ _)) in Hin.
    unfold filter_by_style in Hin.
    destruct style_prefs as [| s prefs]; [discriminate H |].
    pose proof (filter_some _ _ H) as Hne.
    match type of Hin with context [filter ?f base_catalog] =>
      destruct (filter f base_catalog) eqn:E end; [contradiction Hne; reflexivity |].
    rewrite <- E in Hin. apply filter_In in Hin. tauto.
Qed.


(** X2: with a budget other than zero, the catalog holds exactly the items
    of the catalog without budget whose price is at most 40% of the
    budget. *)
Theorem budget_filter_keeps_the_affordable floor_plan style_prefs (budget : Z) item :
  budget <> 0%Z ->
  In item (generate_furniture_catalog floor_plan style_prefs (Some budget))
  <-> In item (generate_furniture_catalog floor_plan style_prefs None)
      /\ inject_Z (price_cents item) <= inject_Z budget * 0.4.
Proof.
  intros Hb. unfold generate_furniture_catalog, filter_catalog.
  unfold filter_by_budget, budget_given. cbn [get].
  apply Z.eqb_neq in Hb. rewrite Hb. cbn [negb].
  unfold filter_by_room_size.
  destruct (Qltb (get (area_sqm floor_plan) 20.0) 15);
    rewrite ?filter_In, Qle_bool_iff; tauto.
Qed.

Lemma budget_filter_keeps_the_affordable_witness :
  In Inputs.armchair (generate_furniture_catalog Examples.plain_room [] (Some 100000%Z))
  <-> In Inputs.armchair (generate_furniture_catalog Examples.plain_room [] None)
      /\ inject_Z (price_cents Inputs.armchair) <= inject_Z 100000 * 0.4.
Proof.
  apply (budget_filter_keeps_the_affordable Examples.plain_room [] 100000 Inputs.armchair).
  discriminate.
Defined.

(** What [post_process_layout] puts into a layout. *)
Lemma post_process_layout_Ok solution catalog floor_plan layout_id layout :
  post_process_layout solution catalog floor_plan layout_id = Ok layout ->
  exists coverage,
    calculate_coverage_ratio (Spec.enriched catalog (s_placements solution)) floor_plan
    = Ok coverage
    /\ layout
       = mkLayout layout_id (s_name solution) (s_strategy solution)
           (Spec.enriched catalog (s_placements solution))
           (calculate_layout_score solution catalog floor_plan)
           (generate_layout_rationale solution
              (calculate_layout_score solution catalog floor_plan))
           (validate_layout_constraints solution catalog floor_plan)
           (mkMetrics
              (fold_right Z.add 0%Z
                 (map (fun p => get (p_price_cents p) 0%Z)
                      (Spec.enriched catalog (s_placements solution))))
              (List.length (Spec.enriched catalog (s_placements solution)))
              coverage
              (calculate_flow_score (Spec.enriched catalog (s_placements solution))
                 floor_plan)).
Proof.
  unfold post_process_layout. fold (Spec.enriched catalog (s_placements solution)).
  destruct (calculate_coverage_ratio _ floor_plan) as [coverage | e]; [| discriminate].
  intros H. injection H as <-. exists coverage. split; reflexivity.
Qed.

(** An enriched placement carries the data of a catalog item. *)
Lemma enriched_In catalog placements p :
  In p (Spec.enriched catalog placements) ->
  exists placement item,
    In placement placements /\ In item catalog
    /\ LayoutWorker.id item = sp_furniture_id placement
    /\ p = enrich placement item.
Proof.
  unfold Spec.enriched. intros H. apply in_flat_map in H.
  destruct H as (placement & Hin & H). unfold next_such in H.
  destruct (find _ catalog) as [item |] eqn:E; [| contradiction].
  destruct H as [<- | []]. apply find_some in E. destruct E as [Hitem Hid].
  apply String.eqb_eq in Hid. exists placement, item. auto.
Qed.

(** X5: in a room of less than 15 square metres every placement of every
    layout is of an item whose width times depth is below 2 square metres;
    the 3-seat sofa (2.166 square metres) is never placed. *)
Theorem small_rooms_get_small_furniture job w layouts :
  get (area_sqm (floor_plan job)) 20.0 < 15 ->
  r_layouts (fst (generate_layouts job w)) = Some layouts ->
  Forall (fun layout =>
            Forall (fun p =>
                      p_furniture_id p <> Some "sofa_3seat"%string
                      /\ exists d, p_dimensions p = Some d
                                   /\ get (width d) 0 * get (depth d) 0 < 2.0)
                   (l_placements layout))
         layouts.
Proof.
  intros Harea Hlayouts.
  destruct (generate_layouts_layouts job w layouts Hlayouts)
    as (l1 & l2 & l3 & -> & H1 & H2 & H3).
  set (catalog := generate_furniture_catalog (floor_plan job) (style_prefs job)
                    (budget_cents job)) in *.
  assert (Hsmall : forall item, In item catalog ->
                     item_width item * item_depth item < 2.0).
  { intros item Hin. unfold catalog, generate_furniture_catalog, filter_catalog in Hin.
    unfold filter_by_room_size in Hin. apply Qltb_lt in Harea. rewrite Harea in Hin.
    apply filter_In in Hin. destruct Hin as [_ Hin]. apply Qltb_lt in Hin. exact Hin. }
  assert (Hall : forall solution layout_id layout,
             post_process_layout solution catalog (floor_plan job) layout_id = Ok layout ->
             Forall (fun p =>
                      p_furniture_id p <> Some "sofa_3seat"%string
                      /\ exists d, p_dimensions p = Some d
                                   /\ get (width d) 0 * get (depth d) 0 < 2.0)
                    (l_placements layout)).
  { intros solution layout_id layout Hpost.
    apply post_process_placements in Hpost. rewrite Hpost.
    apply Forall_forall. intros p Hp. apply enriched_In in Hp.
    destruct Hp as (placement & item & _ & Hitem & Hid & ->).
    pose proof (Hsmall item Hitem) as Hs. split.
    - cbn [enrich p_furniture_id]. intros E. injection E as E.
      rewrite <- Hid in E.
      assert (Hb : In item base_catalog).
      { eapply subsequence_In; [apply generate_furniture_catalog_subsequence | exact Hitem]. }
      assert (item = Inputs.sofa).
      { simpl in Hb. decompose [or] Hb; subst; try discriminate E; try reflexivity.
        contradiction. }
      subst item. revert Hs. vm_compute. discriminate.
    - exists (dimensions item). split; [reflexivity | exact Hs]. }
  repeat constructor; eapply Hall; eassumption.
Qed.


Lemma small_rooms_get_small_furniture_witness :
  exists layouts,
    r_layouts (fst (generate_layouts Inputs.small_room_job Examples.quiet_world))
    = Some layouts
    /\ Forall (fun layout =>
                 Forall (fun p =>
                           p_furniture_id p <> Some "sofa_3seat"%string
                           /\ exists d, p_dimensions p = Some d
                                        /\ get (width d) 0 * get (depth d) 0 < 2.0)
                        (l_placements layout))
              layouts.
Proof.
  eexists. split; [reflexivity |].
  apply (small_rooms_get_small_furniture Inputs.small_room_job Examples.quiet_world);
    reflexivity.
Defined.

Lemma enriched_length catalog placements :
  (List.length (Spec.enriched catalog placements) <= List.length placements)%nat.
Proof.
  unfold Spec.enriched. induction placements as [| p l IH]; [apply le_n |].
  cbn [flat_map]. rewrite length_app.
  destruct (next_such _ catalog); cbn [List.length Nat.add]; lia.
Qed.

Lemma coverage_sum_nonneg catalog placements :
  Forall (fun item => 0 <= item_width item /\ 0 <= item_depth item) catalog ->
  0 <= fold_right Qplus 0
         (map (fun p =>
                 let d := get (p_dimensions p) (mkDimensions None None None) in
                 get (width d) 1.0 * get (depth d) 1.0)
              (Spec.enriched catalog placements)).
Proof.
  intros Hcat. apply sum_nonneg. apply Forall_map, Forall_forall. intros p Hp.
  apply enriched_In in Hp. destruct Hp as (placement & item & _ & Hitem & _ & ->).
  rewrite Forall_forall in Hcat. specialize (Hcat item Hitem).
  unfold item_width, item_depth in Hcat. cbn [enrich p_dimensions get].
  destruct (width (dimensions item)), (depth (dimensions item)); cbn [get] in *; nra.
Qed.

(** The placements of a layout are those of the solution whose item is in
    the catalog, each with the name, the dimensions and the price of that
    item; the metrics count them and add up their prices, and the coverage
    ratio is at most 1, and at least 0 when the area is positive. *)
Lemma layout_metrics_describe_the_placements
    solution catalog floor_plan layout_id layout :
  post_process_layout solution catalog floor_plan layout_id = Ok layout ->
  Forall (fun p =>
            exists placement item,
              In placement (s_placements solution) /\ In item catalog
              /\ p = enrich placement item
              /\ LayoutWorker.id item = sp_furniture_id placement)
         (l_placements layout)
  /\ furniture_count (l_metrics layout) = List.length (l_placements layout)
  /\ (List.length (l_placements layout) <= List.length (s_placements solution))%nat
  /\ total_cost_cents (l_metrics layout)
     = fold_right Z.add 0%Z
         (map (fun p => get (p_price_cents p) 0%Z) (l_placements layout))
  /\ coverage_ratio (l_metrics layout) <= 1
  /\ (0 < get (area_sqm floor_plan) 20.0 ->
      Forall (fun item => 0 <= item_width item /\ 0 <= item_depth item) catalog ->
      0 <= coverage_ratio (l_metrics layout)).
Proof.
  intros H. apply post_process_layout_Ok in H. destruct H as (coverage & Hc & ->).
  cbn [l_placements l_metrics furniture_count total_cost_cents coverage_ratio].
  split; [| split; [| split; [| split; [| split]]]]; try reflexivity.
  - apply Forall_forall. intros p Hp. apply enriched_In in Hp.
    destruct Hp as (placement & item & ? & ? & ? & ?). exists placement, item. auto.
  - apply enriched_length.
  - unfold calculate_coverage_ratio in Hc.
    destruct (Qeq_bool (get (area_sqm floor_plan) 20.0) 0); [discriminate |].
    injection Hc as <-. eapply Qle_trans; [apply Q.le_min_l | lra].
  - intros Harea Hcat. unfold calculate_coverage_ratio in Hc.
    destruct (Qeq_bool (get (area_sqm floor_plan) 20.0) 0); [discriminate |].
    injection Hc as <-. apply Q.min_glb; [lra |].
    apply Qle_shift_div_l; [exact Harea |].
    rewrite Qmult_0_l. exact (coverage_sum_nonneg catalog (s_placements solution) Hcat).
Qed.


Lemma Qsqrt_lt_one (x : Q) : Qsqrt x < 1.0 <-> x < 1.
Proof.
  assert (E : 1.0 == inject_Z 1000000000 / inject_Z sqrt_scale) by reflexivity.
  rewrite E, (Qsqrt_lt_iff x 1000000000 eq_refl), <- E.
  split; intros H; lra.
Qed.

(** X6: [check_furniture_overlap] looks at the distance between the two
    positions and at nothing else: it holds when they are less than 1 m
    apart and does not when they are more than 1 m apart, whatever the
    sizes of the pieces and whatever the catalog (of positions that are
    1 m apart to within [Spec.noise] nothing is said: the comparison is
    made on doubles).  The messages of [validate_layout_constraints] are
    one overlap message for each pair for which it holds, in the order of
    the two loops, and nothing else (the clearance check accepts every
    placement). *)
Theorem overlap_check_compares_positions :
  (forall p1 p2 furniture_catalog,
      let apart := Spec.dist_sq (sp_x p1, sp_y p1) (sp_x p2, sp_y p2) in
      (apart < (1 - Spec.noise) * (1 - Spec.noise) ->
       check_furniture_overlap p1 p2 furniture_catalog = true)
      /\ ((1 + Spec.noise) * (1 + Spec.noise) < apart ->
          check_furniture_overlap p1 p2 furniture_catalog = false))
  /\ (forall solution furniture_catalog floor_plan,
         validate_layout_constraints solution furniture_catalog floor_plan
         = map (fun p =>
                  ("Furniture overlap detected between "
                     ++ sp_furniture_id (fst p) ++ " and " ++ sp_furniture_id (snd p))%string)
               (filter (fun p => check_furniture_overlap (fst p) (snd p) furniture_catalog)
                       (pairs (s_placements solution)))).
Proof.
  split.
  - intros p1 p2 catalog apart.
    assert (E : check_furniture_overlap p1 p2 catalog = true <-> apart < 1).
    { unfold check_furniture_overlap, apart, Spec.dist_sq.
      rewrite Qltb_lt, Qsqrt_lt_one. cbn [fst snd]. reflexivity. }
    unfold Spec.noise. split.
    + intros H. apply E. lra.
    + intros H. destruct (check_furniture_overlap p1 p2 catalog); [| reflexivity].
      assert (apart < 1) by (apply E; reflexivity). lra.
  - intros solution catalog floor_plan. unfold validate_layout_constraints.
    unfold check_clearance_requirements.
    assert (E : forall l : list SolutionPlacement,
               flat_map (fun placement : SolutionPlacement =>
                           if true then []
                           else [("Insufficient clearance around "
                                    ++ sp_furniture_id placement)%string]) l = []).
    { induction l; [reflexivity | exact IHl]. }
    rewrite E, app_nil_r.
    induction (pairs (s_placements solution)) as [| p l IH]; [reflexivity |].
    cbn [flat_map filter].
    destruct (check_furniture_overlap (fst p) (snd p) catalog); cbn [map app];
      rewrite IH; reflexivity.
Qed.

(** The desk and the office chair of the second layout are 0.8 m apart:
    with the whole catalog the layout carries an overlap message, although
    the two footprints share no area. *)
Example work_layout_reports_an_overlap :
  exists layout,
    post_process_layout
      (generate_layout_solution Examples.base_model "work_focused" "Work & Lounge")
      base_catalog Examples.plain_room "layout" = Ok layout
    /\ l_violations layout
       = ["Furniture overlap detected between desk and office_chair"%string].
Proof. eexists. split; reflexivity. Qed.


(** X7: the layouts of a job are numbered 1 to 3 after the job, follow the
    three strategies in a fixed order, and all have the score 0.835 and a
    rationale that ends on the same sentence: the score does not depend on
    the placements. *)
Theorem layouts_are_scored_alike job w layouts :
  r_layouts (fst (generate_layouts job w)) = Some layouts ->
  map l_id layouts
  = [job_id job ++ "_layout_1"; job_id job ++ "_layout_2"; job_id job ++ "_layout_3"]%string
  /\ map l_strategy layouts
     = ["conversation_focused"; "work_focused"; "entertainment_focused"]%string
  /\ map l_name layouts = ["Cozy Conversation"; "Work & Lounge"; "Entertainment Hub"]%string
  /\ Forall (fun layout =>
               l_score layout == 0.835
               /\ exists base_rationale,
                    l_rationale layout
                    = (base_rationale ++ " Good balance of function and aesthetics.")%string)
            layouts.
Proof.
  intros Hlayouts.
  destruct (generate_layouts_layouts job w layouts Hlayouts)
    as (l1 & l2 & l3 & -> & H1 & H2 & H3).
  apply post_process_layout_Ok in H1, H2, H3.
  destruct H1 as (c1 & _ & ->), H2 as (c2 & _ & ->), H3 as (c3 & _ & ->).
  cbn [map l_id l_strategy l_name]. repeat split.
  repeat constructor; cbn [l_score l_rationale]; try reflexivity;
    eexists; reflexivity.
Qed.

Lemma layouts_are_scored_alike_witness :
  exists layouts,
    r_layouts (fst (generate_layouts Examples.zero_budget_job Examples.quiet_world))
    = Some layouts
    /\ map l_id layouts = ["job_layout_1"; "job_layout_2"; "job_layout_3"]%string
    /\ map l_strategy layouts
       = ["conversation_focused"; "work_focused"; "entertainment_focused"]%string
    /\ map l_name layouts
       = ["Cozy Conversation"; "Work & Lounge"; "Entertainment Hub"]%string
    /\ Forall (fun layout =>
                 l_score layout == 0.835
                 /\ exists base_rationale,
                      l_rationale layout
                      = (base_rationale ++ " Good balance of function and aesthetics.")%string)
              layouts.
Proof.
  eexists. split; [reflexivity |].
  apply (layouts_are_scored_alike Examples.zero_budget_job Examples.quiet_world).
  reflexivity.
Defined.


(** *** The job and the progress stream *)

Lemma bind_update_disconnected {B} job_id progress message (k : unit -> Async B) w :
  redis_client w = false ->
  bind (update_job_progress job_id progress message) k w = k tt w.
Proof.
  intros H. unfold bind. rewrite update_job_progress_disconnected by exact H. reflexivity.
Qed.

Lemma mapM_pure_eq {A B} (g : A -> Async B) (f : A -> Outcome B) (l : list A) :
  (forall a w, g a w = (f a, w)) ->
  forall w w0, mapM g l w = (fst (mapM g l w0), w).
Proof.
  intros Hg. induction l as [| a l IH]; intros w w0; [reflexivity |].
  cbn [mapM]. unfold bind at 1 3. rewrite !Hg.
  destruct (f a) as [b | e]; [| reflexivity].
  unfold bind. rewrite (IH w w0).
  destruct (mapM g l w0) as [[bs | e] w1]; reflexivity.
Qed.

(** X10: when Redis is not connected, a layout job leaves the world as it
    is, the stream and the failures to come included, and returns what it
    returns in any other world without Redis. *)
Theorem disconnected_job_writes_nothing job w :
  redis_client w = false ->
  snd (generate_layouts job w) = w
  /\ fst (generate_layouts job w) = fst (generate_layouts job (mkWorld false [] [])).
Proof.
  intros Hw. unfold generate_layouts, try_except, generate_layouts_body.
  rewrite !bind_update_disconnected by (exact Hw || reflexivity).
  match goal with |- context [bind (mapM ?g ?l) ?k w] =>
    set (K := k);
    pose proof (mapM_pure_eq g (Spec.post_process job) l
                  (fun a w => match a with (i, s) => eq_refl end)) as Heq;
    pose proof (mapM_pure_world g (Spec.post_process job) l
                  (fun a w => match a with (i, s) => eq_refl end)
                  (mkWorld false [] [])) as Hs;
    unfold bind; rewrite (Heq w (mkWorld false [] []));
    destruct (mapM g l (mkWorld false [] [])) as [[layouts | e] w1]
  end; cbn [fst snd] in *; [| split; reflexivity].
  subst w1 K. cbv beta.
  rewrite !bind_update_disconnected by (exact Hw || reflexivity).
  split; reflexivity.
Qed.


Lemma disconnected_job_writes_nothing_witness :
  snd (generate_layouts Examples.zero_budget_job Inputs.offline_world)
  = Inputs.offline_world
  /\ fst (generate_layouts Examples.zero_budget_job Inputs.offline_world)
     = fst (generate_layouts Examples.zero_budget_job (mkWorld false [] [])).
Proof.
  apply (disconnected_job_writes_nothing Examples.zero_budget_job Inputs.offline_world).
  reflexivity.
Defined.

Lemma update_Ok_connected job_id progress message w w' :
  redis_client w = true ->
  update_job_progress job_id progress message w = (Ok tt, w') ->
  w' = written job_id progress message w /\ hd false (xadd_failures w) = false.
Proof.
  intros Hc. rewrite (update_job_progress_connected _ _ _ _ Hc).
  destruct (hd false (xadd_failures w)); [discriminate |].
  intros H. injection H as <-. split; reflexivity.
Qed.

Lemma generate_layouts_body_connected job w result w' :
  redis_client w = true ->
  generate_layouts_body job w = (Ok result, w') ->
  stream w' = stream w ++ layout_records (job_id job)
  /\ firstn 6 (xadd_failures w ++ repeat false 6) = repeat false 6.
Proof.
  intros Hc H. unfold generate_layouts_body in H.
  apply bind_Ok_inv in H. destruct H as ([] & w1 & U1 & H).
  apply update_Ok_connected in U1; [| exact Hc]. destruct U1 as [-> F1].
  apply bind_Ok_inv in H. destruct H as ([] & w2 & U2 & H).
  apply update_Ok_connected in U2; [| reflexivity]. destruct U2 as [-> F2].
  apply bind_Ok_inv in H. destruct H as ([] & w3 & U3 & H).
  apply update_Ok_connected in U3; [| reflexivity]. destruct U3 as [-> F3].
  apply bind_Ok_inv in H. destruct H as ([] & w4 & U4 & H).
  apply update_Ok_connected in U4; [| reflexivity]. destruct U4 as [-> F4].
  apply bind_Ok_inv in H. destruct H as ([] & w5 & U5 & H).
  apply update_Ok_connected in U5; [| reflexivity]. destruct U5 as [-> F5].
  apply bind_Ok_inv in H. destruct H as (layouts & w6 & Hmap & H).
  match type of Hmap with mapM ?g ?l ?w0 = _ =>
    pose proof (mapM_pure_world g (Spec.post_process job) l
                  (fun a w => match a with (i, s) => eq_refl end) w0) as Hs end.
  rewrite Hmap in Hs. cbn [snd] in Hs. subst w6.
  apply bind_Ok_inv in H. destruct H as ([] & w7 & U6 & H).
  apply update_Ok_connected in U6; [| reflexivity]. destruct U6 as [-> F6].
  unfold ret in H. injection H as _ <-.
  unfold written in *. cbn [stream xadd_failures] in *. split.
  - rewrite <- !app_assoc. reflexivity.
  - destruct (xadd_failures w) as [| b0 [| b1 [| b2 [| b3 [| b4 [| b5 rest]]]]]];
      cbn [hd tl] in *; subst; reflexivity.
Qed.

(** X12: when Redis is connected, a completed layout job has appended
    exactly its six records to the stream, in order, under the key of the
    job, and returns the progress 1.0. *)
Theorem completed_job_wrote_six_records job w :
  redis_client w = true ->
  r_status (fst (generate_layouts job w)) = "completed"%string ->
  stream (snd (generate_layouts job w)) = stream w ++ layout_records (job_id job)
  /\ r_progress (fst (generate_layouts job w)) = 1.0.
Proof.
  intros Hc Hs. unfold generate_layouts, try_except in *.
  destruct (generate_layouts_body job w) as [[r | e] w'] eqn:Ebody; cbn [fst snd] in *;
    [| discriminate Hs].
  pose proof (generate_layouts_body_connected job w r w' Hc Ebody) as [E _].
  apply generate_layouts_body_Ok in Ebody. destruct Ebody as (layouts & -> & _).
  split; [exact E | reflexivity].
Qed.

Lemma completed_job_wrote_six_records_witness :
  stream (snd (generate_layouts Examples.zero_budget_job Examples.quiet_world))
  = stream Examples.quiet_world ++ layout_records (job_id Examples.zero_budget_job)
  /\ r_progress (fst (generate_layouts Examples.zero_budget_job Examples.quiet_world)) = 1.0.
Proof.
  apply (completed_job_wrote_six_records Examples.zero_budget_job Examples.quiet_world);
    reflexivity.
Defined.

(** X11: a layout job makes six writes; when Redis is connected and one of
    the six fails, the job fails, without layouts and with progress 0.0. *)
Theorem failed_write_fails_the_job job w (k : nat) :
  redis_client w = true -> (k < 6)%nat -> nth k (xadd_failures w) false = true ->
  r_status (fst (generate_layouts job w)) = "failed"%string
  /\ r_layouts (fst (generate_layouts job w)) = None
  /\ r_progress (fst (generate_layouts job w)) = 0.0.
Proof.
  intros Hc Hk Hnth. unfold generate_layouts, try_except.
  destruct (generate_layouts_body job w) as [[r | e] w'] eqn:Ebody; cbn [fst];
    [exfalso | repeat split].
  pose proof (generate_layouts_body_connected job w r w' Hc Ebody) as [_ F].
  assert (Hn : nth k (firstn 6 (xadd_failures w ++ repeat false 6)) false = true).
  { rewrite nth_firstn. apply Nat.ltb_lt in Hk. rewrite Hk.
    destruct (Nat.lt_ge_cases k (List.length (xadd_failures w))) as [Hl | Hl].
    - rewrite app_nth1 by exact Hl. exact Hnth.
    - rewrite nth_overflow in Hnth by exact Hl. discriminate. }
  rewrite F in Hn.
  do 6 (destruct k as [| k]; [discriminate Hn |]). lia.
Qed.

Lemma failed_write_fails_the_job_witness :
  let result := fst (generate_layouts Examples.zero_budget_job Inputs.failing_world) in
  r_status result = "failed"%string /\ r_layouts result = None
  /\ r_progress result = 0.0.
Proof.
  apply (failed_write_fails_the_job Examples.zero_budget_job Inputs.failing_world 2).
  - reflexivity.
  - repeat constructor.
  - reflexivity.
Defined.


Lemma reliable_hd w : Spec.reliable w -> hd false (xadd_failures w) = false.
Proof.
  unfold Spec.reliable. destruct (xadd_failures w); [reflexivity |].
  intros H. inversion H. assumption.
Qed.

Lemma reliable_written job_id progress message w :
  Spec.reliable w -> Spec.reliable (written job_id progress message w).
Proof.
  unfold Spec.reliable, written. cbn [xadd_failures].
  destruct (xadd_failures w); [constructor |].
  intros H. inversion H. assumption.
Qed.

Lemma bind_update_written {B} job_id progress message (k : unit -> Async B) w :
  redis_client w = true -> Spec.reliable w ->
  bind (update_job_progress job_id progress message) k w
  = k tt (written job_id progress message w).
Proof.
  intros Hc Hr. unfold bind.
  rewrite (update_job_progress_connected _ _ _ _ Hc), (reliable_hd w Hr). reflexivity.
Qed.

Lemma zero_area_has_no_coverage placements floor_plan :
  get (area_sqm floor_plan) 20.0 == 0 ->
  calculate_coverage_ratio placements floor_plan = Raise ZeroDivisionError.
Proof.
  intros H. unfold calculate_coverage_ratio.
  apply Qeq_bool_iff in H. rewrite H. reflexivity.
Qed.

(** X9: on a floor plan whose area is zero the coverage ratio divides by
    zero: the job fails, without layouts and with progress 0.0, whatever
    the state of Redis; when Redis is connected and does not fail, the
    five records up to progress 0.8 have been written by then. *)
Theorem zero_area_job_fails job w :
  get (area_sqm (floor_plan job)) 20.0 == 0 ->
  r_status (fst (generate_layouts job w)) = "failed"%string
  /\ r_layouts (fst (generate_layouts job w)) = None
  /\ r_progress (fst (generate_layouts job w)) = 0.0
  /\ (redis_client w = true -> Spec.reliable w ->
      stream (snd (generate_layouts job w))
      = stream w ++ firstn 5 (layout_records (job_id job))).
Proof.
  intros Harea.
  assert (Hno : forall w r w', generate_layouts_body job w <> (Ok r, w')).
  { intros w0 r w' Ebody.
    assert (Hl : r_layouts (fst (generate_layouts job w0)) = r_layouts r).
    { unfold generate_layouts, try_except. rewrite Ebody. reflexivity. }
    apply generate_layouts_body_Ok in Ebody. destruct Ebody as (layouts & -> & _).
    apply generate_layouts_layouts in Hl. destruct Hl as (l1 & _ & _ & _ & H1 & _).
    apply post_process_layout_Ok in H1. destruct H1 as (c & Hc & _).
    rewrite zero_area_has_no_coverage in Hc by exact Harea. discriminate. }
  unfold generate_layouts, try_except.
  destruct (generate_layouts_body job w) as [[r | e] w'] eqn:Ebody; cbn [fst snd].
  - exfalso. exact (Hno _ _ _ Ebody).
  - repeat split. intros Hc Hr. revert Ebody. unfold generate_layouts_body.
    rewrite bind_update_written by assumption.
    do 4 (rewrite bind_update_written
            by first [reflexivity | repeat apply reliable_written; assumption]).
    unfold bind at 1.
    match goal with |- context [mapM ?g ?l ?w0] =>
      pose proof (mapM_pure_world g (Spec.post_process job) l
                    (fun a w => match a with (i, s) => eq_refl end) w0) as Hs;
      destruct (mapM g l w0) as [[layouts | e'] w6] eqn:Emap
    end; cbn [snd] in Hs; subst w6.
    + intros Ebody. exfalso.
      rewrite bind_update_written in Ebody
        by first [reflexivity | repeat apply reliable_written; assumption].
      discriminate Ebody.
    + intros Ebody. injection Ebody as _ <-.
      unfold written. cbn [stream]. rewrite <- !app_assoc. reflexivity.
Qed.

Lemma zero_area_job_fails_witness :
  let job := Inputs.zero_area_job in
  let w := Examples.quiet_world in
  r_status (fst (generate_layouts job w)) = "failed"%string
  /\ r_layouts (fst (generate_layouts job w)) = None
  /\ r_progress (fst (generate_layouts job w)) = 0.0
  /\ (redis_client w = true -> Spec.reliable w ->
      stream (snd (generate_layouts job w))
      = stream w ++ firstn 5 (layout_records (job_id job))).
Proof.
  apply (zero_area_job_fails Inputs.zero_area_job Examples.quiet_world).
  reflexivity.
Defined.


(** *** Budgets *)

Lemma subsequence_map {A B} (f : A -> B) (l l' : list A) :
  Spec.subsequence l l' -> Spec.subsequence (map f l) (map f l').
Proof. induction 1; simpl; constructor; assumption. Qed.

Lemma subsequence_three {A} (l : list A) (a b c : A) :
  Spec.subsequence l [a; b; c] ->
  l = [] \/ l = [a] \/ l = [b] \/ l = [c] \/ l = [a; b] \/ l = [a; c] \/ l = [b; c]
  \/ l = [a; b; c].
Proof.
  intros H.
  repeat match goal with
         | H : Spec.subsequence _ (_ :: _) |- _ => inversion H; clear H; subst
         | H : Spec.subsequence _ [] |- _ => inversion H; clear H; subst
         end; tauto.
Qed.

Lemma price_share (price budget : Z) :
  inject_Z price <= inject_Z budget * 0.4 <-> (5 * price <= 2 * budget)%Z.
Proof. unfold Qle. cbn [Qnum Qden inject_Z Qmult Pos.mul]. lia. Qed.

Lemma cheapest_item item :
  In item base_catalog -> (12999 <= price_cents item)%Z.
Proof.
  intros H. simpl in H. decompose [or] H; subst; simpl; lia || contradiction.
Qed.

(** X3: the cheapest item costs 129.99.  With a budget other than zero and
    of at most 324.97, negative budgets included, the catalog is empty;
    a job that completes still returns three layouts, each without
    placements or messages, with a count and a cost of zero and a coverage
    of zero. *)
Theorem small_budgets_leave_the_layouts_empty job w (budget : Z) :
  budget_cents job = Some budget -> budget <> 0%Z -> (budget <= 32497)%Z ->
  generate_furniture_catalog (floor_plan job) (style_prefs job) (budget_cents job) = []
  /\ forall layouts,
       r_layouts (fst (generate_layouts job w)) = Some layouts ->
       List.length layouts = 3%nat
       /\ Forall (fun layout =>
                    l_placements layout = []
                    /\ l_violations layout = []
                    /\ furniture_count (l_metrics layout) = 0%nat
                    /\ total_cost_cents (l_metrics layout) = 0%Z
                    /\ coverage_ratio (l_metrics layout) == 0)
                 layouts.
Proof.
  intros Hb Hnz Hle.
  assert (Hcat : generate_furniture_catalog (floor_plan job) (style_prefs job)
                   (budget_cents job) = []).
  { rewrite Hb.
    destruct (generate_furniture_catalog (floor_plan job) (style_prefs job) (Some budget))
      as [| item rest] eqn:E; [reflexivity | exfalso].
    assert (Hin : In item (generate_furniture_catalog (floor_plan job) (style_prefs job)
                             (Some budget))) by (rewrite E; left; reflexivity).
    pose proof (budget_filter_sound _ _ _ _ Hnz Hin) as Hp. apply price_share in Hp.
    apply (subsequence_In _ _ _ (generate_furniture_catalog_subsequence _ _ _)) in Hin.
    apply cheapest_item in Hin. lia. }
  split; [exact Hcat |]. intros layouts Hlayouts.
  destruct (generate_layouts_layouts job w layouts Hlayouts)
    as (l1 & l2 & l3 & -> & H1 & H2 & H3).
  rewrite Hcat in H1, H2, H3.
  split; [reflexivity |].
  assert (Hall : forall strategy name layout_id layout,
             post_process_layout
               (generate_layout_solution
                  (build_constraint_model (bounds (floor_plan job)) (walls (floor_plan job))
                     (doors (floor_plan job)) (windows (floor_plan job)) []
                     (constraints job))
                  strategy name)
               [] (floor_plan job) layout_id = Ok layout ->
             l_placements layout = []
             /\ l_violations layout = []
             /\ furniture_count (l_metrics layout) = 0%nat
             /\ total_cost_cents (l_metrics layout) = 0%Z
             /\ coverage_ratio (l_metrics layout) == 0).
  { intros strategy name layout_id layout H.
    apply post_process_layout_Ok in H. destruct H as (c & Hc & ->).
    assert (Es : s_placements
                   (generate_layout_solution
                      (build_constraint_model (bounds (floor_plan job))
                         (walls (floor_plan job)) (doors (floor_plan job))
                         (windows (floor_plan job)) [] (constraints job))
                      strategy name) = []).
    { unfold generate_layout_solution. cbn [s_placements].
      destruct (String.eqb strategy "conversation_focused");
        [| destruct (String.eqb strategy "work_focused")]; reflexivity. }
    cbn [l_placements l_violations l_metrics furniture_count total_cost_cents
         coverage_ratio].
    unfold validate_layout_constraints. rewrite Es in *.
    repeat split. cbn [Spec.enriched flat_map] in Hc.
    unfold calculate_coverage_ratio in Hc. cbn [map fold_right] in Hc.
    destruct (Qeq_bool (get (area_sqm (floor_plan job)) 20.0) 0) eqn:Ea; [discriminate |].
    injection Hc as <-. apply Qeq_bool_neq in Ea.
    assert (E0 : 0 / get (area_sqm (floor_plan job)) 20.0 == 0) by (field; exact Ea).
    rewrite E0. apply Q.min_r. lra. }
  repeat constructor; eapply Hall; eassumption.
Qed.

(** The prices of what a strategy places, when the whole catalog is at hand. *)
Lemma full_layout_prices strategy name :
  let prices :=
    map (fun p => get (p_price_cents p) 0%Z)
        (Spec.enriched base_catalog
           (s_placements (generate_layout_solution Examples.base_model strategy name))) in
  prices = [79900; 24999; 39900]%Z \/ prices = [45999; 25999; 79900]%Z
  \/ prices = [34999; 79900; 12999]%Z.
Proof.
  cbv zeta. unfold generate_layout_solution. cbn [s_placements].
  destruct (String.eqb strategy "conversation_focused");
    [| destruct (String.eqb strategy "work_focused")]; auto.
Qed.

(** X4: the budget filter bounds single prices, not their sum; with the
    items and the three strategies the worker has, the total cost of every
    layout of a job with a positive budget is nevertheless at most the
    budget. *)
Theorem layouts_cost_at_most_the_budget job w (budget : Z) layouts :
  budget_cents job = Some budget -> (0 < budget)%Z ->
  r_layouts (fst (generate_layouts job w)) = Some layouts ->
  Forall (fun layout => (total_cost_cents (l_metrics layout) <= budget)%Z) layouts.
Proof.
  intros Hb Hpos Hlayouts.
  destruct (generate_layouts_layouts job w layouts Hlayouts)
    as (l1 & l2 & l3 & -> & H1 & H2 & H3).
  set (catalog := generate_furniture_catalog (floor_plan job) (style_prefs job)
                    (budget_cents job)) in *.
  assert (Hall : forall strategy name layout_id layout,
             post_process_layout
               (generate_layout_solution
                  (build_constraint_model (bounds (floor_plan job)) (walls (floor_plan job))
                     (doors (floor_plan job)) (windows (floor_plan job)) catalog
                     (constraints job))
                  strategy name)
               catalog (floor_plan job) layout_id = Ok layout ->
             (total_cost_cents (l_metrics layout) <= budget)%Z).
  { intros strategy name layout_id layout H.
    apply post_process_layout_Ok in H. destruct H as (c & _ & ->).
    cbn [l_metrics total_cost_cents].
    match goal with |- context [Spec.enriched catalog ?ps] => set (placements := ps) end.
    assert (Hprice : Forall (fun price => (5 * price <= 2 * budget)%Z)
                       (map (fun p => get (p_price_cents p) 0%Z)
                            (Spec.enriched catalog placements))).
    { apply Forall_map, Forall_forall. intros p Hp. apply enriched_In in Hp.
      destruct Hp as (placement & item & _ & Hitem & _ & ->).
      cbn [enrich p_price_cents get]. apply price_share.
      unfold catalog in Hitem. rewrite Hb in Hitem.
      eapply budget_filter_sound; [| exact Hitem]. lia. }
    assert (Hsub : Spec.subsequence
                     (map (fun p => get (p_price_cents p) 0%Z)
                          (Spec.enriched catalog placements))
                     (map (fun p => get (p_price_cents p) 0%Z)
                          (Spec.enriched base_catalog
                             (s_placements
                                (generate_layout_solution Examples.base_model
                                   strategy name))))).
    { apply subsequence_map. apply enriched_solution; try reflexivity.
      apply generate_furniture_catalog_subsequence. }
    destruct (full_layout_prices strategy name) as [E | [E | E]];
      cbv zeta in E; rewrite E in Hsub; apply subsequence_three in Hsub;
      decompose [or] Hsub; clear Hsub;
      match goal with Hl : map _ _ = _ |- _ => rewrite Hl in *; clear Hl end;
      repeat match goal with
             | H : Forall _ (_ :: _) |- _ => apply Forall_cons_iff in H; destruct H
             end;
      cbn [fold_right]; lia. }
  repeat constructor; eapply Hall; eassumption.
Qed.


Lemma small_budgets_leave_the_layouts_empty_witness :
  generate_furniture_catalog (floor_plan Examples.one_cent_job)
    (style_prefs Examples.one_cent_job) (budget_cents Examples.one_cent_job) = []
  /\ forall layouts,
       r_layouts (fst (generate_layouts Examples.one_cent_job Examples.quiet_world))
       = Some layouts ->
       List.length layouts = 3%nat
       /\ Forall (fun layout =>
                    l_placements layout = []
                    /\ l_violations layout = []
                    /\ furniture_count (l_metrics layout) = 0%nat
                    /\ total_cost_cents (l_metrics layout) = 0%Z
                    /\ coverage_ratio (l_metrics layout) == 0)
                 layouts.
Proof.
  apply (small_budgets_leave_the_layouts_empty Examples.one_cent_job Examples.quiet_world 1).
  - reflexivity.
  - discriminate.
  - discriminate.
Defined.

Lemma layouts_cost_at_most_the_budget_witness :
  exists layouts,
    r_layouts (fst (generate_layouts Inputs.funded_job Examples.quiet_world)) = Some layouts
    /\ Forall (fun layout => (total_cost_cents (l_metrics layout) <= 120000)%Z) layouts.
Proof.
  eexists. split; [reflexivity |].
  apply (layouts_cost_at_most_the_budget Inputs.funded_job Examples.quiet_world 120000);
    reflexivity.
Defined.


End LayoutJob.

(** ** The validation job *)

Section ValidationJob.
Import Async Shapely ValidateWorker.

(** What a completed validation returns. *)
Lemma validate_layout_body_Ok job w result w' :
  validate_layout_body job w = (Ok result, w') ->
  exists room_geometry accessibility_results,
    let furniture_geometries := create_furniture_geometries (layout_placements job) in
    let collision_results := check_collisions furniture_geometries room_geometry in
    let clearance_results :=
      validate_clearances furniture_geometries room_geometry (constraints job) in
    parse_room_geometry (floor_plan job) = Ok room_geometry
    /\ analyze_accessibility furniture_geometries room_geometry (floor_plan job)
       = Ok accessibility_results
    /\ result
       = mkValidationResult (job_id job) (layout_id job) "completed"
           (Some (mkValidationReport
                    (calculate_overall_score collision_results clearance_results
                       accessibility_results)
                    collision_results clearance_results accessibility_results
                    (mkReportMetrics
                       (score accessibility_results)
                       (flow_efficiency accessibility_results)
                       (calculate_space_utilization furniture_geometries room_geometry))))
           (Some (generate_navigation_heatmap furniture_geometries room_geometry))
           None 1.0.
Proof.
  unfold validate_layout_body. intros H.
  apply bind_Ok_inv in H. destruct H as (_ & ? & _ & H).
  apply bind_Ok_inv in H. destruct H as (room & ? & Hroom & H).
  do 4 (apply bind_Ok_inv in H; destruct H as (_ & ? & _ & H)).
  apply bind_Ok_inv in H. destruct H as (acc & ? & Hacc & H).
  do 2 (apply bind_Ok_inv in H; destruct H as (_ & ? & _ & H)).
  unfold ret in H. injection H as <- _.
  unfold lift in Hroom, Hacc. injection Hroom as Hroom _. injection Hacc as Hacc _.
  exists room, acc. cbv zeta. auto.
Qed.

Lemma validate_layout_completed job w :
  r_status (fst (validate_layout job w)) = "completed"%string ->
  exists result w', validate_layout_body job w = (Ok result, w').
Proof.
  unfold validate_layout, try_except.
  destruct (validate_layout_body job w) as [[r | e] w']; cbn [fst r_status].
  - intros _. exists r, w'. reflexivity.
  - discriminate.
Qed.

Lemma validate_layout_body_emits job :
  Spec.emits ("job_progress:" ++ job_id job) 0.1 1.0 (validate_layout_body job).
Proof.
  unfold validate_layout_body.
  apply emits_bind with (mid := 0.1) (mid' := 0.1); try lra.
  { apply emits_update_job_progress; lra. } intros _.
  apply emits_bind with (mid := 0.1) (mid' := 0.2); try lra.
  { apply emits_pure. reflexivity. } intros room.
  apply emits_bind with (mid := 0.2) (mid' := 0.4); try lra.
  { apply emits_update_job_progress; lra. } intros _.
  apply emits_bind with (mid := 0.4) (mid' := 0.6); try lra.
  { apply emits_update_job_progress; lra. } intros _.
  apply emits_bind with (mid := 0.6) (mid' := 0.8); try lra.
  { apply emits_update_job_progress; lra. } intros _.
  apply emits_bind with (mid := 0.8) (mid' := 0.8); try lra.
  { apply emits_update_job_progress; lra. } intros _.
  apply emits_bind with (mid := 0.8) (mid' := 0.9); try lra.
  { apply emits_pure. reflexivity. } intros acc.
  apply emits_bind with (mid := 0.9) (mid' := 1.0); try lra.
  { apply emits_update_job_progress; lra. } intros _.
  apply emits_bind with (mid := 1.0) (mid' := 1.0); try lra.
  { apply emits_update_job_progress; lra. } intros _.
  apply emits_pure. reflexivity.
Qed.

(** X13: a validation ends completed, with a report, a heatmap, no error
    and progress 1.0, or failed, with an error, neither report nor heatmap
    and progress 0.0.  In both cases it only appends to the stream, under
    the key of the job, records whose progress values lie between 0.1 and
    1.0 and never decrease. *)
Theorem validation_progress_is_monotone (job : ValidationJob) (w : World) :
  let result := fst (validate_layout job w) in
  let w' := snd (validate_layout job w) in
  (r_status result = "completed"%string /\ r_progress result = 1.0
   /\ validation_report result <> None /\ heatmap_data result <> None
   /\ r_error result = None
   \/ r_status result = "failed"%string /\ r_progress result = 0.0
      /\ validation_report result = None /\ heatmap_data result = None
      /\ r_error result <> None)
  /\ exists added,
       stream w' = stream w ++ added
       /\ Forall (fun entry => fst entry = ("job_progress:" ++ job_id job)%string) added
       /\ Sorted Qle (Spec.progress_values added)
       /\ Forall (fun entry => 0.1 <= pr_progress (snd entry) <= 1.0) added.
Proof.
  cbv zeta. unfold validate_layout, try_except.
  destruct (validate_layout_body_emits job w) as (added & E & S & F).
  apply StronglySorted_Sorted in S.
  assert (Hadded : exists added,
             stream (snd (validate_layout_body job w)) = stream w ++ added
             /\ Forall (fun entry => fst entry = ("job_progress:" ++ job_id job)%string)
                       added
             /\ Sorted Qle (Spec.progress_values added)
             /\ Forall (fun entry => 0.1 <= pr_progress (snd entry) <= 1.0) added).
  { exists added. repeat split; try assumption;
      (eapply Forall_impl; [| exact F]); simpl; tauto. }
  destruct (validate_layout_body job w) as [[r | e] w'] eqn:Ebody; cbn [fst snd] in *.
  - split; [left | exact Hadded].
    apply validate_layout_body_Ok in Ebody. destruct Ebody as (room & acc & _ & _ & ->).
    cbn. repeat split; discriminate.
  - split; [right | exact Hadded]. cbn. repeat split; discriminate.
Qed.


Lemma validate_layout_fails job w :
  (forall result w', validate_layout_body job w <> (Ok result, w')) ->
  r_status (fst (validate_layout job w)) = "failed"%string
  /\ validation_report (fst (validate_layout job w)) = None
  /\ heatmap_data (fst (validate_layout job w)) = None
  /\ r_progress (fst (validate_layout job w)) = 0.0.
Proof.
  intros Hno. unfold validate_layout, try_except.
  destruct (validate_layout_body job w) as [[r | e] w'] eqn:E; cbn [fst].
  - exfalso. exact (Hno _ _ eq_refl).
  - repeat split.
Qed.

Lemma incomplete_bounds_raise floor_plan :
  let b := bounds floor_plan in
  bounds_given b = true ->
  min_x b = None \/ min_y b = None \/ max_x b = None \/ max_y b = None ->
  exists key, parse_room_geometry floor_plan = Raise (KeyError key).
Proof.
  cbv zeta. intros Hg Hm. unfold parse_room_geometry. rewrite Hg. unfold item.
  destruct (min_x (bounds floor_plan)), (min_y (bounds floor_plan)),
    (max_x (bounds floor_plan)), (max_y (bounds floor_plan));
    try (eexists; reflexivity).
  decompose [or] Hm; discriminate.
Qed.

(** X14: bounds that have some of the keys [min_x], [min_y], [max_x],
    [max_y] but not all of them make the validation fail: looking up the
    missing key raises, after at most the first record has been written. *)
Theorem incomplete_bounds_fail_the_validation job w :
  let b := bounds (floor_plan job) in
  bounds_given b = true ->
  min_x b = None \/ min_y b = None \/ max_x b = None \/ max_y b = None ->
  r_status (fst (validate_layout job w)) = "failed"%string
  /\ validation_report (fst (validate_layout job w)) = None
  /\ heatmap_data (fst (validate_layout job w)) = None
  /\ r_progress (fst (validate_layout job w)) = 0.0
  /\ (stream (snd (validate_layout job w)) = stream w
      \/ stream (snd (validate_layout job w))
         = stream w ++ [(("job_progress:" ++ job_id job)%string,
                         mkProgress (job_id job) 0.1 "Starting layout validation")]).
Proof.
  cbv zeta. intros Hg Hm.
  destruct (incomplete_bounds_raise (floor_plan job) Hg Hm) as (key & Hraise).
  assert (Hno : forall result w', validate_layout_body job w <> (Ok result, w')).
  { intros r w' Ebody. apply validate_layout_body_Ok in Ebody.
    destruct Ebody as (room & _ & Hroom & _). rewrite Hraise in Hroom. discriminate. }
  destruct (validate_layout_fails job w Hno) as (H1 & H2 & H3 & H4).
  repeat (split; [assumption |]).
  assert (E : snd (validate_layout job w)
              = snd (update_job_progress (job_id job) 0.1 "Starting layout validation" w)).
  { unfold validate_layout, try_except, validate_layout_body, bind, lift.
    rewrite Hraise.
    destruct (update_job_progress (job_id job) 0.1 "Starting layout validation" w)
      as [[[] | e] w1]; reflexivity. }
  rewrite E. unfold update_job_progress, xadd.
  destruct (redis_client w); [| left; reflexivity].
  destruct (xadd_failures w) as [| [] rest]; cbn [snd stream]; auto.
Qed.

(** X15: when the room polygon has area zero, the flow efficiency divides
    by zero and the validation fails. *)
Theorem zero_area_room_fails_the_validation job w room_geometry :
  parse_room_geometry (floor_plan job) = Ok room_geometry ->
  area (room_polygon room_geometry) == 0 ->
  r_status (fst (validate_layout job w)) = "failed"%string
  /\ validation_report (fst (validate_layout job w)) = None
  /\ heatmap_data (fst (validate_layout job w)) = None
  /\ r_progress (fst (validate_layout job w)) = 0.0.
Proof.
  intros Hroom Harea. apply validate_layout_fails.
  intros r w' Ebody. apply validate_layout_body_Ok in Ebody.
  destruct Ebody as (room & acc & Hroom' & Hacc & _).
  rewrite Hroom in Hroom'. injection Hroom' as <-.
  unfold analyze_accessibility in Hacc.
  assert (E : Qeq_bool (area (room_polygon room_geometry) * 0.4) 0 = true).
  { apply Qeq_bool_iff. rewrite Harea. reflexivity. }
  rewrite E in Hacc. discriminate.
Qed.


Lemma incomplete_bounds_fail_the_validation_witness :
  let job := Inputs.half_bounded_job in
  let w := Examples.quiet_world in
  r_status (fst (validate_layout job w)) = "failed"%string
  /\ validation_report (fst (validate_layout job w)) = None
  /\ heatmap_data (fst (validate_layout job w)) = None
  /\ r_progress (fst (validate_layout job w)) = 0.0
  /\ (stream (snd (validate_layout job w)) = stream w
      \/ stream (snd (validate_layout job w))
         = stream w ++ [(("job_progress:" ++ job_id job)%string,
                         mkProgress (job_id job) 0.1 "Starting layout validation")]).
Proof.
  apply (incomplete_bounds_fail_the_validation Inputs.half_bounded_job Examples.quiet_world).
  - reflexivity.
  - right. right. left. reflexivity.
Defined.

Lemma zero_area_room_fails_the_validation_witness :
  let job := Inputs.flat_room_job in
  let w := Examples.quiet_world in
  r_status (fst (validate_layout job w)) = "failed"%string
  /\ validation_report (fst (validate_layout job w)) = None
  /\ heatmap_data (fst (validate_layout job w)) = None
  /\ r_progress (fst (validate_layout job w)) = 0.0.
Proof.
  eapply (zero_area_room_fails_the_validation Inputs.flat_room_job Examples.quiet_world);
    reflexivity.
Defined.

(** *** The empty layout *)

Lemma difference_area_empty room : difference_area room [] == area room.
Proof.
  unfold difference_area, area. cbn [map app sort fold_right insert].
  pose proof (minx_le_maxx room) as Hx. pose proof (miny_le_maxy room) as Hy.
  apply Qle_bool_iff in Hx, Hy. rewrite Hx, Hy.
  cbn [steps tl combine flat_map map app fold_right existsb negb fst snd].
  rewrite andb_true_r.
  assert (Hc : covers_point room ((minx room + maxx room) / 2, (miny room + maxy room) / 2)
               = true).
  { apply covers_point_iff. cbn [fst snd]. apply Qle_bool_iff in Hx, Hy.
    unfold Qdiv. change (/ 2) with (1 # 2). lra. }
  rewrite Hc. ring.
Qed.

Lemma mean_ones {A} (l : list A) :
  l <> [] -> mean (map (fun _ => 1.0) l) == 1.
Proof.
  intros Hne. unfold mean. rewrite length_map.
  assert (Hs : fold_right Qplus 0 (map (fun _ : A => 1.0) l)
               == inject_Z (Z.of_nat (List.length l))).
  { clear Hne. induction l as [| a l IH]; [reflexivity |].
    cbn [map fold_right List.length]. rewrite IH, Nat2Z.inj_succ, <- Z.add_1_r, inject_Z_plus.
    change (inject_Z 1) with 1. lra. }
  rewrite Hs. field.
  destruct l; [contradiction |]. intros H.
  assert (Hn : 0 < inject_Z (Z.of_nat (List.length (a :: l)))).
  { rewrite <- (Zlt_Qlt 0). simpl. lia. }
  lra.
Qed.

(** A validation whose two fallible steps succeed completes, when Redis
    does not fail. *)
Lemma validate_layout_completes job w room_geometry accessibility_results :
  Spec.reliable w ->
  parse_room_geometry (floor_plan job) = Ok room_geometry ->
  analyze_accessibility (create_furniture_geometries (layout_placements job))
    room_geometry (floor_plan job) = Ok accessibility_results ->
  exists result w',
    validate_layout_body job w = (Ok result, w').
Proof.
  intros Hw Hroom Hacc. unfold validate_layout_body.
  repeat match goal with
  | Hr : Spec.reliable ?w
    |- context [bind (update_job_progress ?j ?p ?m) ?k ?w] =>
      let w' := fresh "w" in let Hr' := fresh "Hw" in let E := fresh "E" in
      destruct (bind_update_reliable j p m k w Hr) as (w' & Hr' & E);
      rewrite E; clear E Hr; cbv beta
  | |- context [bind (lift ?o) ?k ?w] =>
      change (bind (lift o) k w)
        with (match o with Ok a => k a w | Raise e => (Raise e, w) end);
      rewrite ?Hroom, ?Hacc; cbv beta iota
  end.
  eexists _, _. reflexivity.
Qed.

(** X16: a layout without placements, in a room given by its bounds, of
    non-zero area, and with Redis not failing, gets the overall score 1
    and the accessibility score 1, no message, a walkable ratio of 1, and
    a space utilization of 0. *)
Theorem empty_layout_scores_one job w room_geometry :
  layout_placements job = [] ->
  bounds_given (bounds (floor_plan job)) = true ->
  parse_room_geometry (floor_plan job) = Ok room_geometry ->
  ~ area (room_polygon room_geometry) == 0 ->
  Spec.reliable w ->
  exists report,
    validation_report (fst (validate_layout job w)) = Some report
    /\ overall_score report == 1
    /\ score (accessibility report) == 1
    /\ c_violations (collisions report) = []
    /\ cl_violations (clearances report) = []
    /\ walkable_area_ratio (clearances report) == 1
    /\ space_utilization (metrics report) == 0.
Proof.
  intros Hempty _ Hroom Harea Hw.
  pose proof (area_nonneg (room_polygon room_geometry)) as Hnn.
  assert (Hpos : 0 < area (room_polygon room_geometry)) by lra.
  pose proof (difference_area_empty (room_polygon room_geometry)) as Hd.
  assert (Hok : exists acc,
             analyze_accessibility [] room_geometry (floor_plan job) = Ok acc
             /\ score acc == 1).
  { unfold analyze_accessibility.
    destruct (Qeq_bool (area (room_polygon room_geometry) * 0.4) 0) eqn:E.
    - apply Qeq_bool_iff in E. lra.
    - eexists. split; [reflexivity |]. cbn [score map].
      change (door_access_scores [] (doors (floor_plan job)))
        with (map (fun _ : Door => 1.0) (doors (floor_plan job))).
      change (window_access_scores [] (windows (floor_plan job)))
        with (map (fun _ : Window => 1.0) (windows (floor_plan job))).
      assert (Hdoor : match map (fun _ : Door => 1.0) (doors (floor_plan job)) with
                      | [] => 1.0
                      | _ => mean (map (fun _ : Door => 1.0) (doors (floor_plan job)))
                      end == 1).
      { destruct (doors (floor_plan job)) eqn:Ed; [reflexivity |].
        apply mean_ones. discriminate. }
      assert (Hwin : match map (fun _ : Window => 1.0) (windows (floor_plan job)) with
                     | [] => 1.0
                     | _ => mean (map (fun _ : Window => 1.0) (windows (floor_plan job)))
                     end == 1).
      { destruct (windows (floor_plan job)) eqn:Ed; [reflexivity |].
        apply mean_ones. discriminate. }
      assert (Hflow : Qmin 1.0 (difference_area (room_polygon room_geometry) []
                                / (area (room_polygon room_geometry) * 0.4)) == 1).
      { rewrite Hd.
        assert (E25 : area (room_polygon room_geometry)
                      / (area (room_polygon room_geometry) * 0.4) == 2.5) by (field; lra).
        rewrite E25. reflexivity. }
      rewrite (py_round_Proper _ 1 3); [reflexivity |].
      rewrite Hdoor, Hwin, Hflow. reflexivity. }
  destruct Hok as (acc & Hacc & Hscore).
  destruct (validate_layout_completes job w room_geometry acc Hw Hroom) as (r & w' & Ebody).
  { rewrite Hempty. exact Hacc. }
  pose proof Ebody as Eres. apply validate_layout_body_Ok in Eres.
  destruct Eres as (room' & acc' & Hroom' & Hacc' & ->).
  rewrite Hroom in Hroom'. injection Hroom' as <-.
  rewrite Hempty in Hacc'. cbn [create_furniture_geometries map] in Hacc'.
  rewrite Hacc in Hacc'. injection Hacc' as <-.
  unfold validate_layout, try_except. rewrite Ebody. cbn [fst validation_report].
  eexists. split; [reflexivity |].
  cbn [overall_score accessibility collisions clearances metrics space_utilization].
  rewrite Hempty. cbn [create_furniture_geometries map].
  split; [| split; [exact Hscore | split; [reflexivity |]]].
  - unfold calculate_overall_score. cbn [check_collisions validate_clearances pairs filter map
      List.length total_collisions total_issues].
    rewrite (py_round_Proper _ 1 3); [reflexivity |].
    rewrite Hscore. reflexivity.
  - unfold validate_clearances.
    cbn [pairs filter map List.length cl_violations walkable_area_ratio app].
    assert (Edoors : forall ds : list DoorGeometry,
               flat_map (fun door : DoorGeometry =>
                           flat_map (fun furniture : FurnitureGeometry =>
                                       if Qltb (distance (point (fst (dg_center door))
                                                            (snd (dg_center door)))
                                                         (geometry furniture))
                                               (get (min_door_clearance (constraints job)) 0.8)
                                       then [TooCloseToDoor (fg_name furniture)
                                               (get (min_door_clearance (constraints job)) 0.8)]
                                       else [])
                                    []) ds = []).
    { induction ds; [reflexivity | exact IHds]. }
    rewrite Edoors. cbn [app].
    assert (Ew : Qltb (difference_area (room_polygon room_geometry) [])
                      (area (room_polygon room_geometry) * 0.3) = false).
    { apply Qltb_ge. rewrite Hd. lra. }
    rewrite Ew.
    assert (Ep : Qltb 0 (area (room_polygon room_geometry)) = true) by (apply Qltb_lt; exact Hpos).
    rewrite Ep. split; [reflexivity |]. split.
    + rewrite Hd. field. lra.
    + unfold calculate_space_utilization. cbn [map fold_right]. rewrite Ep.
      assert (E0 : 0 / area (room_polygon room_geometry) == 0) by (field; lra).
      assert (E1 : Qle_bool 0.25 (0 / area (room_polygon room_geometry)) = false).
      { apply Qle_bool_gt. rewrite E0. reflexivity. }
      assert (E2 : Qltb (0 / area (room_polygon room_geometry)) 0.25 = true).
      { apply Qltb_lt. rewrite E0. reflexivity. }
      rewrite E1, E2. cbn [andb]. rewrite E0. reflexivity.
Qed.


Lemma empty_layout_scores_one_witness :
  exists report,
    validation_report (fst (validate_layout Inputs.empty_layout_job Examples.quiet_world))
    = Some report
    /\ overall_score report == 1
    /\ score (accessibility report) == 1
    /\ c_violations (collisions report) = []
    /\ cl_violations (clearances report) = []
    /\ walkable_area_ratio (clearances report) == 1
    /\ space_utilization (metrics report) == 0.
Proof.
  apply (empty_layout_scores_one Inputs.empty_layout_job Examples.quiet_world
           Examples.plain_room_geometry).
  - reflexivity.
  - reflexivity.
  - reflexivity.
  - vm_compute. discriminate.
  - constructor.
Defined.

(** *** The heatmap grid *)

(** X21: the heatmap has [height] rows of [width] cells, both at least 1,
    and [width] and [height] are the numbers of steps of 0.2 m that start
    within the bounding box of the room: the extent divided by 0.2,
    rounded down, plus one (for an extent that is a whole number of steps
    to within [Spec.noise], the rounding of doubles decides whether the
    last step counts). *)
Theorem heatmap_grid_shape furniture_geometries room_geometry :
  let h := generate_navigation_heatmap furniture_geometries room_geometry in
  let room := room_polygon room_geometry in
  (1 <= h_width h)%Z /\ (1 <= h_height h)%Z
  /\ List.length (grid h) = Z.to_nat (h_height h)
  /\ Forall (fun row => List.length row = Z.to_nat (h_width h)) (grid h)
  /\ (maxx room - minx room) / 0.2 - Spec.noise < inject_Z (h_width h)
     <= (maxx room - minx room) / 0.2 + 1 + Spec.noise
  /\ (maxy room - miny room) / 0.2 - Spec.noise < inject_Z (h_height h)
     <= (maxy room - miny room) / 0.2 + 1 + Spec.noise.
Proof.
  cbv zeta. unfold generate_navigation_heatmap. cbn [h_width h_height grid].
  set (room := room_polygon room_geometry).
  pose proof (minx_le_maxx room) as Hx. pose proof (miny_le_maxy room) as Hy.
  assert (Hw : 0 <= (maxx room - minx room) / 0.2).
  { apply Qle_shift_div_l; lra. }
  assert (Hh : 0 <= (maxy room - miny room) / 0.2).
  { apply Qle_shift_div_l; lra. }
  pose proof (py_int_nonneg _ Hw) as Hw0. pose proof (py_int_nonneg _ Hh) as Hh0.
  destruct (py_int_floor _ Hw) as [Hw1 Hw2]. destruct (py_int_floor _ Hh) as [Hh1 Hh2].
  split; [lia |]. split; [lia |].
  split; [rewrite length_map, length_seq; reflexivity |].
  split.
  - apply Forall_map, Forall_forall. intros i _. rewrite length_map, length_seq. reflexivity.
  - rewrite !inject_Z_plus. change (inject_Z 1) with 1. unfold Spec.noise.
    set (qw := (maxx room - minx room) / 0.2) in *.
    set (qh := (maxy room - miny room) / 0.2) in *.
    clearbody qw qh. repeat split; lra.
Qed.

(** *** Scores *)

(** X22: the space utilization lies between 0 and 1, for every layout and
    every room, also when the footprints overlap or cover more than the
    room. *)
Theorem space_utilization_is_a_share furniture_geometries room_geometry :
  0 <= calculate_space_utilization furniture_geometries room_geometry <= 1.
Proof.
  unfold calculate_space_utilization.
  set (room_area := area (room_polygon room_geometry)).
  set (furniture_area :=
         fold_right Qplus 0 (map (fun f => area (geometry f)) furniture_geometries)).
  assert (Hf : 0 <= furniture_area).
  { apply sum_nonneg, Forall_map, Forall_forall. intros f _. apply area_nonneg. }
  set (ratio := if Qltb 0 room_area then furniture_area / room_area else 0).
  assert (Hr : 0 <= ratio).
  { unfold ratio. destruct (Qltb 0 room_area) eqn:E; [| lra].
    apply Qltb_lt in E. apply Qle_shift_div_l; lra. }
  destruct (Qle_bool 0.25 ratio) eqn:E1; cbn [andb].
  - destruct (Qle_bool ratio 0.35) eqn:E2; [lra |].
    apply Qle_bool_iff in E1. apply Qle_bool_gt in E2.
    assert (E3 : Qltb ratio 0.25 = false) by (apply Qltb_ge; exact E1).
    rewrite E3. split; [eapply Qle_trans; [| apply Q.le_max_l]; lra |].
    apply Q.max_lub; [lra |].
    assert (0 <= (ratio - 0.35) / 0.3) by (apply Qle_shift_div_l; lra). lra.
  - apply Qle_bool_gt in E1.
    assert (E3 : Qltb ratio 0.25 = true) by (apply Qltb_lt; exact E1).
    rewrite E3. split; [apply Qle_shift_div_l; lra | apply Qle_shift_div_r; lra].
Qed.

(** With five collisions or ten clearance issues the penalty is complete:
    the overall score is 0 whatever the accessibility. *)
Lemma many_violations_give_score_zero
    collision_results clearance_results accessibility_results :
  (5 <= total_collisions collision_results)%nat
  \/ (10 <= total_issues clearance_results)%nat ->
  calculate_overall_score collision_results clearance_results accessibility_results == 0.
Proof.
  intros H. unfold calculate_overall_score.
  rewrite (py_round_Proper _ 0 3); [reflexivity |].
  set (n := inject_Z (Z.of_nat (total_collisions collision_results))).
  set (m := inject_Z (Z.of_nat (total_issues clearance_results))).
  assert (Hz : Qmin 1.0 (n * 0.2) == 1 \/ Qmin 1.0 (m * 0.1) == 1).
  { destruct H as [H | H]; [left | right]; apply Nat2Z.inj_le in H;
      rewrite Zle_Qle in H;
      [fold n in H; change (inject_Z (Z.of_nat 5)) with 5 in H
      | fold m in H; change (inject_Z (Z.of_nat 10)) with 10 in H];
      rewrite Q.min_l; lra. }
  destruct Hz as [Hz | Hz]; rewrite Hz;
    (rewrite Q.max_l; [reflexivity |]);
    match goal with |- ?a <= _ => setoid_replace a with 0 by ring end; lra.
Qed.


(** *** Doors and windows *)

Lemma access_scores_sum {A} (f : A -> bool) (l : list A) :
  fold_right Qplus 0 (map (fun a => if f a then 0.0 else 1.0) l)
  == inject_Z (Z.of_nat (List.length l - List.length (filter f l))).
Proof.
  assert (Hle : forall l : list A, (List.length (filter f l) <= List.length l)%nat).
  { intros l0. induction l0 as [| a l0 IH]; simpl; [lia |]. destruct (f a); simpl; lia. }
  induction l as [| a l IH]; [reflexivity |].
  cbn [map fold_right filter]. rewrite IH. specialize (Hle l).
  destruct (f a); cbn [List.length].
  - replace (S (List.length l) - S (List.length (filter f l)))%nat
      with (List.length l - List.length (filter f l))%nat by lia. lra.
  - replace (S (List.length l) - List.length (filter f l))%nat
      with (S (List.length l - List.length (filter f l))) by lia.
    rewrite Nat2Z.inj_succ, <- Z.add_1_r, inject_Z_plus. change (inject_Z 1) with 1. lra.
Qed.

Lemma filter_length_le {A} (f : A -> bool) (l : list A) :
  (List.length (filter f l) <= List.length l)%nat.
Proof.
  induction l as [| a l IH]; simpl; [lia |]. destruct (f a); simpl; lia.
Qed.

(** X19: the numbers of blocked doors and windows are at most the numbers
    of doors and windows, and the door and window accessibility are the
    shares of those not blocked. *)
Theorem accessibility_is_the_share_of_free_openings
    furniture_geometries room_geometry floor_plan results :
  analyze_accessibility furniture_geometries room_geometry floor_plan = Ok results ->
  (blocked_doors results <= List.length (doors floor_plan))%nat
  /\ (blocked_windows results <= List.length (windows floor_plan))%nat
  /\ (doors floor_plan <> [] ->
      door_accessibility results
      == inject_Z (Z.of_nat (List.length (doors floor_plan) - blocked_doors results))
         / inject_Z (Z.of_nat (List.length (doors floor_plan))))
  /\ (windows floor_plan <> [] ->
      window_accessibility results
      == inject_Z (Z.of_nat (List.length (windows floor_plan) - blocked_windows results))
         / inject_Z (Z.of_nat (List.length (windows floor_plan)))).
Proof.
  intros H. pose proof (blocked_doors_and_windows _ _ _ _ H) as [Ed Ew].
  rewrite Ed, Ew. unfold analyze_accessibility in H.
  destruct (Qeq_bool (area (room_polygon room_geometry) * 0.4) 0); [discriminate |].
  injection H as <-. cbn [door_accessibility window_accessibility].
  split; [apply filter_length_le |]. split; [apply filter_length_le |].
  unfold door_access_scores, window_access_scores. split; intros Hne.
  - destruct (doors floor_plan) as [| d ds] eqn:E; [contradiction |].
    rewrite <- E.
    destruct (map _ (doors floor_plan)) eqn:Em; [rewrite E in Em; discriminate |].
    rewrite <- Em. unfold mean. rewrite length_map, access_scores_sum. reflexivity.
  - destruct (windows floor_plan) as [| d ds] eqn:E; [contradiction |].
    rewrite <- E.
    destruct (map _ (windows floor_plan)) eqn:Em; [rewrite E in Em; discriminate |].
    rewrite <- Em. unfold mean. rewrite length_map, access_scores_sum. reflexivity.
Qed.


Lemma accessibility_is_the_share_of_free_openings_witness :
  exists results,
    analyze_accessibility
      (create_furniture_geometries (layout_placements Examples.crowded_job))
      Examples.plain_room_geometry (floor_plan Examples.crowded_job) = Ok results
    /\ (blocked_doors results
        <= List.length (doors (floor_plan Examples.crowded_job)))%nat
    /\ (blocked_windows results
        <= List.length (windows (floor_plan Examples.crowded_job)))%nat
    /\ (doors (floor_plan Examples.crowded_job) <> [] ->
        door_accessibility results
        == inject_Z (Z.of_nat (List.length (doors (floor_plan Examples.crowded_job))
                               - blocked_doors results))
           / inject_Z (Z.of_nat (List.length (doors (floor_plan Examples.crowded_job)))))
    /\ (windows (floor_plan Examples.crowded_job) <> [] ->
        window_accessibility results
        == inject_Z (Z.of_nat (List.length (windows (floor_plan Examples.crowded_job))
                               - blocked_windows results))
           / inject_Z (Z.of_nat (List.length (windows (floor_plan Examples.crowded_job))))).
Proof.
  eexists. split; [reflexivity |].
  apply (accessibility_is_the_share_of_free_openings
           (create_furniture_geometries (layout_placements Examples.crowded_job))
           Examples.plain_room_geometry (floor_plan Examples.crowded_job)).
  reflexivity.
Defined.

Lemma parsed_doors floor_plan room_geometry :
  parse_room_geometry floor_plan = Ok room_geometry ->
  map dg_center (rg_doors room_geometry) = map door_position (doors floor_plan).
Proof.
  unfold parse_room_geometry.
  match goal with |- match ?r with _ => _ end = _ -> _ => destruct r end;
    [| discriminate].
  intros H. injection H as <-. cbn [rg_doors]. rewrite map_map. reflexivity.
Qed.

Lemma Qltb_le_trans (a b c : Q) : Qltb a b = true -> b <= c -> Qltb a c = true.
Proof. rewrite !Qltb_lt. intros. lra. Qed.

(** X20: in a validation report, when the minimum door clearance of the
    job is at least the 0.8 m of the accessibility analysis (it is 0.8 m
    by default), a blocked door comes with a message, among the clearance
    messages, that some piece is too close to a door. *)
Theorem blocked_doors_are_clearance_violations job w report :
  validation_report (fst (validate_layout job w)) = Some report ->
  0.8 <= get (min_door_clearance (constraints job)) 0.8 ->
  (0 < blocked_doors (accessibility report))%nat ->
  exists name,
    In (TooCloseToDoor name (get (min_door_clearance (constraints job)) 0.8))
       (cl_violations (clearances report)).
Proof.
  intros Hrep Hmin Hblocked.
  unfold validate_layout, try_except in Hrep.
  destruct (validate_layout_body job w) as [[r | e] w'] eqn:Ebody; cbn [fst] in Hrep;
    [| discriminate].
  apply validate_layout_body_Ok in Ebody.
  destruct Ebody as (room & acc & Hroom & Hacc & ->).
  cbn [validation_report] in Hrep. injection Hrep as <-.
  cbn [accessibility clearances] in *.
  set (fs := create_furniture_geometries (layout_placements job)) in *.
  apply blocked_doors_and_windows in Hacc. destruct Hacc as [Ed _].
  rewrite Ed in Hblocked.
  destruct (filter (fun door => blocked fs (door_position door) 0.8)
                   (doors (floor_plan job))) as [| door rest] eqn:Ef;
    [inversion Hblocked |].
  assert (Hin : In door (filter (fun door => blocked fs (door_position door) 0.8)
                                (doors (floor_plan job)))) by (rewrite Ef; left; reflexivity).
  apply filter_In in Hin. destruct Hin as [Hdoor Hb].
  unfold blocked in Hb. apply existsb_exists in Hb. destruct Hb as (f & Hf & Hd).
  pose proof (parsed_doors _ _ Hroom) as Hdoors.
  assert (Hc : In (door_position door) (map dg_center (rg_doors room))).
  { rewrite Hdoors. apply in_map. exact Hdoor. }
  apply in_map_iff in Hc. destruct Hc as (dg & Hcenter & Hdg).
  exists (fg_name f). unfold validate_clearances. cbn [cl_violations].
  apply in_or_app. right. apply in_or_app. left.
  apply in_flat_map. exists dg. split; [exact Hdg |].
  apply in_flat_map. exists f. split; [exact Hf |].
  rewrite Hcenter. rewrite (Qltb_le_trans _ _ _ Hd Hmin). left. reflexivity.
Qed.

Lemma blocked_doors_are_clearance_violations_witness :
  exists report,
    validation_report (fst (validate_layout Examples.crowded_job Examples.quiet_world))
    = Some report
    /\ exists name,
         In (TooCloseToDoor name
               (get (min_door_clearance (constraints Examples.crowded_job)) 0.8))
            (cl_violations (clearances report)).
Proof.
  eexists. split; [reflexivity |].
  apply (blocked_doors_are_clearance_violations Examples.crowded_job Examples.quiet_world).
  - reflexivity.
  - vm_compute. discriminate.
  - vm_compute. apply le_n.
Defined.


(** *** Collisions and clearances *)

Lemma Qsqrt_zero (x : Q) : x == 0 -> Qsqrt x == 0.
Proof.
  intros H. unfold Qsqrt.
  assert (E : Qfloor (x * inject_Z (sqrt_scale * sqrt_scale)) = 0%Z).
  { rewrite H. reflexivity. }
  rewrite E. reflexivity.
Qed.

Lemma intersecting_distance_zero a b : intersects a b = true -> distance a b == 0.
Proof.
  unfold intersects. rewrite andb_true_iff, !Qle_bool_iff. intros [Hx Hy].
  unfold distance. apply Qsqrt_zero. unfold distance_sq.
  rewrite (Q.max_l 0 (- overlap_x a b)) by lra.
  rewrite (Q.max_l 0 (- overlap_y a b)) by lra. ring.
Qed.

Lemma filter_length_impl {A} (f g : A -> bool) (l : list A) :
  (forall a, In a l -> f a = true -> g a = true) ->
  (List.length (filter f l) <= List.length (filter g l))%nat.
Proof.
  induction l as [| a l IH]; intros H; [apply le_n |].
  cbn [filter].
  assert (IH' : (List.length (filter f l) <= List.length (filter g l))%nat).
  { apply IH. intros b Hb. apply H. right. exact Hb. }
  destruct (f a) eqn:Ef.
  - rewrite (H a (or_introl eq_refl) Ef). cbn [List.length]. lia.
  - destruct (g a); cbn [List.length]; lia.
Qed.

(** X18: when the clearances in force are positive (0.4 m when a placement
    names none), every pair of footprints that intersect is reported as a
    clearance issue, with the distance 0 and, as deficit, the required
    clearance to two decimals; there are at least as many issues as
    collisions. *)
Theorem colliding_pairs_are_clearance_issues placements room_geometry constraints :
  let furniture_geometries := create_furniture_geometries placements in
  Forall (fun furniture => 0 < get (all (fg_clearances furniture)) 0.4)
         furniture_geometries ->
  (total_collisions (check_collisions furniture_geometries room_geometry)
   <= total_issues (validate_clearances furniture_geometries room_geometry constraints))%nat
  /\ forall furn1 furn2,
       In (furn1, furn2) (pairs furniture_geometries) ->
       intersects (geometry furn1) (geometry furn2) = true ->
       exists issue,
         In issue (clearance_issues
                     (validate_clearances furniture_geometries room_geometry constraints))
         /\ ci_furniture_1 issue = fg_id furn1
         /\ ci_furniture_2 issue = fg_id furn2
         /\ actual_distance issue == 0
         /\ Qabs (deficit issue - required_distance issue) <= 0.005 + Spec.noise.
Proof.
  intros furniture_geometries Hpos.
  assert (Hclose : forall p, In p (pairs furniture_geometries) ->
             (let '(furn1, furn2) := p in
              intersects (geometry furn1) (geometry furn2)) = true ->
             (let '(furn1, furn2) := p in
              Qltb (distance (geometry furn1) (geometry furn2))
                   (required_clearance furn1 furn2)) = true).
  { intros [f1 f2] Hin Hi. apply Qltb_lt.
    rewrite (intersecting_distance_zero _ _ Hi).
    apply pairs_In in Hin. rewrite Forall_forall in Hpos.
    pose proof (Hpos f1 (proj1 Hin)) as H1. unfold required_clearance.
    eapply Qlt_le_trans; [exact H1 | apply Q.le_max_l]. }
  split.
  - unfold check_collisions, validate_clearances.
    cbn [total_collisions total_issues]. rewrite !length_map.
    apply filter_length_impl. exact Hclose.
  - intros f1 f2 Hin Hi.
    exists (mkClearanceIssue (fg_id f1) (fg_id f2)
              (py_round (distance (geometry f1) (geometry f2)) 2)
              (required_clearance f1 f2)
              (py_round (required_clearance f1 f2 - distance (geometry f1) (geometry f2)) 2)).
    pose proof (intersecting_distance_zero _ _ Hi) as Hd.
    split; [| split; [reflexivity | split; [reflexivity | split]]].
    + unfold validate_clearances. cbn [clearance_issues].
      apply in_map_iff. exists (f1, f2). split; [reflexivity |].
      apply filter_In. split; [exact Hin | exact (Hclose (f1, f2) Hin Hi)].
    + cbn [actual_distance]. rewrite (py_round_Proper _ 0 2 Hd). reflexivity.
    + cbn [deficit required_distance].
      rewrite (py_round_Proper _ (required_clearance f1 f2) 2) by (rewrite Hd; ring).
      eapply Qle_trans; [apply py_round_2_close |]. unfold Spec.noise. lra.
Qed.

Lemma colliding_pairs_are_clearance_issues_witness :
  let fs := create_furniture_geometries Examples.touching_squares in
  (total_collisions (check_collisions fs Examples.plain_room_geometry)
   <= total_issues (validate_clearances fs Examples.plain_room_geometry
                      Examples.no_constraints))%nat
  /\ forall furn1 furn2,
       In (furn1, furn2) (pairs fs) ->
       intersects (geometry furn1) (geometry furn2) = true ->
       exists issue,
         In issue (clearance_issues
                     (validate_clearances fs Examples.plain_room_geometry
                        Examples.no_constraints))
         /\ ci_furniture_1 issue = fg_id furn1
         /\ ci_furniture_2 issue = fg_id furn2
         /\ actual_distance issue == 0
         /\ Qabs (deficit issue - required_distance issue) <= 0.005 + Spec.noise.
Proof.
  apply (colliding_pairs_are_clearance_issues Examples.touching_squares
           Examples.plain_room_geometry Examples.no_constraints).
  repeat constructor.
Defined.

(** *** Footprints *)

Lemma footprint_bounds placement :
  let x := get (p_x placement) 0 in
  let y := get (p_y placement) 0 in
  let dimensions :=
    get (p_dimensions placement) (mkDimensions (Some 1.0) (Some 1.0) (Some 0.8)) in
  let w := Qabs (get (width dimensions) 1.0) in
  let d := Qabs (get (depth dimensions) 1.0) in
  let extent :=
    match get (p_rotation placement) Deg0 with
    | Deg0 | Deg180 => (w, d)
    | Deg90 | Deg270 => (d, w)
    end in
  let footprint := furniture_polygon placement in
  minx footprint == x - fst extent / 2 /\ maxx footprint == x + fst extent / 2
  /\ miny footprint == y - snd extent / 2 /\ maxy footprint == y + snd extent / 2.
Proof.
  cbv zeta. unfold furniture_polygon.
  set (x := get (p_x placement) 0). set (y := get (p_y placement) 0).
  set (W := get (width (get (p_dimensions placement)
                            (mkDimensions (Some 1.0) (Some 1.0) (Some 0.8)))) 1.0).
  set (D := get (depth (get (p_dimensions placement)
                            (mkDimensions (Some 1.0) (Some 1.0) (Some 0.8)))) 1.0).
  clearbody x y W D.
  assert (HW : 0 <= W /\ Qabs W == W \/ W <= 0 /\ Qabs W == - W).
  { destruct (Qlt_le_dec W 0);
      [right; split; [lra | apply Qabs_neg; lra] | left; split; [lra | apply Qabs_pos; lra]]. }
  assert (HD : 0 <= D /\ Qabs D == D \/ D <= 0 /\ Qabs D == - D).
  { destruct (Qlt_le_dec D 0);
      [right; split; [lra | apply Qabs_neg; lra] | left; split; [lra | apply Qabs_pos; lra]]. }
  set (aW := Qabs W) in *. set (aD := Qabs D) in *. clearbody aW aD.
  destruct (get (p_rotation placement) Deg0);
    unfold minx, maxx, miny, maxy;
    cbn [cos_deg sin_deg map fst snd minimum maximum fold_right];
    unfold Qdiv; change (/ 2) with (1 # 2);
    destruct HW as [[HW0 HW] | [HW0 HW]]; destruct HD as [[HD0 HD] | [HD0 HD]];
    repeat split; elim_minmax; lra.
Qed.

(** X17: the footprint [create_furniture_geometries] builds is the
    rectangle centred on the position of the placement, of the width and
    depth of the item (1 m by 1 m when they are missing), with the two
    swapped for a rotation of 90 or 270 degrees; its area is width times
    depth. *)
Theorem footprint_is_a_centred_rectangle placement :
  let x := get (p_x placement) 0 in
  let y := get (p_y placement) 0 in
  let dimensions :=
    get (p_dimensions placement) (mkDimensions (Some 1.0) (Some 1.0) (Some 0.8)) in
  let w := Qabs (get (width dimensions) 1.0) in
  let d := Qabs (get (depth dimensions) 1.0) in
  let extent :=
    match get (p_rotation placement) Deg0 with
    | Deg0 | Deg180 => (w, d)
    | Deg90 | Deg270 => (d, w)
    end in
  let footprint := furniture_polygon placement in
  minx footprint == x - fst extent / 2 /\ maxx footprint == x + fst extent / 2
  /\ miny footprint == y - snd extent / 2 /\ maxy footprint == y + snd extent / 2
  /\ area footprint == w * d
  /\ fst (centroid footprint) == x /\ snd (centroid footprint) == y.
Proof.
  cbv zeta. destruct (footprint_bounds placement) as (H1 & H2 & H3 & H4).
  cbv zeta in H1, H2, H3, H4.
  repeat (split; [assumption |]).
  unfold area, centroid. cbn [fst snd]. rewrite H1, H2, H3, H4.
  destruct (get (p_rotation placement) Deg0); cbn [fst snd]; repeat split; field.
Qed.

End ValidationJob.

(** ** Messages and recommendations of the validator *)

Section Recommendations.
Import Shapely ValidateWorker.
Variable intersects_wall : Polygon -> WallGeometry -> bool.
Variable format_float : Q -> string.

Lemma round_half_even_lower (f : Q) : f - (1 # 2) <= inject_Z (round_half_even f).
Proof.
  unfold round_half_even.
  pose proof (Qfloor_le f) as Hlo. pose proof (Qlt_floor f) as Hhi.
  rewrite inject_Z_plus in Hhi. change (inject_Z 1) with 1 in Hhi.
  destruct (Qltb (f - inject_Z (Qfloor f)) (1 # 2)) eqn:E1.
  - apply Qltb_lt in E1. lra.
  - apply Qltb_ge in E1.
    destruct (Qltb (1 # 2) (f - inject_Z (Qfloor f))) eqn:E2.
    + rewrite inject_Z_plus. change (inject_Z 1) with 1. lra.
    + apply Qltb_ge in E2. destruct (Z.even (Qfloor f)).
      * lra.
      * rewrite inject_Z_plus. change (inject_Z 1) with 1. lra.
Qed.

Lemma py_round_3_lower (f : Q) : f - (1 # 2000) <= py_round f 3.
Proof.
  unfold py_round. change (inject_Z (10 ^ Z.of_nat 3)) with 1000.
  pose proof (round_half_even_lower (f * 1000)) as H.
  apply Qle_shift_div_l; [reflexivity |]. lra.
Qed.

(** X23: the recommendation to reorganize the furniture, made when the
    flow efficiency is below 0.7, is never made alone: the walkable ratio
    is then below 0.2802, so that the recommendation to reduce the
    furniture density is made too and the clearance messages say that the
    walkable area is insufficient. *)
Theorem poor_flow_comes_with_low_walkability
    furniture_geometries room_geometry floor_plan constraints accessibility_results :
  analyze_accessibility furniture_geometries room_geometry floor_plan
  = Async.Ok accessibility_results ->
  let clearance_results :=
    validate_clearances furniture_geometries room_geometry constraints in
  let recommendations :=
    ValidateReport.generate_recommendations
      (ValidateReport.check_collisions intersects_wall format_float
         furniture_geometries room_geometry)
      clearance_results accessibility_results in
  In "Reorganize furniture to create better navigation paths"%string recommendations ->
  In "Reduce furniture density to improve walkability"%string recommendations
  /\ In InsufficientWalkableArea (cl_violations clearance_results)
  /\ walkable_area_ratio clearance_results < 0.2802.
Proof.
  intros Hacc. cbv zeta. intros Hin.
  assert (Hflow : flow_efficiency accessibility_results < 0.7).
  { unfold ValidateReport.generate_recommendations in Hin.
    repeat (apply in_app_or in Hin; destruct Hin as [Hin | Hin];
            [match type of Hin with In _ (if ?b then _ else _) => destruct b end;
             [destruct Hin as [Hin | []]; discriminate Hin | contradiction] |]).
    destruct (Qltb (flow_efficiency accessibility_results) 0.7) eqn:E;
      [apply Qltb_lt in E; exact E | contradiction]. }
  unfold analyze_accessibility in Hacc.
  destruct (Qeq_bool (area (room_polygon room_geometry) * 0.4) 0) eqn:Earea;
    [discriminate |].
  injection Hacc as <-. cbn [flow_efficiency] in Hflow.
  apply Qeq_bool_neq in Earea.
  pose proof (area_nonneg (room_polygon room_geometry)) as Hnn.
  set (A := area (room_polygon room_geometry)) in *.
  set (W := difference_area (room_polygon room_geometry)
              (map geometry furniture_geometries)) in *.
  assert (HA : 0 < A) by lra.
  assert (E : W == W / (A * 0.4) * (A * 0.4)) by (field; lra).
  set (q := W / (A * 0.4)) in *.
  pose proof (py_round_3_lower (Qmin 1.0 q)) as Hr.
  assert (Hq : q < 0.7005).
  { assert (Hm : Qmin 1.0 q < 0.7005).
    { clear - Hr Hflow. set (m := Qmin 1.0 q) in *. set (r := py_round m 3) in *.
      clearbody m r. lra. }
    clear - Hm. clearbody q. revert Hm. elim_minmax; intros; lra. }
  assert (HW : W < A * 0.2802).
  { rewrite E. clearbody q. nra. }
  assert (Hratio : Qltb W (A * 0.3) = true) by (apply Qltb_lt; lra).
  assert (HpA : Qltb 0 A = true) by (apply Qltb_lt; exact HA).
  assert (Hr28 : W / A < 0.2802).
  { apply Qlt_shift_div_r; [exact HA |]. nra. }
  assert (Eratio : walkable_area_ratio
                     (validate_clearances furniture_geometries room_geometry constraints)
                   = W / A).
  { unfold validate_clearances. cbn [walkable_area_ratio]. fold A. rewrite HpA.
    reflexivity. }
  split; [| split].
  - unfold ValidateReport.generate_recommendations. rewrite Eratio.
    assert (E3 : Qltb (W / A) 0.3 = true) by (apply Qltb_lt; lra).
    rewrite E3.
    do 3 (apply in_or_app; right). apply in_or_app. left. left. reflexivity.
  - unfold validate_clearances. cbn [cl_violations]. fold A W. rewrite Hratio.
    apply in_or_app. right. apply in_or_app. right. left. reflexivity.
  - rewrite Eratio. exact Hr28.
Qed.


(** *** Counting boundary violations *)

Lemma prefix_app_sep needle a c s :
  Terms.has_char c needle = false ->
  String.prefix needle (a ++ String c s) = String.prefix needle a.
Proof.
  revert a. induction needle as [| n needle IH]; intros a Hc; [destruct a; reflexivity |].
  cbn [Terms.has_char] in Hc. apply orb_false_iff in Hc. destruct Hc as [Hn Hc].
  destruct a as [| x a]; cbn [String.append String.prefix].
  - destruct (ascii_dec n c) as [E | _]; [| reflexivity].
    subst. rewrite Ascii.eqb_refl in Hn. discriminate.
  - destruct (ascii_dec n x); [apply IH; exact Hc | reflexivity].
Qed.

Lemma is_in_app_sep needle a c s :
  needle <> EmptyString -> Terms.has_char c needle = false ->
  ConstraintSolver.is_in needle (a ++ String c s)
  = ConstraintSolver.is_in needle a || ConstraintSolver.is_in needle (String c s).
Proof.
  intros Hne Hc. induction a as [| x a IH].
  - destruct needle; [contradiction | reflexivity].
  - change (String x a ++ String c s)%string with (String x (a ++ String c s)).
    cbn [ConstraintSolver.is_in].
    change (String x (a ++ String c s)) with (String x a ++ String c s)%string.
    rewrite prefix_app_sep by exact Hc.
    destruct (String.prefix needle (String x a)); [reflexivity | exact IH].
Qed.

Lemma is_in_app_r needle a b :
  ConstraintSolver.is_in needle b = true -> ConstraintSolver.is_in needle (a ++ b) = true.
Proof.
  intros H. induction a as [| x a IH]; [exact H |].
  cbn [String.append ConstraintSolver.is_in].
  destruct (String.prefix needle (String x (a ++ b))); [reflexivity | exact IH].
Qed.

Lemma plain_collision_message name1 name2 :
  ValidateReport.mentions_boundary name1 = false ->
  ValidateReport.mentions_boundary name2 = false ->
  ValidateReport.mentions_boundary ("Collision between " ++ name1 ++ " and " ++ name2)
  = false.
Proof.
  unfold ValidateReport.mentions_boundary. rewrite !orb_false_iff.
  intros [B1 W1] [B2 W2].
  change ("Collision between " ++ name1 ++ " and " ++ name2)%string
    with ("Collision between" ++ String " " (name1 ++ String " " ("and " ++ name2)))%string.
  rewrite !is_in_app_sep by (discriminate || reflexivity).
  cbn [ConstraintSolver.is_in String.prefix String.append].
  split.
  - change (ConstraintSolver.is_in "boundary" "Collision between") with false.
    cbn [orb]. rewrite is_in_app_sep by (discriminate || reflexivity).
    rewrite B1. cbn. exact B2.
  - change (ConstraintSolver.is_in "wall" "Collision between") with false.
    cbn [orb]. rewrite is_in_app_sep by (discriminate || reflexivity).
    rewrite W1. cbn. exact W2.
Qed.


Lemma boundary_message name :
  ValidateReport.mentions_boundary (name ++ " extends outside room boundary") = true.
Proof.
  unfold ValidateReport.mentions_boundary. apply orb_true_iff. left.
  apply is_in_app_r. reflexivity.
Qed.

Lemma wall_message name :
  ValidateReport.mentions_boundary (name ++ " intersects with wall") = true.
Proof.
  unfold ValidateReport.mentions_boundary. apply orb_true_iff. right.
  apply is_in_app_r. reflexivity.
Qed.

Lemma plain_outside_message name :
  ValidateReport.mentions_boundary name = false ->
  ValidateReport.mentions_boundary (name ++ " is completely outside room") = false.
Proof.
  unfold ValidateReport.mentions_boundary. rewrite !orb_false_iff. intros [B W].
  change (name ++ " is completely outside room")%string
    with (name ++ String " " "is completely outside room")%string.
  rewrite !is_in_app_sep by (discriminate || reflexivity).
  rewrite B, W. split; reflexivity.
Qed.

Lemma filter_all {A} (f : A -> bool) (l : list A) :
  Forall (fun a => f a = true) l -> filter f l = l.
Proof.
  induction 1 as [| a l Ha _ IH]; [reflexivity |].
  cbn [filter]. rewrite Ha, IH. reflexivity.
Qed.

Lemma filter_nothing {A} (f : A -> bool) (l : list A) :
  Forall (fun a => f a = false) l -> filter f l = [].
Proof.
  induction 1 as [| a l Ha _ IH]; [reflexivity |].
  cbn [filter]. rewrite Ha. exact IH.
Qed.

Lemma wall_messages_mention_walls furniture_geometries room_geometry :
  Forall (fun v => ValidateReport.mentions_boundary v = true)
         (ValidateReport.wall_messages intersects_wall furniture_geometries room_geometry).
Proof.
  apply Forall_forall. intros v Hv. unfold ValidateReport.wall_messages in Hv.
  apply in_flat_map in Hv. destruct Hv as (f & _ & Hv).
  apply in_flat_map in Hv. destruct Hv as (wall & _ & Hv).
  destruct (intersects_wall (geometry f) wall); [| contradiction].
  destruct Hv as [<- | []]. apply wall_message.
Qed.

(** X24: [boundary_violations] counts the messages that contain
    [boundary] or [wall].  For a room and footprints that are axis-aligned
    rectangles, and when no furniture name contains either word, these
    are the messages about footprints that reach beyond the room while
    meeting it, and the messages about walls; a footprint wholly outside
    the room is not counted. *)
Theorem boundary_violations_are_counted_in_the_messages
    furniture_geometries room_geometry :
  Spec.is_rectangle (room_polygon room_geometry) = true ->
  Forall (fun furniture => Spec.is_rectangle (geometry furniture) = true)
         furniture_geometries ->
  Forall (fun furniture => ValidateReport.mentions_boundary (fg_name furniture) = false)
         furniture_geometries ->
  ValidateReport.boundary_violations
    (ValidateReport.check_collisions intersects_wall format_float
       furniture_geometries room_geometry)
  = (List.length (filter (Terms.extends_outside room_geometry)
                         furniture_geometries)
     + List.length (ValidateReport.wall_messages intersects_wall furniture_geometries
                      room_geometry))%nat.
Proof.
  intros _ _ Hplain. unfold ValidateReport.check_collisions.
  cbn [ValidateReport.boundary_violations]. unfold ValidateWorker.check_collisions.
  cbn [c_violations]. rewrite map_app, !filter_app, !length_app.
  rewrite (filter_all _ _ (wall_messages_mention_walls _ _)). f_equal.
  rewrite filter_nothing.
  - cbn [List.length Nat.add]. clear - Hplain.
    induction Hplain as [| f fs Hf _ IH]; [reflexivity |].
    cbn [flat_map filter]. rewrite map_app, filter_app, length_app, IH.
    unfold Terms.extends_outside at 2.
    destruct (contains (room_polygon room_geometry) (geometry f)); cbn [negb andb];
      [reflexivity |].
    destruct (intersects (geometry f) (room_polygon room_geometry)).
    + cbn [map ValidateReport.message filter]. rewrite boundary_message. reflexivity.
    + cbn [map ValidateReport.message filter].
      rewrite (plain_outside_message _ Hf). reflexivity.
  - apply Forall_map, Forall_map, Forall_forall. intros [f1 f2] Hin.
    apply filter_In in Hin. destruct Hin as [Hin _]. apply pairs_In in Hin.
    rewrite Forall_forall in Hplain.
    cbn [ValidateReport.message].
    apply plain_collision_message; apply Hplain; tauto.
Qed.

(** The count is made on the text of the messages: a collision between
    two pieces inside the room counts as a boundary violation when one of
    them is called a wall shelf. *)
Example collision_with_a_wall_shelf_counts_as_boundary_violation :
  let fs := create_furniture_geometries Inputs.wall_shelf_and_sofa in
  let report := ValidateReport.check_collisions intersects_wall format_float fs
                  Examples.plain_room_geometry in
  ValidateReport.violations report = ["Collision between wall shelf and sofa"%string]
  /\ ValidateReport.boundary_violations report = 1%nat.
Proof. split; reflexivity. Qed.


End Recommendations.

Section RecommendationWitnesses.
Import Shapely ValidateWorker.

Lemma poor_flow_comes_with_low_walkability_witness :
  exists accessibility_results,
    analyze_accessibility (create_furniture_geometries Inputs.four_squares)
      Inputs.packed_room_geometry Inputs.packed_room = Async.Ok accessibility_results
    /\ let clearance_results :=
         validate_clearances (create_furniture_geometries Inputs.four_squares)
           Inputs.packed_room_geometry Examples.no_constraints in
       let recommendations :=
         ValidateReport.generate_recommendations
           (ValidateReport.check_collisions Inputs.no_wall Inputs.no_digits
              (create_furniture_geometries Inputs.four_squares)
              Inputs.packed_room_geometry)
           clearance_results accessibility_results in
       In "Reduce furniture density to improve walkability"%string recommendations
       /\ In InsufficientWalkableArea (cl_violations clearance_results)
       /\ walkable_area_ratio clearance_results < 0.2802.
Proof.
  eexists. split; [reflexivity |].
  apply (poor_flow_comes_with_low_walkability Inputs.no_wall Inputs.no_digits
           (create_furniture_geometries Inputs.four_squares)
           Inputs.packed_room_geometry Inputs.packed_room Examples.no_constraints).
  - reflexivity.
  - vm_compute. repeat (try (left; reflexivity); right).
Defined.

Lemma boundary_violations_are_counted_in_the_messages_witness :
  let fs := create_furniture_geometries Inputs.sofa_across_the_side in
  ValidateReport.boundary_violations
    (ValidateReport.check_collisions Inputs.no_wall Inputs.no_digits fs
       Examples.plain_room_geometry)
  = (List.length (filter (Terms.extends_outside Examples.plain_room_geometry) fs)
     + List.length (ValidateReport.wall_messages Inputs.no_wall fs
                      Examples.plain_room_geometry))%nat.
Proof.
  apply (boundary_violations_are_counted_in_the_messages Inputs.no_wall Inputs.no_digits
           (create_furniture_geometries Inputs.sofa_across_the_side)
           Examples.plain_room_geometry).
  - reflexivity.
  - repeat constructor.
  - repeat constructor.
Defined.

End RecommendationWitnesses.

(** ** The constraint solver *)

Section Solver.
Import ConstraintSolver.
Local Open Scope Z_scope.

(** X25: [solve_layout] raises for every list of items that is not empty,
    whatever the room, the objectives, the state of the model and the
    search: the first constraint of the first item is made conditional on
    a comparison, which the model refuses.  No placement is ever
    returned. *)
Theorem any_item_makes_the_solver_raise
    search furniture_items room_constraints objectives model :
  furniture_items <> [] ->
  solve_layout search furniture_items room_constraints objectives model
  = Raised Refused.
Proof.
  destruct furniture_items as [|item rest]; [congruence |].
  intros _. apply solve_layout_first_item.
Qed.

Lemma any_item_makes_the_solver_raise_witness :
  solve_layout Inputs.first_answer Examples.even_boxes Examples.narrow_room
    Examples.coverage_only empty_model
  = Raised Refused.
Proof.
  apply (any_item_makes_the_solver_raise Inputs.first_answer Examples.even_boxes
           Examples.narrow_room Examples.coverage_only empty_model).
  discriminate.
Defined.

(** X29: for an empty list of items [solve_layout] returns the empty list,
    whatever the search answers.  It adds no variable and no constraint to
    the model, and sets an objective only when some weight is positive. *)
Theorem no_item_gives_the_empty_answer search room_constraints objectives model :
  exists model',
    solve_layout search [] room_constraints objectives model = Done ([], model')
    /\ variables model' = variables model
    /\ constraints model' = constraints model
    /\ (weighted (placement_coverage objectives)
        || weighted (budget_optimization objectives)
        || weighted (flow_optimization objectives) = false ->
        maximized model' = maximized model).
Proof.
  destruct (solve_layout_no_item search room_constraints objectives model)
    as (obj & E & Hobj).
  eexists. split; [exact E |]. cbn. auto.
Qed.

(** *** Weights *)




End Solver.
